(** * plan_expo: reflection parsing, habit streaks, goal validation, metrics

    A shallow embedding of the analytic core of the repository
    (system/scripts/analyze_reflection.py, track_habit_streaks.py,
    validate_goals.py, auto_update_metrics.py, with the metrics of
    generate_daily_dashboard.py, the week arithmetic and statistics of
    generate_weekly_dashboard.py and the .env loader of config_loader.py)
    and the properties of its specification.

    Conventions of the embedding
    - A Python [str] is a list of Unicode code points ([list N]); literals are
      written as UTF-8 text and decoded by [u].
    - A regular expression of the source is a value of [regex]; [mt] is the
      backtracking matcher of Python's [re]: it lists the ways a pattern can
      match at the start of the input in the order the engine tries them, so
      the head of the list is the match Python reports.
    - A Python dict with string keys is a [gmap string pyval].
    - Code that can raise returns a [py_result].
    - Python floats that hold [count / len * 100] are exact rationals ([Q]);
      on histories of any realistic length (below 2^50 entries) the order and
      the comparisons with 50 and 100 agree with binary64 arithmetic. *)

From Stdlib Require Import ZArith NArith QArith Qround List Bool Ascii String Lia.
From Stdlib Require Import DecimalString.
From stdpp Require Import gmap strings.
Import ListNotations.

Local Open Scope nat_scope.
Local Open Scope list_scope.

(* ===================================================================== *)
(** * Part I. Definitions                                                 *)
(* ===================================================================== *)

(** ** Text *)

Abbreviation str := (list N).

(** Code points from the UTF-8 bytes of a literal. *)
Fixpoint utf8_decode (bs : list N) : str :=
  match bs with
  | [] => []
  | b :: rest =>
      if (b <? 128)%N then b :: utf8_decode rest
      else if (b <? 224)%N then
        match rest with
        | b1 :: r => ((b - 192) * 64 + (b1 - 128))%N :: utf8_decode r
        | _ => []
        end
      else if (b <? 240)%N then
        match rest with
        | b1 :: b2 :: r =>
            ((b - 224) * 4096 + (b1 - 128) * 64 + (b2 - 128))%N :: utf8_decode r
        | _ => []
        end
      else
        match rest with
        | b1 :: b2 :: b3 :: r =>
            ((b - 240) * 262144 + (b1 - 128) * 4096 + (b2 - 128) * 64 + (b3 - 128))%N
              :: utf8_decode r
        | _ => []
        end
  end.

Definition u (s : string) : str :=
  utf8_decode (List.map N_of_ascii (list_ascii_of_string s)).

Definition NL : N := 10%N.

(** Unicode whitespace ([str.isspace], [\s]). *)
Definition is_space (c : N) : bool :=
  ((9 <=? c) && (c <=? 13) || (28 <=? c) && (c <=? 32) || (c =? 133) || (c =? 160)
   || (c =? 5760) || (8192 <=? c) && (c <=? 8202) || (c =? 8232) || (c =? 8233)
   || (c =? 8239) || (c =? 8287) || (c =? 12288))%N.

(** Decimal digits ([\d]); the ASCII block of category Nd. *)
Definition is_digit (c : N) : bool := ((48 <=? c) && (c <=? 57))%N.

(** Word characters ([\w]) of the Basic Latin, Latin-1 and Cyrillic blocks,
    the scripts the journal is written in. *)
Definition is_word (c : N) : bool :=
  (is_digit c || (65 <=? c) && (c <=? 90) || (97 <=? c) && (c <=? 122) || (c =? 95)
   || (c =? 170) || (c =? 181) || (c =? 186)
   || (192 <=? c) && (c <=? 255) && negb (c =? 215) && negb (c =? 247)
   || (1024 <=? c) && (c <=? 1153) || (1162 <=? c) && (c <=? 1327))%N.

(** Simple lower-case mapping of a code point (Basic Latin, Latin-1,
    Cyrillic U+0400..U+042F). *)
Definition lower_cp (c : N) : N :=
  (if (65 <=? c) && (c <=? 90) then c + 32
   else if (192 <=? c) && (c <=? 222) && negb (c =? 215) then c + 32
   else if (1024 <=? c) && (c <=? 1039) then c + 80
   else if (1040 <=? c) && (c <=? 1071) then c + 32
   else c)%N.

(** [str.lower()]. *)
Definition lower (s : str) : str := List.map lower_cp s.

Definition str_eqb (a b : str) : bool := if decide (a = b) then true else false.

(** [s.startswith(p)]. *)
Fixpoint startswith (p s : str) : bool :=
  match p, s with
  | [], _ => true
  | a :: p', b :: s' => (a =? b)%N && startswith p' s'
  | _ :: _, [] => false
  end.

(** [p in s]. *)
Fixpoint contains (p s : str) : bool :=
  startswith p s || match s with [] => false | _ :: s' => contains p s' end.

Fixpoint lstrip_by (f : N -> bool) (s : str) : str :=
  match s with
  | a :: s' => if f a then lstrip_by f s' else s
  | [] => []
  end.

Definition strip_by (f : N -> bool) (s : str) : str :=
  rev (lstrip_by f (rev (lstrip_by f s))).

(** [s.strip()]. *)
Definition strip (s : str) : str := strip_by is_space s.

(** [s.split(sep)] for a one-character separator. *)
Fixpoint split_on (sep : N) (s : str) : list str :=
  match s with
  | [] => [[]]
  | a :: s' =>
      if (a =? sep)%N then [] :: split_on sep s'
      else match split_on sep s' with
           | l :: ls => (a :: l) :: ls
           | [] => [[a]]
           end
  end.

(** [int(s)] on a string of decimal digits. *)
Definition int_of (s : str) : Z :=
  fold_left (fun acc c => (acc * 10 + (Z.of_N c - 48))%Z) s 0%Z.

(** [str(n)] for a natural number. *)
Definition str_of_N (n : N) : str :=
  List.map N_of_ascii (list_ascii_of_string (NilEmpty.string_of_uint (N.to_uint n))).

(** [str(z)] for an integer. *)
Definition str_of_Z (z : Z) : str :=
  match z with
  | Zneg p => 45%N :: str_of_N (Npos p)
  | _ => str_of_N (Z.to_N z)
  end.

(** ** Regular expressions *)

Inductive regex : Type :=
| Eps
| Sym (p : N -> bool)
| Seq (r1 r2 : regex)
| Alt (r1 r2 : regex)
| Rep (greedy : bool) (lo : nat) (hi : option nat) (r : regex)
| Grp (n : nat) (r : regex)
| Ahead (r : regex)
| Eos.

(** Captured groups, most recent first. *)
Abbreviation caps := (list (nat * str)).

Definition group (n : nat) (c : caps) : str :=
  match find (fun x => fst x =? n) c with
  | Some x => snd x
  | None => []
  end.

(** The text consumed between input [s] and its suffix [rest]. *)
Definition consumed (s rest : str) : str := firstn (length s - length rest) s.

(** [$] without MULTILINE: at the end, or before a final newline. *)
Definition at_end (s : str) : bool :=
  match s with
  | [] => true
  | [c] => (c =? NL)%N
  | _ => false
  end.

Definition hi_done (hi : option nat) : bool :=
  match hi with Some O => true | _ => false end.

Definition hi_pred (hi : option nat) : option nat :=
  match hi with Some n => Some (pred n) | None => None end.

Definition progress (s : str) (x : caps * str) : bool := length (snd x) <? length s.

(** Repetition [r{lo,hi}]: greedy tries another round before stopping, lazy
    stops first. A round must consume input; [fuel] bounds the rounds by the
    length of the input. *)
Fixpoint rep (step : str -> caps -> list (caps * str)) (greedy : bool)
    (fuel lo : nat) (hi : option nat) (s : str) (c : caps) {struct fuel}
    : list (caps * str) :=
  let stop := if lo =? 0 then [(c, s)] else [] in
  let more :=
    match fuel with
    | O => []
    | S fuel' =>
        if hi_done hi then []
        else flat_map (fun x => rep step greedy fuel' (pred lo) (hi_pred hi) (snd x) (fst x))
                      (List.filter (progress s) (step s c))
    end in
  if greedy then more ++ stop else stop ++ more.

(** All the ways [r] matches a prefix of [s], in backtracking order: each
    result is the captures and the rest of the input. *)
Fixpoint mt (r : regex) (s : str) (c : caps) {struct r} : list (caps * str) :=
  match r with
  | Eps => [(c, s)]
  | Sym p => match s with
             | a :: s' => if p a then [(c, s')] else []
             | [] => []
             end
  | Seq r1 r2 => flat_map (fun x => mt r2 (snd x) (fst x)) (mt r1 s c)
  | Alt r1 r2 => mt r1 s c ++ mt r2 s c
  | Rep g lo hi r1 => rep (mt r1) g (length s) lo hi s c
  | Grp n r1 => List.map (fun x => ((n, consumed s (snd x)) :: fst x, snd x)) (mt r1 s c)
  | Ahead r1 => match mt r1 s c with [] => [] | _ :: _ => [(c, s)] end
  | Eos => if at_end s then [(c, s)] else []
  end.

(** Flags of a pattern. *)
Record flags := { ignorecase : bool; dotall : bool }.
Definition no_flags : flags := {| ignorecase := false; dotall := false |}.
Definition IGNORECASE : flags := {| ignorecase := true; dotall := false |}.
Definition DOTALL : flags := {| ignorecase := false; dotall := true |}.
Definition IGNORECASE_DOTALL : flags := {| ignorecase := true; dotall := true |}.

(** A literal character of a pattern. *)
Definition chr (f : flags) (a : N) : regex :=
  Sym (fun b => if ignorecase f then (lower_cp a =? lower_cp b)%N else (a =? b)%N).

(** A literal run of characters. *)
Definition lit (f : flags) (w : str) : regex :=
  fold_right (fun a r => Seq (chr f a) r) Eps w.

(** [.] *)
Definition dot (f : flags) : regex :=
  Sym (fun b => dotall f || negb (b =? NL)%N).

Definition star (r : regex) : regex := Rep true 0 None r.
Definition plus (r : regex) : regex := Rep true 1 None r.
Definition plus_lazy (r : regex) : regex := Rep false 1 None r.
Definition opt (r : regex) : regex := Rep true 0 (Some 1) r.

(** A match object: the text before the match, the matched text, the groups
    and the text after the match. *)
Record rmatch := { m_pre : str; m_text : str; m_groups : caps; m_post : str }.

(** [re.search]: the first position at which the pattern matches; [pre] is
    the text already skipped, reversed. *)
Fixpoint search_from (r : regex) (pre : str) (s : str) {struct s} : option rmatch :=
  match mt r s [] with
  | x :: _ =>
      Some {| m_pre := rev pre; m_text := consumed s (snd x);
              m_groups := fst x; m_post := snd x |}
  | [] =>
      match s with
      | [] => None
      | a :: s' => search_from r (a :: pre) s'
      end
  end.

Definition re_search (r : regex) (s : str) : option rmatch := search_from r [] s.

(** A match moved one character to the right. *)
Definition shift (a : N) (m : rmatch) : rmatch :=
  {| m_pre := a :: m_pre m; m_text := m_text m; m_groups := m_groups m; m_post := m_post m |}.

(** [re.finditer]: successive non-overlapping matches, each with the gap
    since the previous one in [m_pre]; also returns the text after the last
    match. Every pattern of the program matches at least one character, so
    the scan resumes where the previous match ended (one character further
    after an empty match). *)
Fixpoint scan (r : regex) (fuel : nat) (s : str) {struct fuel} : list rmatch * str :=
  match fuel with
  | O => ([], s)
  | S fuel' =>
      match re_search r s with
      | None => ([], s)
      | Some m =>
          match m_text m, m_post m with
          | [], [] => ([m], [])
          | [], a :: post =>
              let '(ms, tl) := scan r fuel' post in
              (m :: List.map (shift a) ms, match ms with [] => a :: tl | _ => tl end)
          | _ :: _, post =>
              let '(ms, tl) := scan r fuel' post in (m :: ms, tl)
          end
      end
  end.

Definition re_finditer (r : regex) (s : str) : list rmatch := fst (scan r (S (length s)) s).

(** [re.sub(pattern, repl, s)], [repl] computing the replacement of a match. *)
Definition re_sub (r : regex) (repl : rmatch -> str) (s : str) : str :=
  let '(ms, tl) := scan r (S (length s)) s in
  flat_map (fun m => m_pre m ++ repl m) ms ++ tl.

(** [re.findall] for a pattern without groups: the matched texts. *)
Definition re_findall (r : regex) (s : str) : list str := List.map m_text (re_finditer r s).

(** [re.findall] for a pattern with one group: the texts of group 1. *)
Definition re_findall1 (r : regex) (s : str) : list str :=
  List.map (fun m => group 1 (m_groups m)) (re_finditer r s).

(** Pattern building blocks. *)
Definition seqs (rs : list regex) : regex := fold_right Seq Eps rs.
Definition one_of (cs : str) (c : N) : bool := existsb (N.eqb c) cs.
Definition none_of (cs : str) (c : N) : bool := negb (one_of cs c).
Definition nf : flags := no_flags.
Definition ws : regex := Sym is_space.
Definition digit : regex := Sym is_digit.
Definition exactly (n : nat) (r : regex) : regex := Rep true n (Some n) r.
Definition nonempty (s : str) : bool := match s with [] => false | _ :: _ => true end.

(** ** Python values and results *)

Inductive event_type := FORCED_CHANGE | VOLUNTARY_CHANGE.
Inductive confidence := high | medium.

Record CriticalEvent := {
  ev_type : event_type;
  ev_keyword : str;
  ev_context : str;
  ev_confidence : confidence
}.

Inductive pyval :=
| VNone
| VInt (z : Z)
| VStr (s : str)
| VList (l : list str)
| VEvents (l : list CriticalEvent).

Inductive py_exn := TypeError | AttributeError | OSError.

Inductive py_result (A : Type) :=
| Ret (a : A)
| Raise (e : py_exn).
Arguments Ret {A} a.
Arguments Raise {A} e.

#[global] Instance py_ret : MRet py_result := fun A a => Ret a.

#[global] Instance py_bind : MBind py_result := fun A B k m =>
  match m with
  | Ret a => k a
  | Raise e => Raise e
  end.

(** [d.get(k, dflt)]. *)
Definition dict_get (d : gmap string pyval) (k : string) (dflt : pyval) : pyval :=
  match d !! k with
  | Some v => v
  | None => dflt
  end.

(** A file as the scripts see it: missing, present but failing to open or
    decode (with the message of the error), or readable. *)
Inductive file_state :=
| Absent
| Unreadable (msg : str)
| Readable (content : str).

(** ** analyze_reflection.py *)

Definition forced_keywords : list str :=
  List.map u ["авария"; "потерял"; "уволили"; "болезнь"; "кризис";
              "не могу"; "невозможно"; "форс-мажор"; "вынужден";
              "пришлось"; "обстоятельства"; "потеря дохода"; "потеря работы";
              "травм"; "госпитал"; "операция"]%string.

Definition voluntary_keywords : list str :=
  List.map u ["решил изменить"; "переосмыслил"; "понял, что";
              "новые приоритеты"; "больше не актуально";
              "хочу сфокусироваться"; "изменил приоритеты"]%string.

Definition severe_keywords : list str :=
  List.map u ["авария"; "потерял"; "уволили"; "болезнь"]%string.

(** [r'.{0,100}' + keyword + r'.{0,100}'] under IGNORECASE | DOTALL. Every
    keyword of the two lists is plain text as a pattern. *)
Definition context_pattern (keyword : str) : regex :=
  Seq (Rep true 0 (Some 100) (dot IGNORECASE_DOTALL))
      (Seq (lit IGNORECASE_DOTALL keyword)
           (Rep true 0 (Some 100) (dot IGNORECASE_DOTALL))).

(** One round of either keyword loop of [detect_critical_events]. *)
Definition detect_keyword (ty : event_type) (conf : str -> confidence)
    (content keyword : str) : list CriticalEvent :=
  match re_search (lit IGNORECASE keyword) (lower content) with
  | Some _ =>
      match re_findall (context_pattern keyword) content with
      | m0 :: _ => [ {| ev_type := ty; ev_keyword := keyword;
                        ev_context := firstn 200 m0; ev_confidence := conf keyword |} ]
      | [] => []
      end
  | None => []
  end.

Definition forced_confidence (keyword : str) : confidence :=
  if existsb (str_eqb keyword) severe_keywords then high else medium.

(** [detect_critical_events(content)]; the three section searches whose
    results the function never reads are left out. *)
Definition detect_critical_events (content : str) : list CriticalEvent :=
  flat_map (detect_keyword FORCED_CHANGE forced_confidence content) forced_keywords
  ++ flat_map (detect_keyword VOLUNTARY_CHANGE (fun _ => medium) content) voluntary_keywords.

(** One item of a checklist block: [- \[[ x]\] .+\n?] *)
Definition item_re : regex :=
  seqs [lit nf (u "- ["); Sym (one_of (u " x")); lit nf (u "] "); plus (dot nf);
        opt (chr nf NL)].

(** [header\s*\n((?:- \[[ x]\] .+\n?)+)] *)
Definition checklist_re (header : str) : regex :=
  seqs [lit nf header; star ws; chr nf NL; Grp 1 (plus item_re)].

(** [- \[[xX]\]\s*] *)
Definition checkbox_re : regex :=
  seqs [lit nf (u "- ["); Sym (one_of (u "xX")); lit nf (u "]"); star ws].

(** The body of the checklist loops: a line carrying a check mark gives its
    text without the checkbox, unless nothing is left. *)
Definition done_item (line : str) : list str :=
  if contains (u "[x]") line || contains (u "[X]") line then
    let action := strip (re_sub checkbox_re (fun _ => []) line) in
    if nonempty action then [action] else []
  else [].

(** Lines of [section.group(1).strip().split('\n')]. *)
Definition section_lines (m : rmatch) : list str :=
  split_on NL (strip (group 1 (m_groups m))).

Definition operations_done_of (content : str) : list str :=
  match re_search (checklist_re (u "#### Операции:")) content with
  | Some m =>
      flat_map (fun line =>
                  if nonempty (strip line)
                     && negb (startswith (u "- [ ]") (strip line))
                     && negb (startswith (u "- [x]") (strip line))
                  then [] else done_item line)
               (section_lines m)
  | None => []
  end.

Definition checklist_done_of (header content : str) : list str :=
  match re_search (checklist_re header) content with
  | Some m => flat_map done_item (section_lines m)
  | None => []
  end.

(** [label\s*\n((?:- .+\n?)+)] *)
Definition bullets_re (label : str) : regex :=
  seqs [lit nf label; star ws; chr nf NL;
        Grp 1 (plus (seqs [lit nf (u "- "); plus (dot nf); opt (chr nf NL)]))].

Definition bullets_of (label content : str) : list str :=
  match re_search (bullets_re label) content with
  | Some m =>
      flat_map (fun line =>
                  if nonempty (strip line) && negb (str_eqb (strip line) (u "-"))
                  then [strip (strip_by (one_of (u "- ")) line)] else [])
               (section_lines m)
  | None => []
  end.

(** [label\s*\[?(\d+)\]?] and [label\s*\[?(\d+)%?\]?] *)
Definition rating_re (label : str) : regex :=
  seqs [lit nf label; star ws; opt (chr nf 91%N); Grp 1 (plus digit); opt (chr nf 93%N)].
Definition percent_re (label : str) : regex :=
  seqs [lit nf label; star ws; opt (chr nf 91%N); Grp 1 (plus digit);
        opt (chr nf 37%N); opt (chr nf 93%N)].

Definition int_field (r : regex) (content : str) : pyval :=
  match re_search r content with
  | Some m => VInt (int_of (group 1 (m_groups m)))
  | None => VNone
  end.

(** [label\s*\[?([^\]]+)\]?] *)
Definition tier_re (label : str) : regex :=
  seqs [lit nf label; star ws; opt (chr nf 91%N);
        Grp 1 (plus (Sym (none_of (u "]")))); opt (chr nf 93%N)].

Definition tier_field (label content : str) : pyval :=
  match re_search (tier_re label) content with
  | Some m => VStr (strip (group 1 (m_groups m)))
  | None => VNone
  end.

(** [header\s*\n\n(.+?)(?=\n---|\n##|$)] under DOTALL. *)
Definition block_re (header : str) : regex :=
  seqs [lit DOTALL header; star ws; chr DOTALL NL; chr DOTALL NL;
        Grp 1 (plus_lazy (dot DOTALL));
        Ahead (Alt (lit DOTALL [NL; 45; 45; 45]%N) (Alt (lit DOTALL [NL; 35; 35]%N) Eos))].

Definition block_field (header content : str) : pyval :=
  match re_search (block_re header) content with
  | Some m => VStr (strip (group 1 (m_groups m)))
  | None => VStr []
  end.

(** The record [parse_reflection_file] builds from the text of a file whose
    path has stem [stem]. *)
Definition parse_reflection_text (stem content : str) : gmap string pyval :=
  <["date" := VStr stem]> (
  <["operations_done" := VList (operations_done_of content)]> (
  <["tactics_done" := VList (checklist_done_of (u "#### Тактика:") content)]> (
  <["evidence_done" :=
      VList (checklist_done_of (u "### Доказательства идентичности") content)]> (
  <["obstacles" := VList (bullets_of (u "**Что помешало:**") content)]> (
  <["helpful_factors" := VList (bullets_of (u "**Что помогло:**") content)]> (
  <["rating" := int_field (rating_re (u "**Общая оценка:**")) content]> (
  <["operations_percent" := int_field (percent_re (u "**Выполнение операций:**")) content]> (
  <["tactics_percent" := int_field (percent_re (u "**Выполнение тактики:**")) content]> (
  <["energy" := tier_field (u "**Энергия:**") content]> (
  <["motivation" := tier_field (u "**Мотивация:**") content]> (
  <["focus" := tier_field (u "**Фокус:**") content]> (
  <["insights" := block_field (u "## Инсайты и наблюдения") content]> (
  <["plan_tomorrow" := block_field (u "## План на завтра") content]> (
  <["critical_events" := VEvents (detect_critical_events content)]> ∅)))))))))))))).

(** [parse_reflection_file(reflection_path)]: opening a missing or
    undecodable file raises. *)
Definition parse_reflection_file (stem : str) (f : file_state)
    : py_result (gmap string pyval) :=
  match f with
  | Readable content => Ret (parse_reflection_text stem content)
  | _ => Raise OSError
  end.

(** ** track_habit_streaks.py *)

Inductive habit_type := implementation_intention | tiny_habit.

(** A habit: its display name, its kind, its trigger (or anchor) and its
    action. *)
Record Habit := { h_name : str; h_type : habit_type; h_cue : str; h_action : str }.

(** [- ЕСЛИ (.+?) → ТО (.+?)(?:\n|$)] *)
Definition if_then_pattern : regex :=
  seqs [lit nf (u "- ЕСЛИ "); Grp 1 (plus_lazy (dot nf)); lit nf (u " → ТО ");
        Grp 2 (plus_lazy (dot nf)); Alt (chr nf NL) Eos].

(** [- После (.+?) → (.+?)(?:\n|$)] *)
Definition tiny_pattern : regex :=
  seqs [lit nf (u "- После "); Grp 1 (plus_lazy (dot nf)); lit nf (u " → ");
        Grp 2 (plus_lazy (dot nf)); Alt (chr nf NL) Eos].

(** [ → праздную:.*$] *)
Definition celebration_re : regex :=
  seqs [lit nf (u " → праздную:"); star (dot nf); Eos].

Definition if_then_habit (m : rmatch) : Habit :=
  let trigger := strip (group 1 (m_groups m)) in
  let action := strip (group 2 (m_groups m)) in
  {| h_name := u "ЕСЛИ " ++ trigger ++ u " → ТО " ++ action;
     h_type := implementation_intention; h_cue := trigger; h_action := action |}.

Definition tiny_habit_of (m : rmatch) : Habit :=
  let anchor := strip (group 1 (m_groups m)) in
  let action := re_sub celebration_re (fun _ => []) (strip (group 2 (m_groups m))) in
  {| h_name := u "После " ++ anchor ++ u " → " ++ action;
     h_type := tiny_habit; h_cue := anchor; h_action := action |}.

Definition extract_habits (goal_content : str) : list Habit :=
  List.map if_then_habit (re_finditer if_then_pattern goal_content)
  ++ List.map tiny_habit_of (re_finditer tiny_pattern goal_content).

(** [set(re.findall(r'\w+', s))] *)
Definition word_re : regex := plus (Sym is_word).
Definition keywords (s : str) : gset str := list_to_set (re_findall word_re s).

(** The test of one operation: [len(hk & ok) >= len(hk) * 0.5]; both sides
    are small integers or halves, so the float comparison is exact. *)
Definition keyword_overlap (habit : Habit) (operation : str) : bool :=
  let habit_keywords := keywords (lower (h_name habit)) in
  let operation_keywords := keywords (lower operation) in
  size habit_keywords <=? 2 * size (habit_keywords ∩ operation_keywords).

(** What [for operation in operations_done] iterates over and calls
    [.lower()] on. *)
Definition operations_iter (v : pyval) : py_result (list str) :=
  match v with
  | VList l => Ret l
  | VStr s => Ret (List.map (fun c => [c]) s)
  | VEvents [] => Ret []
  | VEvents (_ :: _) => Raise AttributeError
  | VNone | VInt _ => Raise TypeError
  end.

(** [x >= 80] for a Python value [x]. *)
Definition ge_80 (v : pyval) : py_result bool :=
  match v with
  | VInt p => Ret (80 <=? p)%Z
  | _ => Raise TypeError
  end.

Definition check_habit_completion (habit : Habit) (reflection_data : gmap string pyval)
    : py_result bool :=
  operations_done ← operations_iter (dict_get reflection_data "operations_done" (VList []));
  if existsb (keyword_overlap habit) operations_done then Ret true
  else (high_percent ← ge_80 (dict_get reflection_data "operations_percent" (VInt 0));
        if (high_percent : bool) then Ret true else Ret false).

(** Dates are proleptic ordinals ([date.toordinal()]); ordinal 1 is a Monday. *)
Definition weekday_names : list string :=
  ["Monday"; "Tuesday"; "Wednesday"; "Thursday"; "Friday"; "Saturday"; "Sunday"]%string.

(** [date.strftime('%A')] *)
Definition strftime_A (date : Z) : string :=
  nth (Z.to_nat ((date + 6) mod 7)) weekday_names "Monday"%string.

(** The daily reflections: for the date of each day, the stem of its path
    ([YYYY-MM-DD]) and the state of the file at that path. *)
Record daily_dir := { stem_of : Z -> str; file_of : Z -> file_state }.

Record entry := { e_date : Z; e_completed : bool; e_day_of_week : string }.

(** One round of the collecting loop of [calculate_streaks]: a missing file
    and any exception give a day that is not completed. *)
Definition day_entry (habit : Habit) (dir : daily_dir) (date : Z) : entry :=
  let completed :=
    match file_of dir date with
    | Absent => false
    | f =>
        match (reflection_data ← parse_reflection_file (stem_of dir date) f;
               check_habit_completion habit reflection_data) with
        | Ret completed => completed
        | Raise _ => false
        end
    end in
  {| e_date := date; e_completed := completed; e_day_of_week := strftime_A date |}.

(** The history, oldest day first. *)
Definition collect_history (habit : Habit) (dir : daily_dir) (today : Z) (days_back : nat)
    : list entry :=
  rev (List.map (fun i => day_entry habit dir (today - Z.of_nat i)) (seq 0 days_back)).

Record StreakStats := {
  current_streak : nat;
  max_streak : nat;
  completion_rate_7d : Q;
  completion_rate_30d : Q;
  completion_rate_all : Q;
  avg_per_week : Q;
  best_days : list string;
  worst_days : list string;
  day_stats : list (string * Q)
}.

Fixpoint leading_completed (l : list entry) : nat :=
  match l with
  | e :: l' => if e_completed e then S (leading_completed l') else 0
  | [] => 0
  end.

(** The pair [(max_streak, temp_streak)] after one more entry. *)
Definition streak_step (acc : nat * nat) (e : entry) : nat * nat :=
  if e_completed e then (Nat.max (fst acc) (S (snd acc)), S (snd acc))
  else (fst acc, 0).

Definition count_true (l : list bool) : nat := length (List.filter (fun b => b) l).

(** [sum(...) / len(l) * 100 if l else 0] *)
Definition percent_of (l : list bool) : Q :=
  match l with
  | [] => 0%Q
  | _ => (inject_Z (Z.of_nat (count_true l)) / inject_Z (Z.of_nat (length l)) * 100)%Q
  end.

(** [l[-n:] if len(l) >= n else l] *)
Definition last_days (n : nat) (l : list entry) : list entry :=
  if n <=? length l then skipn (length l - n) l else l.

Definition round_half_even (x : Q) : Z :=
  let f := Qfloor x in
  match (x - inject_Z f ?= 1 # 2)%Q with
  | Lt => f
  | Gt => (f + 1)%Z
  | Eq => if Z.even f then f else (f + 1)%Z
  end.

(** [round(x, 1)] *)
Definition round1 (x : Q) : Q := (inject_Z (round_half_even (x * 10)) / 10)%Q.

(** [day_completion[day].append(completed)] on a dict in insertion order. *)
Fixpoint dd_append (day : string) (completed : bool) (d : list (string * list bool))
    : list (string * list bool) :=
  match d with
  | [] => [(day, [completed])]
  | (day', l) :: d' =>
      if String.eqb day day' then (day', l ++ [completed]) :: d'
      else (day', l) :: dd_append day completed d'
  end.

Definition day_completion (history : list entry) : list (string * list bool) :=
  fold_left (fun d e => dd_append (e_day_of_week e) (e_completed e) d) history [].

(** Stable insertion into a list sorted by decreasing rate. *)
Fixpoint insert_desc (x : string * Q) (l : list (string * Q)) : list (string * Q) :=
  match l with
  | [] => [x]
  | y :: l' => if Qle_bool (snd x) (snd y) then y :: insert_desc x l' else x :: l
  end.

(** [sorted(items, key=lambda x: x[1], reverse=True)] *)
Definition sorted_desc (l : list (string * Q)) : list (string * Q) :=
  fold_left (fun acc x => insert_desc x acc) l [].

Definition lt_50 (x : string * Q) : bool := negb (Qle_bool 50 (snd x)).
Definition ge_50 (x : string * Q) : bool := Qle_bool 50 (snd x).

(** Step 4: the completion percentage of each weekday seen. *)
Definition day_stats_of (completion_history : list entry) : list (string * Q) :=
  flat_map (fun dc => match snd dc with
                      | [] => []
                      | _ :: _ => [(fst dc, percent_of (snd dc))]
                      end)
           (day_completion completion_history).

Definition best_days_of (stats : list (string * Q)) : list string :=
  match stats with
  | [] => []
  | _ => List.map fst (List.filter ge_50 (firstn 2 (sorted_desc stats)))
  end.

Definition worst_days_of (stats : list (string * Q)) : list string :=
  match stats with
  | [] => []
  | _ =>
      let sorted_days := sorted_desc stats in
      List.map fst (List.filter lt_50 (skipn (length sorted_days - 2) sorted_days))
  end.

(** Step 5: [total_completions / weeks if weeks > 0 else 0]. *)
Definition per_week (completion_history : list entry) : Q :=
  let weeks := length completion_history / 7 in
  if 0 <? weeks
  then (inject_Z (Z.of_nat (count_true (List.map e_completed completion_history)))
        / inject_Z (Z.of_nat weeks))%Q
  else 0%Q.

(** The statistics [calculate_streaks] derives from a completion history. *)
Definition streak_stats (completion_history : list entry) : StreakStats :=
  let done := List.map e_completed in
  {| current_streak := leading_completed (rev completion_history);
     max_streak := fst (fold_left streak_step completion_history (0, 0));
     completion_rate_7d := round1 (percent_of (done (last_days 7 completion_history)));
     completion_rate_30d := round1 (percent_of (done (last_days 30 completion_history)));
     completion_rate_all := round1 (percent_of (done completion_history));
     avg_per_week := round1 (per_week completion_history);
     best_days := best_days_of (day_stats_of completion_history);
     worst_days := worst_days_of (day_stats_of completion_history);
     day_stats := day_stats_of completion_history |}.

Definition calculate_streaks (habit : Habit) (dir : daily_dir) (today : Z) (days_back : nat)
    : StreakStats :=
  streak_stats (collect_history habit dir today days_back).

(** ** validate_goals.py *)

Inductive level := CRITICAL | WARNING | RECOMMENDATION.

Record issue := { i_message : str; i_file : option str; i_fix : option str }.

(** [ValidationReport.issues]: the list of issues of each level. *)
Record ValidationReport := {
  critical : list issue;
  warning : list issue;
  recommendation : list issue
}.

Definition new_report : ValidationReport :=
  {| critical := []; warning := []; recommendation := [] |}.

Definition add_issue (lv : level) (message : str) (file_path fix_command : option str)
    (report : ValidationReport) : ValidationReport :=
  let i := {| i_message := message; i_file := file_path; i_fix := fix_command |} in
  match lv with
  | CRITICAL =>
      {| critical := critical report ++ [i]; warning := warning report;
         recommendation := recommendation report |}
  | WARNING =>
      {| critical := critical report; warning := warning report ++ [i];
         recommendation := recommendation report |}
  | RECOMMENDATION =>
      {| critical := critical report; warning := warning report;
         recommendation := recommendation report ++ [i] |}
  end.

Definition has_critical (report : ValidationReport) : bool := 0 <? length (critical report).

Definition required_sections : list (str * str) :=
  [(u "## СТРАТЕГИЧЕСКИЙ УРОВЕНЬ", u "Стратегический уровень");
   (u "## ТАКТИЧЕСКИЙ УРОВЕНЬ", u "Тактический уровень");
   (u "## ОПЕРАЦИОННЫЙ УРОВЕНЬ", u "Операционный уровень");
   (u "## ИСТОРИЯ ИЗМЕНЕНИЙ", u "История изменений")].

(** [\*\*Статус:\*\*\s+(active|completed|paused|cancelled)] *)
Definition status_re : regex :=
  seqs [lit nf (u "**Статус:**"); plus ws;
        Grp 1 (Alt (lit nf (u "active")) (Alt (lit nf (u "completed"))
              (Alt (lit nf (u "paused")) (lit nf (u "cancelled")))))].

(** [\d{4}-\d{2}-\d{2}] *)
Definition iso_date_re : regex :=
  seqs [exactly 4 digit; chr nf 45%N; exactly 2 digit; chr nf 45%N; exactly 2 digit].

(** [label\s+(\d{4}-\d{2}-\d{2})] *)
Definition date_field_re (label : str) : regex :=
  seqs [lit nf label; plus ws; Grp 1 iso_date_re].

(** [(\d+)%] *)
Definition percent_value_re : regex := seqs [Grp 1 (plus digit); chr nf 37%N].

Definition is_some {A} (o : option A) : bool := match o with Some _ => true | None => false end.

(** The message of the error [open] raises on a file. *)
Definition read_error (path : str) (f : file_state) : str :=
  match f with
  | Unreadable msg => msg
  | _ => u "[Errno 2] No such file or directory: '" ++ path ++ u "'"
  end.

(** The messages of the issues of a goal file. *)
Definition section_message (name : str) : str := u "Отсутствует секция '" ++ name ++ u "'".
Definition status_message : str :=
  u "Некорректный или отсутствующий статус (должен быть: active|completed|paused|cancelled)".
Definition created_message : str :=
  u "Отсутствует или некорректна дата создания (формат: YYYY-MM-DD)".
Definition updated_message : str :=
  u "Отсутствует или некорректно последнее обновление (формат: YYYY-MM-DD)".
Definition percent_message (percent : str) : str :=
  u "Процент выше 100%: " ++ percent ++ u "%".

Definition check_sections (goal_path content : str) (report : ValidationReport)
    : ValidationReport :=
  fold_left (fun rep section =>
               if contains (fst section) content then rep
               else add_issue CRITICAL (section_message (snd section))
                              (Some goal_path) None rep)
            required_sections report.

Definition check_status (goal_path content : str) (report : ValidationReport)
    : ValidationReport :=
  if is_some (re_search status_re content) then report
  else add_issue CRITICAL status_message (Some goal_path) None report.

Definition check_dates (goal_path content : str) (report : ValidationReport)
    : ValidationReport :=
  let report :=
    if is_some (re_search (date_field_re (u "**Дата создания:**")) content) then report
    else add_issue WARNING created_message (Some goal_path) None report in
  if is_some (re_search (date_field_re (u "**Последнее обновление:**")) content) then report
  else add_issue WARNING updated_message (Some goal_path) None report.

Definition check_percents (goal_path content : str) (report : ValidationReport)
    : ValidationReport :=
  fold_left (fun rep percent =>
               if (100 <? int_of percent)%Z
               then add_issue WARNING (percent_message percent) (Some goal_path) None rep
               else rep)
            (re_findall1 percent_value_re content) report.

(** [validate_goal_file]: only opening the file can raise, before any check. *)
Definition validate_goal_file (goal_path : str) (f : file_state) (report : ValidationReport)
    : ValidationReport :=
  match f with
  | Readable content =>
      check_percents goal_path content
        (check_dates goal_path content
           (check_status goal_path content
              (check_sections goal_path content report)))
  | _ =>
      add_issue CRITICAL (u "Ошибка чтения файла: " ++ read_error goal_path f)
                (Some goal_path) None report
  end.

(** The project tree as one validation run sees it. *)
Record project := {
  GOALS_DIR : str;
  DAILY_DIR : str;
  (** [GOALS_DIR.glob("*.md")] with the state of each file, [None] when the
      directory does not exist *)
  goal_files : option (list (str * file_state));
  daily_exists : bool;
  (** the stems of [DAILY_DIR.glob("*.md")] *)
  misplaced_files : list str;
  (** whether creating the target directory and renaming the file of this
      stem succeed *)
  move_ok : str -> bool;
  (** [DAILY_DIR.rglob("*.md")], after the structure check ran with the given
      fix flag, with the state of each file *)
  reflection_files : bool -> list (str * file_state);
  (** whether the report file can be written *)
  report_writable : bool
}.

Definition SLASH : str := [47%N].

(** [re.match(r'(\d{4})-(\d{2})-(\d{2})', filename)]: the groups, when the
    pattern matches at the start. *)
Definition date_match (filename : str) : option caps :=
  match mt (seqs [Grp 1 (exactly 4 digit); chr nf 45%N; Grp 2 (exactly 2 digit);
                  chr nf 45%N; Grp 3 (exactly 2 digit)]) filename [] with
  | x :: _ => Some (fst x)
  | [] => None
  end.

(** One round of the loop over the misplaced files. *)
Definition check_misplaced (p : project) (fix_mode : bool) (report : ValidationReport)
    (filename : str) : py_result ValidationReport :=
  let file_path := DAILY_DIR p ++ SLASH ++ filename ++ u ".md" in
  match date_match filename with
  | Some _ =>
      let report := add_issue CRITICAL (u "Неправильная структура директорий рефлексии")
                              (Some file_path)
                              (Some (u "python scripts/validate_goals.py --fix")) report in
      if fix_mode && negb (move_ok p filename) then Raise OSError else Ret report
  | None =>
      Ret (add_issue WARNING
             (u "Некорректное имя файла рефлексии (ожидается YYYY-MM-DD.md): " ++ filename)
             (Some file_path) None report)
  end.

Fixpoint for_each {A S} (body : S -> A -> py_result S) (l : list A) (st : S) : py_result S :=
  match l with
  | [] => Ret st
  | a :: l' => st' ← body st a; for_each body l' st'
  end.

Definition validate_reflections_structure (p : project) (fix_mode : bool)
    (report : ValidationReport) : py_result ValidationReport :=
  if negb (daily_exists p) then
    Ret (add_issue CRITICAL (u "Директория рефлексий не существует: " ++ DAILY_DIR p)
                   None None report)
  else for_each (check_misplaced p fix_mode) (misplaced_files p) report.

Definition recommended_sections : list str :=
  [u "## УТРО"; u "## ДЕНЬ"; u "## ВЕЧЕР"; u "## ПРОГРЕСС ЗА ДЕНЬ"; u "## РЕФЛЕКСИЯ"].

(** [', '.join(l)] *)
Fixpoint join_comma (l : list str) : str :=
  match l with
  | [] => []
  | [a] => a
  | a :: l' => a ++ u ", " ++ join_comma l'
  end.

Definition validate_reflection_file (reflection_path : str) (f : file_state)
    (report : ValidationReport) : ValidationReport :=
  match f with
  | Readable content =>
      let missing_sections :=
        List.filter (fun section => negb (contains section content)) recommended_sections in
      if match missing_sections with [] => false | _ :: _ => true end
      then add_issue RECOMMENDATION
             (u "Рекомендуется добавить секции: " ++ join_comma missing_sections)
             (Some reflection_path) None report
      else report
  | _ =>
      add_issue WARNING (u "Ошибка чтения файла рефлексии: " ++ read_error reflection_path f)
                (Some reflection_path) None report
  end.

(** [validate_all(fix)]: the report and the exit code, or the exception that
    ended the run. Printing is left out. *)
Definition validate_all (p : project) (fix_mode : bool) : py_result (ValidationReport * Z) :=
  let report :=
    match goal_files p with
    | Some files =>
        fold_left (fun rep gf => validate_goal_file (fst gf) (snd gf) rep) files new_report
    | None =>
        add_issue CRITICAL (u "Директория целей не существует: " ++ GOALS_DIR p)
                  None None new_report
    end in
  report ← validate_reflections_structure p fix_mode report;
  let report :=
    fold_left (fun rep rf => validate_reflection_file (fst rf) (snd rf) rep)
              (reflection_files p fix_mode) report in
  if report_writable p
  then Ret (report, if has_critical report then 1%Z else 0%Z)
  else Raise OSError.

(** The exit code of [main]. *)
Definition validate_main (p : project) (fix_mode : bool) : Z :=
  match validate_all p fix_mode with
  | Ret (_, exit_code) => exit_code
  | Raise _ => 1%Z
  end.

(** ** auto_update_metrics.py *)

(** [len(v)] *)
Definition py_len (v : pyval) : py_result nat :=
  match v with
  | VList l => Ret (length l)
  | VStr s => Ret (length s)
  | VEvents l => Ret (length l)
  | VNone | VInt _ => Raise TypeError
  end.

Definition count_evidence_from_reflection (reflection_data : gmap string pyval)
    : py_result nat :=
  py_len (dict_get reflection_data "evidence_done" (VList [])).

(** [calculate_operations_percentage]; [int((n / 8) * 100)] is exact. A
    recorded value that is not an integer is returned as it is by the source
    and makes the caller's comparison [> 0] raise. *)
Definition calculate_operations_percentage (reflection_data : gmap string pyval)
    : py_result Z :=
  match dict_get reflection_data "operations_percent" VNone with
  | VInt percent => Ret percent
  | VNone =>
      operations_done ← py_len (dict_get reflection_data "operations_done" (VList []));
      if 0 <? (operations_done : nat)
      then Ret (Z.min 100 (Z.of_nat operations_done * 100 / 8))
      else Ret 0%Z
  | _ => Raise TypeError
  end.

(** The labels of the two fields the update rewrites, as they stand in the
    patterns and in the replacement texts. *)
Definition progress_label : str := u "**Текущий прогресс:** ".
Definition completion_label : str := u "**Выполнение:** ".

(** [\*\*Текущий прогресс:\*\* (\d+)/10] *)
Definition evidence_pattern : regex :=
  seqs [lit nf progress_label; Grp 1 (plus digit); lit nf (u "/10")].

(** [\*\*Выполнение:\*\* (\d+)%] *)
Definition habits_pattern : regex :=
  seqs [lit nf completion_label; Grp 1 (plus digit); chr nf 37%N].

(** [\*\*Последнее обновление:\*\* \d{4}-\d{2}-\d{2}] *)
Definition last_update_pattern : regex :=
  seqs [lit nf (u "**Последнее обновление:** "); iso_date_re].

(** [(## ИСТОРИЯ ИЗМЕНЕНИЙ\s*\n)] *)
Definition history_pattern : regex :=
  Grp 1 (seqs [lit nf (u "## ИСТОРИЯ ИЗМЕНЕНИЙ"); star ws; chr nf NL]).

Definition history_entry (today date : str) (evidence_count : nat) (operations_percent : Z)
    : str :=
  u "- " ++ today ++ u ": [PROGRESS] Автообновление метрик на основе рефлексии за " ++ date
  ++ [NL] ++ u "  - **Детали:** Обновлены метрики: доказательств идентичности +"
  ++ str_of_N (N.of_nat evidence_count) ++ u ", выполнение операций "
  ++ str_of_Z operations_percent ++ u "%" ++ [NL].

(** Step 1: the evidence counter. Returns the text and the flag [updated]. *)
Definition update_evidence (content : str) (evidence_count : nat) : str * bool :=
  if 0 <? evidence_count then
    match re_search evidence_pattern content with
    | Some evidence_match =>
        let current_progress := int_of (group 1 (m_groups evidence_match)) in
        let new_progress := Z.min 10 (current_progress + Z.of_nat evidence_count) in
        (re_sub evidence_pattern
                (fun _ => progress_label ++ str_of_Z new_progress ++ u "/10")
                content,
         true)
    | None => (content, false)
    end
  else (content, false).

(** Step 2: the completion percentage. *)
Definition update_percent (content : str) (updated : bool) (operations_percent : Z)
    : str * bool :=
  if (0 <? operations_percent)%Z then
    (re_sub habits_pattern
            (fun _ => completion_label ++ str_of_Z operations_percent ++ u "%") content,
     true)
  else (content, updated).

(** Steps 3 and 4: the date stamp and, after an update, the history entry. *)
Definition stamp_and_log (content : str) (updated : bool) (today date : str)
    (evidence_count : nat) (operations_percent : Z) : str :=
  let content :=
    re_sub last_update_pattern (fun _ => u "**Последнее обновление:** " ++ today) content in
  if updated then
    let entry := history_entry today date evidence_count operations_percent in
    if is_some (re_search history_pattern content)
    then re_sub history_pattern
                (fun m => group 1 (m_groups m) ++ [NL] ++ entry ++ [NL]) content
    else content ++ [NL] ++ u "## ИСТОРИЯ ИЗМЕНЕНИЙ" ++ [NL; NL] ++ entry ++ [NL]
  else content.

(** [update_goal_metrics] on the text of the goal file: the returned flag
    and the text written back to the file, if any. Logging is left out. *)
Definition update_goal_metrics (content : str) (reflection_data : gmap string pyval)
    (today date : str) : py_result (bool * option str) :=
  evidence_count ← count_evidence_from_reflection reflection_data;
  let step1 := update_evidence content evidence_count in
  operations_percent ← calculate_operations_percentage reflection_data;
  let step2 := update_percent (fst step1) (snd step1) operations_percent in
  let content := stamp_and_log (fst step2) (snd step2) today date
                               evidence_count operations_percent in
  if snd step2 then Ret (true, Some content) else Ret (false, None).

(** An entry of the history as the collecting loop builds it. *)
Definition mk_entry (date : Z) (completed : bool) : entry :=
  {| e_date := date; e_completed := completed; e_day_of_week := strftime_A date |}.

(** Ten consecutive days after [start]: the first seven completed, the last
    three not. *)
Definition ten_days (start : Z) : list entry :=
  List.map (fun i => mk_entry (start + Z.of_nat i) (i <=? 7)) (seq 1 10).

(** Sample data: a habit, a reflection whose operations match it, one with a
    high recorded percentage, and one with neither. *)
Definition morning_habit : Habit :=
  {| h_name := u "ЕСЛИ утро → ТО зарядка";
     h_type := implementation_intention;
     h_cue := u "утро"; h_action := u "зарядка" |}.

Definition reflection_matching : str :=
  u "#### Операции:
- [x] Если утро то зарядка
- [ ] чтение
".

Definition reflection_high_percent : str :=
  u "#### Операции:
- [x] чтение

**Выполнение операций:** [85%]
".

Definition reflection_plain : str :=
  u "#### Операции:
- [x] чтение
".

(** A reflections directory with a file for three days only. *)
Definition sample_daily_dir : daily_dir :=
  {| stem_of := fun _ => u "2025-01-05";
     file_of := fun date =>
       if (date =? 739256)%Z then Readable reflection_matching
       else if (date =? 739255)%Z then Readable reflection_high_percent
       else if (date =? 739254)%Z then Readable reflection_plain
       else if (date =? 739253)%Z then Unreadable (u "invalid start byte")
       else Absent |}.

(** Sample projects: a goal file lacking its history section, and a goal
    file whose only defects are a missing date and a percentage above 100. *)
Definition goal_without_history : str :=
  u "## СТРАТЕГИЧЕСКИЙ УРОВЕНЬ
## ТАКТИЧЕСКИЙ УРОВЕНЬ
## ОПЕРАЦИОННЫЙ УРОВЕНЬ
**Статус:** active
**Дата создания:** 2025-01-01
**Последнее обновление:** 2025-01-02
".

Definition goal_with_150_percent : str :=
  u "## СТРАТЕГИЧЕСКИЙ УРОВЕНЬ
## ТАКТИЧЕСКИЙ УРОВЕНЬ
## ОПЕРАЦИОННЫЙ УРОВЕНЬ
## ИСТОРИЯ ИЗМЕНЕНИЙ
**Статус:** active
**Дата создания:** 2025-01-01
**Выполнение операций:** 150%
".

Definition sample_project (goal : str) : project :=
  {| GOALS_DIR := u "goals"; DAILY_DIR := u "reflections/daily";
     goal_files := Some [(u "goals/run.md", Readable goal)];
     daily_exists := true;
     misplaced_files := [u "notes"];
     move_ok := fun _ => true;
     reflection_files := fun _ => [(u "reflections/daily/notes.md", Readable (u "## УТРО"))];
     report_writable := true |}.

(** The report of a run that ended without an exception. *)
Definition report_of (p : project) (fix_mode : bool) : ValidationReport :=
  match validate_all p fix_mode with
  | Ret (report, _) => report
  | Raise _ => new_report
  end.

(** ** Functions used to state what the patterns match *)

(** The pattern text [w] matches at the start of [s] under the flags [f]. *)
Fixpoint lit_at (f : flags) (w s : str) : bool :=
  match w, s with
  | [], _ => true
  | a :: w', b :: s' =>
      (if ignorecase f then (lower_cp a =? lower_cp b)%N else (a =? b)%N) && lit_at f w' s'
  | _ :: _, [] => false
  end.

(** The pattern text [w] matches somewhere in [s]. *)
Fixpoint occurs (f : flags) (w s : str) : bool :=
  lit_at f w s || match s with [] => false | _ :: s' => occurs f w s' end.

(** The longest prefix of characters satisfying [p]. *)
Fixpoint take_while (p : N -> bool) (s : str) : str :=
  match s with
  | a :: s' => if p a then a :: take_while p s' else []
  | [] => []
  end.

(** The numbers of rounds a repetition [x{lo,hi}] of a one-character pattern
    can make on a run of [n] matching characters, in the order tried. *)
Fixpoint rep_counts (greedy : bool) (lo : nat) (hi : option nat) (n : nat) : list nat :=
  let stop := if lo =? 0 then [0] else [] in
  let more :=
    match n with
    | O => []
    | S n' => if hi_done hi then [] else List.map S (rep_counts greedy (pred lo) (hi_pred hi) n')
    end in
  if greedy then more ++ stop else stop ++ more.

(** The match object of a result [x] of [mt] at the start of [s]. *)
Definition match_here (s : str) (x : caps * str) : rmatch :=
  {| m_pre := []; m_text := consumed s (snd x); m_groups := fst x; m_post := snd x |}.

(** An issue of a goal file. *)
Definition goal_issue (goal_path message : str) : issue :=
  {| i_message := message; i_file := Some goal_path; i_fix := None |}.


(** The text [s] ends in a character satisfying [p]. *)
Definition ends_in (p : N -> bool) (s : str) : bool :=
  match rev s with
  | a :: _ => p a
  | [] => false
  end.





Definition accident_note : str := u "Утром была АВАРИЯ на дороге, пришлось идти пешком".

(** Checklists: the same item checked with a lower-case and with an
    upper-case mark, a list mixing both, and an unchecked item whose text
    holds a check mark. *)
Definition checklist_lower : str :=
  u "#### Операции:
- [x] Зарядка
".

Definition checklist_upper : str :=
  u "#### Операции:
- [X] Зарядка
".

Definition checklist_mixed : str :=
  u "#### Операции:
- [x] Зарядка
- [X] Бег
- [x] Чтение
- [ ] Сон
".

Definition checklist_unchecked_mark : str :=
  u "#### Операции:
- [ ] Чтение [x] книги
".


(** The value of the first [**Текущий прогресс:** N/10] field, if any. *)
Definition current_progress (content : str) : option Z :=
  match re_search evidence_pattern content with
  | Some m => Some (int_of (group 1 (m_groups m)))
  | None => None
  end.

(** Sample goal texts and daily records for the metrics update. *)
Definition goal_at_50 : str :=
  u "**Текущий прогресс:** 9/10
**Выполнение:** 50%
## ИСТОРИЯ ИЗМЕНЕНИЙ
".

Definition day_with_50 : gmap string pyval :=
  parse_reflection_text (u "2025-01-05") (u "**Выполнение операций:** [50%]").


Definition day_with_evidence : gmap string pyval :=
  parse_reflection_text (u "2025-01-05")
    (u "#### Операции:
- [x] Зарядка
- [x] Чтение
- [x] Код

### Доказательства идентичности
- [x] Пробежал 5 км
- [x] Написал страницу
").

(** The text written by a metrics update, the text of the goal when none is. *)
Definition written_text (goal : str) (r : py_result (bool * option str)) : str :=
  match r with
  | Ret (_, Some written) => written
  | _ => goal
  end.


(** ** Goal texts line by line *)

(** A line of a goal text: an implementation intention, a tiny habit, or
    any other text. *)
Inductive goal_line :=
| IfThen (trigger action : str)
| Tiny (anchor action : str)
| Plain (text : str).

Definition line_text (l : goal_line) : str :=
  match l with
  | IfThen trigger action => u "- ЕСЛИ " ++ trigger ++ u " → ТО " ++ action
  | Tiny anchor action => u "- После " ++ anchor ++ u " → " ++ action
  | Plain text => text
  end.

(** The text of a goal made of the given lines, each ended by a newline. *)
Definition goal_text (lines : list goal_line) : str :=
  flat_map (fun l => line_text l ++ [NL]) lines.

Definition not_newline (b : N) : bool := negb (b =? NL)%N.
Definition one_line (s : str) : bool := forallb not_newline s.







(** A sample goal: the same intention twice, a heading, a tiny habit with a
    celebration. *)
Definition sample_goal_lines : list goal_line :=
  [Plain (u "### Implementation Intentions:");
   IfThen (u "утро") (u "зарядка");
   IfThen (u "утро") (u "зарядка");
   Plain (u "### Tiny Habits:");
   Tiny (u "кофе") (u "2 отжимания → праздную: ура!")].


(** Two operations that each share one keyword out of four with
    [morning_habit], and two of the four together. *)
Definition reflection_split_keywords : str :=
  u "#### Операции:
- [x] утро
- [x] зарядка

**Выполнение операций:** [70%]
".

(** No occurrence of [w] starts at one of the first [n] positions of [s]. *)
Definition absent_before (w s : str) (n : nat) : bool :=
  forallb (fun i => negb (startswith w (skipn i s))) (seq 0 n).


(** ** Checklists item by item *)

(** An item of a checklist, checked with the lower-case mark or unchecked. *)
Inductive item :=
| Checked (text : str)
| Unchecked (text : str).

Definition item_text (i : item) : str :=
  match i with Checked text | Unchecked text => text end.

Definition item_line (i : item) : str :=
  match i with
  | Checked text => u "- [x] " ++ text
  | Unchecked text => u "- [ ] " ++ text
  end.

(** The lines of a checklist, each ended by a newline. *)
Definition checklist_text (items : list item) : str :=
  flat_map (fun i => item_line i ++ [NL]) items.

(** The text of an item is trimmed: it is not empty, stays on one line,
    neither starts nor ends with white space, and holds no check mark. *)
Definition item_ok (i : item) : bool :=
  let text := item_text i in
  match text with
  | c :: _ => negb (is_space c)
  | [] => false
  end
  && negb (ends_in is_space text) && one_line text
  && negb (contains (u "[x]") text) && negb (contains (u "[X]") text).

Definition checked_texts (items : list item) : list str :=
  flat_map (fun i => match i with Checked text => [text] | Unchecked _ => [] end) items.

Definition sample_items : list item :=
  [Checked (u "Зарядка 10 минут"); Unchecked (u "Чтение"); Checked (u "Код")].

(** ** The record of a reflection before any field is found *)

(** The labels [parse_reflection_file] searches for. *)
Definition reflection_labels : list str :=
  [u "#### Операции:"; u "#### Тактика:"; u "### Доказательства идентичности";
   u "**Что помешало:**"; u "**Что помогло:**"; u "**Общая оценка:**";
   u "**Выполнение операций:**"; u "**Выполнение тактики:**";
   u "**Энергия:**"; u "**Мотивация:**"; u "**Фокус:**";
   u "## Инсайты и наблюдения"; u "## План на завтра"].

(** The dict literal [parse_reflection_file] starts from. *)
Definition initial_reflection_data (stem content : str) : gmap string pyval :=
  <["date" := VStr stem]> (
  <["operations_done" := VList []]> (
  <["tactics_done" := VList []]> (
  <["evidence_done" := VList []]> (
  <["obstacles" := VList []]> (
  <["helpful_factors" := VList []]> (
  <["rating" := VNone]> (
  <["operations_percent" := VNone]> (
  <["tactics_percent" := VNone]> (
  <["energy" := VNone]> (
  <["motivation" := VNone]> (
  <["focus" := VNone]> (
  <["insights" := VStr []]> (
  <["plan_tomorrow" := VStr []]> (
  <["critical_events" := VEvents (detect_critical_events content)]> ∅)))))))))))))).

(** A pattern that always matches, leaving the groups as they are. *)
Definition total_tail (r : regex) : Prop :=
  forall s c, exists rest xs, mt r s c = (c, rest) :: xs.


(** ** Bullet lists *)

(** Lines, each ended by a newline. *)
Definition lines_text (lines : list str) : str := flat_map (fun l => l ++ [NL]) lines.

Definition bullet_line (text : str) : str := u "- " ++ text.

(** The text of a bullet is not empty, stays on one line, and neither starts
    nor ends with white space or with a hyphen. *)
Definition bullet_ok (text : str) : bool :=
  match text with
  | a :: _ => negb (is_space a) && negb (one_of (u "- ") a)
  | [] => false
  end
  && negb (ends_in is_space text) && negb (ends_in (one_of (u "- ")) text) && one_line text.

(** ** Text blocks *)

(** Where the text of a block stops: before a rule, before a heading, or at
    the end of the text. *)
Definition block_end (s : str) : bool :=
  startswith [NL; 45; 45; 45]%N s || startswith [NL; 35; 35]%N s || at_end s.

(** The block [body] followed by [stop] ends at [stop] and not before. *)
Definition body_runs_to (body stop : str) : bool :=
  forallb (fun k => negb (block_end (skipn k (body ++ stop)))) (seq 1 (length body - 1))
  && block_end stop.

(** ** What decides the exit code of a validation run *)




(** ** auto_update_metrics.py: the goals of a day *)

(** ['**Статус:** active' in content] *)
Definition is_active (content : str) : bool := contains (u "**Статус:** active") content.

(** The loop of [get_active_goals] over the files of [GOALS_DIR.glob("*.md")]:
    the paths of the active goals, each with the text the file holds (which
    [update_goal_metrics] reads again); opening a file that cannot be read
    raises. *)
Fixpoint active_goal_files (files : list (str * file_state)) : py_result (list (str * str)) :=
  match files with
  | [] => Ret []
  | (goal_file, f) :: files' =>
      match f with
      | Readable content =>
          active_goals ← active_goal_files files';
          Ret (if is_active content then (goal_file, content) :: active_goals
               else active_goals)
      | _ => Raise OSError
      end
  end.

(** [get_active_goals()]; [None] stands for a missing goals directory. *)
Definition get_active_goals (goal_files : option (list (str * file_state)))
    : py_result (list (str * str)) :=
  match goal_files with
  | Some files => active_goal_files files
  | None => Ret []
  end.

(** [update_metrics_for_date(date)]: the returned flag and the files written,
    in order, each with its new text. [date] is the date as [%Y-%m-%d], which
    is also the stem of the path of the reflection; [reflection] is the state
    of the file at that path. Writing a goal file that could be read is taken
    to succeed. *)
Definition update_metrics_for_date (goal_files : option (list (str * file_state)))
    (reflection : file_state) (today date : str) : py_result (bool * list (str * str)) :=
  match reflection with
  | Readable content =>
      let reflection_data := parse_reflection_text date content in
      active_goals ← get_active_goals goal_files;
      match active_goals with
      | [] => Ret (false, [])
      | _ :: _ =>
          written ← for_each (fun written goal =>
                                r ← update_goal_metrics (snd goal) reflection_data today date;
                                Ret (match snd r with
                                     | Some text => written ++ [(fst goal, text)]
                                     | None => written
                                     end))
                             active_goals [];
          Ret (0 <? length written, written)
      end
  | _ => Ret (false, [])
  end.

(** Sample goals directory: an active goal, a paused one, an active one
    without metric fields. *)
Definition sample_goals : list (str * file_state) :=
  [(u "goals/run.md", Readable (u "**Статус:** active
**Выполнение:** 10%
"));
   (u "goals/read.md", Readable (u "**Статус:** paused
**Выполнение:** 10%
"));
   (u "goals/swim.md", Readable (u "**Статус:** active
"))].

(** The outcome of a run that ended without an exception. *)
Definition flag_of (r : py_result (bool * list (str * str))) : bool :=
  match r with Ret (flag, _) => flag | Raise _ => false end.
Definition written_of (r : py_result (bool * list (str * str))) : list (str * str) :=
  match r with Ret (_, written) => written | Raise _ => [] end.

Definition sample_update : py_result (bool * list (str * str)) :=
  update_metrics_for_date (Some sample_goals)
    (Readable (u "**Выполнение операций:** [50%]")) (u "2025-01-06") (u "2025-01-05").

(** ** generate_daily_dashboard.py *)

(** [x == 0] *)
Definition eq_0 (v : pyval) : bool :=
  match v with VInt 0 => true | _ => false end.

(** [min(100, int((operations_done / 8) * 100))]; the float product is exact. *)
Definition percent_of_count (operations_done : nat) : Z :=
  Z.min 100 (Z.of_nat operations_done * 100 / 8).

(** The operations percentage both dashboards derive from a record. *)
Definition dashboard_operations_percent (data : gmap string pyval) : py_result pyval :=
  let operations_percent := dict_get data "operations_percent" (VInt 0) in
  if eq_0 operations_percent then
    operations_done ← py_len (dict_get data "operations_done" (VList []));
    Ret (VInt (percent_of_count operations_done))
  else Ret operations_percent.

(** [calculate_metrics(reflection_data)] *)
Definition calculate_metrics (reflection_data : gmap string pyval)
    : py_result (gmap string pyval) :=
  operations_percent ← dashboard_operations_percent reflection_data;
  let tactics_percent := dict_get reflection_data "tactics_percent" (VInt 0) in
  evidence_count ← py_len (dict_get reflection_data "evidence_done" (VList []));
  let rating := dict_get reflection_data "rating" (VInt 0) in
  let energy := dict_get reflection_data "energy" (VStr (u "средняя")) in
  let motivation := dict_get reflection_data "motivation" (VStr (u "средняя")) in
  let focus := dict_get reflection_data "focus" (VStr (u "средний")) in
  Ret (<["operations_percent" := operations_percent]> (
       <["tactics_percent" := tactics_percent]> (
       <["evidence_count" := VInt (Z.of_nat evidence_count)]> (
       <["rating" := rating]> (
       <["energy" := energy]> (
       <["motivation" := motivation]> (
       <["focus" := focus]> ∅))))))).

(** [get_color_for_percentage(percent)] *)
Definition get_color_for_percentage (percent : pyval) : py_result str :=
  let percent := match percent with VNone => VInt 0 | _ => percent end in
  match percent with
  | VInt p =>
      if (80 <=? p)%Z then Ret (u "#34c759")
      else if (60 <=? p)%Z then Ret (u "#ffcc00")
      else Ret (u "#ff3b30")
  | _ => Raise TypeError
  end.

(** ** generate_weekly_dashboard.py *)

Record day_data := {
  d_date : Z;
  d_day_name : string;
  d_operations_percent : pyval;
  d_tactics_percent : pyval;
  d_evidence_count : nat;
  d_rating : pyval
}.

(** The body of the [try] of [collect_week_data]. *)
Definition week_day_of (date : Z) (data : gmap string pyval) : py_result day_data :=
  operations_percent ← dashboard_operations_percent data;
  let tactics_percent := dict_get data "tactics_percent" (VInt 0) in
  evidence_count ← py_len (dict_get data "evidence_done" (VList []));
  Ret {| d_date := date; d_day_name := strftime_A date;
         d_operations_percent := operations_percent;
         d_tactics_percent := tactics_percent;
         d_evidence_count := evidence_count;
         d_rating := dict_get data "rating" (VInt 0) |}.

(** One round of the loop of [collect_week_data]: a missing file gives no
    entry, an exception gives the entry of zeros. *)
Definition week_day (dir : daily_dir) (date : Z) : list day_data :=
  match file_of dir date with
  | Absent => []
  | f =>
      match (data ← parse_reflection_file (stem_of dir date) f; week_day_of date data) with
      | Ret d => [d]
      | Raise _ =>
          [{| d_date := date; d_day_name := strftime_A date;
              d_operations_percent := VInt 0; d_tactics_percent := VInt 0;
              d_evidence_count := 0; d_rating := VInt 0 |}]
      end
  end.

(** [collect_week_data(week_start, week_end)]: the days from [week_start] to
    [week_end], both included. *)
Definition collect_week_data (dir : daily_dir) (week_start week_end : Z) : list day_data :=
  flat_map (fun i => week_day dir (week_start + Z.of_nat i))
           (seq 0 (Z.to_nat (week_end - week_start + 1))).

(** [[f(d) for d in week_data if f(d) > 0]] *)
Fixpoint positive_values (f : day_data -> pyval) (week_data : list day_data)
    : py_result (list Z) :=
  match week_data with
  | [] => Ret []
  | d :: week_data' =>
      match f d with
      | VInt p =>
          values ← positive_values f week_data';
          Ret (if (0 <? p)%Z then p :: values else values)
      | _ => Raise TypeError
      end
  end.

(** [statistics.mean] of integers, as an exact rational. *)
Definition mean (values : list Z) : Q :=
  (inject_Z (fold_right Z.add 0%Z values) / inject_Z (Z.of_nat (length values)))%Q.

(** The key of [max] and [min]: by then every percentage is an integer, the
    comprehensions above raise otherwise. *)
Definition percent_key (d : day_data) : Z :=
  match d_operations_percent d with VInt p => p | _ => 0%Z end.

(** [max(week_data, key=...)] and [min(week_data, key=...)]: the first day
    with the largest (smallest) key. *)
Definition max_day (week_data : list day_data) (d0 : day_data) : day_data :=
  fold_left (fun best d => if (percent_key best <? percent_key d)%Z then d else best)
            week_data d0.
Definition min_day (week_data : list day_data) (d0 : day_data) : day_data :=
  fold_left (fun best d => if (percent_key d <? percent_key best)%Z then d else best)
            week_data d0.

Record week_stats := {
  avg_operations : Q;
  avg_tactics : Q;
  avg_evidence_per_day : Q;
  total_evidence : nat;
  days_tracked : nat;
  best_day : day_data;
  worst_day : day_data
}.

(** [calculate_week_stats(week_data)]; [None] is the empty dict of an empty
    week. *)
Definition calculate_week_stats (week_data : list day_data) : py_result (option week_stats) :=
  match week_data with
  | [] => Ret None
  | d0 :: rest =>
      operations_values ← positive_values d_operations_percent week_data;
      tactics_values ← positive_values d_tactics_percent week_data;
      let evidence_values := List.map d_evidence_count week_data in
      Ret (Some {|
        avg_operations :=
          match operations_values with [] => 0%Q | _ => round1 (mean operations_values) end;
        avg_tactics :=
          match tactics_values with [] => 0%Q | _ => round1 (mean tactics_values) end;
        avg_evidence_per_day := round1 (mean (List.map Z.of_nat evidence_values));
        total_evidence := fold_right Nat.add 0 evidence_values;
        days_tracked := length week_data;
        best_day := max_day rest d0;
        worst_day := min_day rest d0 |})
  end.


(** A week of two reflections that record both percentages. *)
Definition reflection_both_percents (operations tactics : string) : str :=
  u "**Выполнение операций:** [" ++ u operations ++ u "%]
**Выполнение тактики:** [" ++ u tactics ++ u "%]
".

Definition week_with_percents : daily_dir :=
  {| stem_of := fun _ => u "2025-01-06";
     file_of := fun date =>
       if (date =? 739257)%Z then Readable (reflection_both_percents "85" "40")
       else if (date =? 739259)%Z then Readable (reflection_both_percents "30" "90")
       else Absent |}.

Definition week_stats_of (r : py_result (option week_stats)) : option week_stats :=
  match r with Ret o => o | Raise _ => None end.

(** *** Weeks *)

(** [date.max.toordinal()] *)
Definition MAXORDINAL : Z := 3652059%Z.

Definition valid_ordinal (d : Z) : bool := ((1 <=? d) && (d <=? MAXORDINAL))%Z.

(** [datetime(year, 1, 1).toordinal()] *)
Definition jan_1 (year : Z) : Z :=
  let y := (year - 1)%Z in (y * 365 + y / 4 - y / 100 + y / 400 + 1)%Z.

(** [date.weekday()]: Monday is 0. *)
Definition weekday (d : Z) : Z := ((d + 6) mod 7)%Z.

(** [get_week_dates(year, week_number)] on ordinals; [None] when [datetime]
    or the addition of a [timedelta] raises: the year or a date is out of
    range. *)
Definition get_week_dates (year week_number : Z) : option (Z * Z) :=
  if ((1 <=? year) && (year <=? 9999))%Z then
    let days_to_monday := ((7 - weekday (jan_1 year)) mod 7)%Z in
    let first_monday := (jan_1 year + days_to_monday)%Z in
    let week_start := (first_monday + 7 * (week_number - 1))%Z in
    let week_end := (week_start + 6)%Z in
    if valid_ordinal week_start && valid_ordinal week_end
    then Some (week_start, week_end) else None
  else None.

(** The Monday of ISO week 1 of a year, as [datetime] computes it. *)
Definition isoweek1monday (year : Z) : Z :=
  let firstday := jan_1 year in
  let firstweekday := ((firstday + 6) mod 7)%Z in
  let week1monday := (firstday - firstweekday)%Z in
  if (3 <? firstweekday)%Z then (week1monday + 7)%Z else week1monday.

(** [date.isocalendar()[1]] of the day of ordinal [today] in [year]. *)
Definition iso_week (year today : Z) : Z :=
  let week := ((today - isoweek1monday year) / 7)%Z in
  if (week <? 0)%Z then ((today - isoweek1monday (year - 1)) / 7 + 1)%Z
  else if ((52 <=? week) && (isoweek1monday (year + 1) <=? today))%Z then 1%Z
  else (week + 1)%Z.

(** The week [main] shows when no week is asked for: the dates of
    [get_week_dates(today.year, today.isocalendar()[1])]. *)
Definition default_week (year today : Z) : option (Z * Z) :=
  get_week_dates year (iso_week year today).

(** ** config_loader.py *)

(** The lines a text file yields when iterated (universal newlines): the
    text is cut at every line feed and carriage return. A pair CR LF gives one
    empty piece more than Python's lines, and the loader skips empty lines. *)
Fixpoint file_lines (s : str) : list str :=
  match s with
  | [] => [[]]
  | a :: s' =>
      if (a =? 10)%N || (a =? 13)%N then [] :: file_lines s'
      else match file_lines s' with
           | l :: ls => (a :: l) :: ls
           | [] => [[a]]
           end
  end.

(** [line.split('=', 1)] on a line that holds the sign. *)
Fixpoint split_at_equals (line : str) : str * str :=
  match line with
  | [] => ([], [])
  | a :: line' =>
      if (a =? 61)%N then ([], line')
      else let '(key, value) := split_at_equals line' in (a :: key, value)
  end.

(** [value[1:-1]] *)
Definition strip_ends (value : str) : str := removelast (tl value).

(** The two tests on quotes: [value.startswith(q) and value.endswith(q)]. *)
Definition quoted_by (q : N) (value : str) : bool :=
  startswith [q] value && ends_in (N.eqb q) value.

Definition unquote (value : str) : str :=
  if quoted_by 34%N value then strip_ends value
  else if quoted_by 39%N value then strip_ends value
  else value.

(** The state of the loader: the dict [env_vars] and [os.environ]. *)
Record env_state := { env_vars : gmap str str; environ : gmap str str }.

(** The loop of [load_env_vars] over the lines of the file. [accepts key
    value] tells whether [os.environ[key] = value] succeeds; when it raises,
    the loop ends with [env_vars] already holding the pair. *)
Fixpoint load_env_lines (accepts : str -> str -> bool) (lines : list str) (st : env_state)
    : env_state :=
  match lines with
  | [] => st
  | raw :: lines' =>
      let line := strip raw in
      if negb (nonempty line) || startswith [35%N] line then load_env_lines accepts lines' st
      else if existsb (N.eqb 61%N) line then
        let '(key, value) := split_at_equals line in
        let key := strip key in
        let value := unquote (strip value) in
        let env_vars' := <[key := value]> (env_vars st) in
        if accepts key value
        then load_env_lines accepts lines'
               {| env_vars := env_vars'; environ := <[key := value]> (environ st) |}
        else {| env_vars := env_vars'; environ := environ st |}
      else load_env_lines accepts lines' st
  end.

(** [load_env_vars()] on the state of the file [.env] ([Unreadable]: the file
    cannot be opened): the dict returned and [os.environ] afterwards. *)
Definition load_env_vars (accepts : str -> str -> bool) (env_file : file_state)
    (environ0 : gmap str str) : env_state :=
  match env_file with
  | Readable content =>
      load_env_lines accepts (file_lines content) {| env_vars := ∅; environ := environ0 |}
  | _ => {| env_vars := ∅; environ := environ0 |}
  end.

(** [get_env_var(var_name, default)] *)
Definition get_env_var (accepts : str -> str -> bool) (env_file : file_state)
    (environ0 : gmap str str) (var_name : str) (default : option str) : option str :=
  match environ (load_env_vars accepts env_file environ0) !! var_name with
  | Some value => Some value
  | None => default
  end.

(** A line of an [.env] file: a comment or blank line, or a binding. *)
Inductive env_entry :=
| Remark (text : str)
| Binding (key value : str).

Definition render_entry (e : env_entry) : str :=
  match e with
  | Remark text => text
  | Binding key value => key ++ [61%N] ++ value
  end.

Definition no_line_end (s : str) : bool :=
  forallb (fun a => negb ((a =? 10)%N || (a =? 13)%N)) s.

(** A text without white space at either end (the empty text included). *)
Definition trimmed (s : str) : bool :=
  match s with
  | a :: _ => negb (is_space a) && negb (ends_in is_space s)
  | [] => true
  end.

(** A remark is blank, opens with [#] after white space, or holds no equals
    sign; a key is trimmed, holds no equals sign and does not open with [#]; a
    value is trimmed. *)
Definition entry_ok (e : env_entry) : bool :=
  match e with
  | Remark text =>
      no_line_end text
      && (negb (nonempty (strip text)) || startswith [35%N] (strip text)
          || negb (existsb (N.eqb 61%N) (strip text)))
  | Binding key value =>
      no_line_end key && no_line_end value && trimmed key && trimmed value
      && negb (existsb (N.eqb 61%N) key) && negb (startswith [35%N] key)
  end.

(** What the entries bind, the later binding of a key winning. *)
Definition bind_entry (m : gmap str str) (e : env_entry) : gmap str str :=
  match e with
  | Remark _ => m
  | Binding key value => <[key := unquote value]> m
  end.

Definition binds (key : str) (e : env_entry) : bool :=
  match e with
  | Remark _ => false
  | Binding key' _ => str_eqb key' key
  end.

Definition accepted (accepts : str -> str -> bool) (e : env_entry) : bool :=
  match e with
  | Remark _ => true
  | Binding key value => accepts key (unquote value)
  end.

Definition sample_env : list env_entry :=
  [Remark (u "# keys"); Binding (u "TOKEN") (u "'abc=1'"); Remark [];
   Binding (u "TZ") (u "UTC"); Binding (u "TOKEN") (u "xyz")].

(** ** analyze_reflection.py: the comments on a reflection *)

Record EventComment := {
  ec_type : event_type;
  ec_message : str;
  ec_context : str;
  ec_action : str
}.

(** The dict [comments]. *)
Record Comments := {
  analysis : list str;
  recommendations : list str;
  adaptations : list str;
  event_comments : list EventComment
}.

(** The truth value of a Python value. *)
Definition truthy (v : pyval) : bool :=
  match v with
  | VNone => false
  | VInt z => negb (z =? 0)%Z
  | VStr s => nonempty s
  | VList l => match l with [] => false | _ :: _ => true end
  | VEvents l => match l with [] => false | _ :: _ => true end
  end.

(** The comment and the recommendation of one critical event. *)
Definition event_comment (event : CriticalEvent) : EventComment :=
  match ev_type event with
  | FORCED_CHANGE =>
      {| ec_type := FORCED_CHANGE;
         ec_message := u "⚠️ Обнаружено критическое событие: " ++ ev_keyword event;
         ec_context := ev_context event;
         ec_action :=
           u "Рекомендуется обновить файл цели с типом изменения FORCED_CHANGE и добавить в секцию "
           ++ [34%N] ++ u "КРИТИЧЕСКИЕ СОБЫТИЯ" ++ [34%N] |}
  | VOLUNTARY_CHANGE =>
      {| ec_type := VOLUNTARY_CHANGE;
         ec_message := u "💭 Обнаружено переосмысление: " ++ ev_keyword event;
         ec_context := ev_context event;
         ec_action :=
           u "Рекомендуется обновить файл цели с типом изменения VOLUNTARY_CHANGE" |}
  end.

Definition event_recommendation (event : CriticalEvent) : str :=
  match ev_type event with
  | FORCED_CHANGE =>
      u "🔴 КРИТИЧНО: Обнаружено вынужденное изменение (" ++ ev_keyword event ++ u"). "
      ++ u "Необходимо обновить цель: изменить статус на 'paused' или 'cancelled' с подстатусом 'forced', "
      ++ u "добавить событие в секцию 'КРИТИЧЕСКИЕ СОБЫТИЯ' и предложить адаптацию цели."
  | VOLUNTARY_CHANGE =>
      u "💡 Обнаружено переосмысление приоритетов (" ++ ev_keyword event ++ u"). "
      ++ u "Рекомендуется обновить цель с типом изменения VOLUNTARY_CHANGE или создать новую цель."
  end.

(** The loop over [reflection_data['critical_events']]; [None] when it
    raises. *)
Definition comment_events (v : pyval) : option (list CriticalEvent) :=
  match v with
  | VEvents l => Some l
  | _ => if truthy v then None else Some []
  end.

(** The analysis of the operations, from the recorded percentage and the
    number of operations done. *)
Definition operations_analysis (percent : pyval) (total_operations : nat) : option str :=
  match percent with
  | VNone =>
      Some (if 0 <? total_operations
            then u "Выполнено " ++ str_of_N (N.of_nat total_operations)
                 ++ u " операционных действий."
            else u "⚠️  Не выполнено ни одного операционного действия. Это может замедлить прогресс.")
  | VInt p =>
      Some (if (80 <=? p)%Z
            then u "✅ Отличное выполнение операций (" ++ str_of_Z p
                 ++ u "%)! Вы на правильном пути."
            else if (60 <=? p)%Z
            then u "⚠️  Хорошее выполнение операций (" ++ str_of_Z p
                 ++ u "%), но есть потенциал для улучшения."
            else u "❌ Низкое выполнение операций (" ++ str_of_Z p
                 ++ u "%). Нужно разобраться в причинах.")
  | _ => None
  end.

Definition tactics_analysis (percent : pyval) : option (list str) :=
  match percent with
  | VNone => Some []
  | VInt p =>
      Some [if (80 <=? p)%Z
            then u "✅ Отличный прогресс по тактическим задачам (" ++ str_of_Z p ++ u ")!"
            else if (50 <=? p)%Z
            then u "⚠️  Умеренный прогресс по тактике (" ++ str_of_Z p ++ u "%)."
            else u "❌ Низкий прогресс по тактике (" ++ str_of_Z p
                 ++ u "%). Возможно, задачи слишком сложные."]
  | _ => None
  end.

Definition evidence_analysis (evidence_count : nat) : str :=
  if 0 <? evidence_count
  then u "🎯 Отлично! Вы накопили " ++ str_of_N (N.of_nat evidence_count)
       ++ u " доказательств вашей новой идентичности."
  else u "💡 Не забудьте отмечать действия, которые подтверждают вашу идентичность.".

(** The obstacles: the line of the analysis and one recommendation for each
    obstacle that is not empty and not a lone hyphen. *)
Definition obstacles_comments (v : pyval) : option (list str * list str) :=
  match v with
  | VList l =>
      match l with
      | [] => Some ([], [])
      | _ :: _ =>
          Some ([u "🔍 Выявлено " ++ str_of_N (N.of_nat (length l))
                 ++ u " препятствий. Важно найти решения."],
                flat_map (fun obstacle =>
                            if nonempty obstacle && negb (str_eqb obstacle (u "-"))
                            then [u "Для препятствия '" ++ firstn 50 obstacle
                                  ++ u "...' рассмотрите создание If-Then плана."]
                            else [])
                         l)
      end
  | VStr s => 
      match s with
      | [] => Some ([], [])
      | _ :: _ =>
          Some ([u "🔍 Выявлено " ++ str_of_N (N.of_nat (length s))
                 ++ u " препятствий. Важно найти решения."],
                flat_map (fun c =>
                            if negb (c =? 45)%N
                            then [u "Для препятствия '" ++ [c]
                                  ++ u "...' рассмотрите создание If-Then плана."]
                            else [])
                         s)
      end
  | _ => if truthy v then None else Some ([], [])
  end.

Definition helpful_analysis (v : pyval) : option (list str) :=
  if truthy v then
    n ← match py_len v with Ret n => Some n | Raise _ => None end;
    Some [u "✨ Выделено " ++ str_of_N (N.of_nat n)
          ++ u " полезных факторов. Продолжайте их использовать!"]
  else Some [].

(** [v and word in v.lower()]: a recommendation when the level holds the
    word. *)
Definition level_recommendation (v : pyval) (word advice : str) : option (list str) :=
  match v with
  | VStr s => Some (if nonempty s && contains word (lower s) then [advice] else [])
  | _ => if truthy v then None else Some []
  end.

Definition rating_recommendation (v : pyval) : option (list str) :=
  match v with
  | VNone => Some []
  | VInt rating =>
      Some (if (rating <? 5)%Z
            then [u "📉 Низкая оценка дня. Возможно, стоит упростить план или разбить задачи на меньшие шаги."]
            else if (8 <=? rating)%Z
            then [u "🎉 Высокая оценка дня! Продолжайте в том же духе. Можете даже немного увеличить сложность задач."]
            else [])
  | _ => None
  end.

(** [v is not None and v < 50] *)
Definition below_50 (v : pyval) : option bool :=
  match v with
  | VNone => Some false
  | VInt p => Some (p <? 50)%Z
  | _ => None
  end.

Definition default_recommendation : str :=
  u "Продолжайте отслеживать прогресс и отмечать маленькие победы!".
Definition default_adaptation : str :=
  u "План работает хорошо, значительных изменений не требуется.".

(** [reflection_data[key]] and [len(reflection_data[key])]; [None] when they
    raise. *)
Definition dict_item (d : gmap string pyval) (key : string) : option pyval := d !! key.
Definition dict_len (d : gmap string pyval) (key : string) : option nat :=
  v ← d !! key; match py_len v with Ret n => Some n | Raise _ => None end.

(** [generate_ai_comments(reflection_data, active_goals)]; the second
    argument is not used. [None] when an exception is raised. *)
Definition generate_ai_comments (reflection_data : gmap string pyval) : option Comments :=
  events ← (dict_item reflection_data "critical_events" ≫= comment_events);
  total_operations ← dict_len reflection_data "operations_done";
  operations_percent ← dict_item reflection_data "operations_percent";
  operations ← operations_analysis operations_percent total_operations;
  tactics_percent ← dict_item reflection_data "tactics_percent";
  tactics ← tactics_analysis tactics_percent;
  evidence_count ← dict_len reflection_data "evidence_done";
  obstacles ← (dict_item reflection_data "obstacles" ≫= obstacles_comments);
  helpful ← (dict_item reflection_data "helpful_factors" ≫= helpful_analysis);
  energy ← (v ← dict_item reflection_data "energy";
            level_recommendation v (u "низкая")
              (u "💪 Низкая энергия может влиять на выполнение. Рассмотрите изменение времени выполнения задач или добавление восстановительных практик."));
  motivation ← (v ← dict_item reflection_data "motivation";
                level_recommendation v (u "низкая")
                  (u "🎯 Низкая мотивация? Напомните себе о стратегической идентичности и долгосрочных целях."));
  focus ← (v ← dict_item reflection_data "focus";
           level_recommendation v (u "низкий")
             (u "🎯 Низкий фокус? Попробуйте технику Pomodoro или уменьшите количество одновременных задач."));
  rating ← (dict_item reflection_data "rating" ≫= rating_recommendation);
  operations_low ← below_50 operations_percent;
  tactics_low ← below_50 tactics_percent;
  let recommendations :=
    List.map event_recommendation events ++ snd obstacles ++ energy ++ motivation ++ focus
    ++ rating in
  let adaptations :=
    (if (operations_low : bool)
     then [u "💡 Рекомендуется упростить операционные действия или изменить триггеры для лучшего выполнения."]
     else [])
    ++ (if (tactics_low : bool)
        then [u "💡 Тактические задачи могут быть слишком сложными. Рассмотрите разбиение на меньшие шаги."]
        else []) in
  Some {| analysis := [operations] ++ tactics ++ [evidence_analysis evidence_count]
                      ++ fst obstacles ++ helpful;
          recommendations := match recommendations with
                             | [] => [default_recommendation]
                             | _ :: _ => recommendations
                             end;
          adaptations := match adaptations with
                         | [] => [default_adaptation]
                         | _ :: _ => adaptations
                         end;
          event_comments := List.map event_comment events |}.

(** A reflection with a low percentage, a low energy and an accident. *)
Definition reflection_with_accident : str :=
  u "**Выполнение операций:** [40%]
**Энергия:** [Низкая]
Сегодня авария на работе.
".

(** ** The issues of the structure check *)



(* ===================================================================== *)
(** * Part II. Properties                                                 *)
(* ===================================================================== *)

Example utf8_decode_cyrillic : u "аб-x" = [1072; 1073; 45; 120]%N.
Proof. reflexivity. Qed.

(** ** Streak statistics *)

Lemma streak_fold_app h e acc :
  fold_left streak_step (h ++ [e]) acc = streak_step (fold_left streak_step h acc) e.
Proof. by rewrite fold_left_app. Qed.

Lemma streak_invariant h :
  snd (fold_left streak_step h (0, 0)) = leading_completed (rev h)
  /\ snd (fold_left streak_step h (0, 0)) <= fst (fold_left streak_step h (0, 0)).
Proof.
  induction h as [|e h IH] using rev_ind; [by split|].
  rewrite streak_fold_app, rev_app_distr. simpl.
  destruct (fold_left streak_step h (0, 0)) as [mx tmp]. simpl in IH.
  destruct IH as [IHrun IHle]. unfold streak_step.
  destruct (e_completed e); simpl; split; lia.
Qed.

Lemma percent_of_bounds l : (0 <= percent_of l /\ percent_of l <= 100)%Q.
Proof.
  destruct l as [|b l]; [split; discriminate|].
  unfold percent_of. set (n := count_true (b :: l)). set (m := length (b :: l)).
  assert (Hnm : n <= m) by (subst n m; unfold count_true; apply filter_length_le).
  assert (Hm : 0 < m) by (subst m; simpl; lia).
  clearbody n m. unfold Qle, Qdiv, Qmult, Qinv, inject_Z. simpl.
  destruct (Z.of_nat m) eqn:E; [lia| |lia]. simpl. split; nia.
Qed.

Lemma round_half_even_bounds x (lo hi : Z) :
  (inject_Z lo <= x)%Q -> (x <= inject_Z hi)%Q ->
  (lo <= round_half_even x <= hi)%Z.
Proof.
  intros Hlo Hhi. unfold round_half_even.
  assert (Hf1 : (lo <= Qfloor x)%Z) by (rewrite <- (Qfloor_Z lo); by apply Qfloor_resp_le).
  assert (Hf2 : (Qfloor x <= hi)%Z) by (rewrite <- (Qfloor_Z hi); by apply Qfloor_resp_le).
  destruct (Z.eq_dec (Qfloor x) hi) as [Heq|Hne].
  - assert (Hx : (x - inject_Z (Qfloor x) <= 0)%Q).
    { rewrite Heq. unfold Qminus. rewrite <- (Qplus_opp_r (inject_Z hi)).
      apply Qplus_le_l. exact Hhi. }
    destruct (Qcompare_spec (x - inject_Z (Qfloor x)) (1 # 2)) as [H|H|H]; try lia.
    + rewrite H in Hx. unfold Qle in Hx; simpl in Hx; lia.
    + exfalso. apply (Qlt_irrefl (1#2)). eapply Qlt_le_trans; [exact H|].
      eapply Qle_trans; [exact Hx|]. unfold Qle; simpl; lia.
  - destruct (x - inject_Z (Qfloor x) ?= 1 # 2)%Q; [destruct (Z.even _)| |]; lia.
Qed.

Lemma round1_bounds x : (0 <= x)%Q -> (x <= 100)%Q -> (0 <= round1 x /\ round1 x <= 100)%Q.
Proof.
  intros H0 H100. unfold round1.
  destruct (round_half_even_bounds (x * 10) 0 1000) as [Hlo Hhi].
  - change (inject_Z 0) with (0 * 10)%Q. apply Qmult_le_compat_r; [done|discriminate].
  - change (inject_Z 1000) with (100 * 10)%Q. apply Qmult_le_compat_r; [done|discriminate].
  - set (z := round_half_even (x * 10)) in *. clearbody z.
    unfold Qle, Qdiv, Qmult, Qinv, inject_Z. simpl. split; lia.
Qed.

Lemma strftime_A_weekday date : In (strftime_A date) weekday_names.
Proof.
  unfold strftime_A. apply nth_In.
  assert (0 <= (date + 6) mod 7 < 7)%Z by (apply Z.mod_pos_bound; lia).
  simpl. lia.
Qed.

Lemma dd_append_keys day completed d k :
  In k (List.map fst (dd_append day completed d)) -> k = day \/ In k (List.map fst d).
Proof.
  induction d as [|[day' l] d IH]; simpl.
  - intros [H|[]]; by left.
  - destruct (String.eqb day day'); simpl; intros [H|H]; auto.
    destruct (IH H); auto.
Qed.

Lemma dd_append_nonempty day completed d :
  Forall (fun dc => snd dc <> []) d ->
  Forall (fun dc => snd dc <> []) (dd_append day completed d).
Proof.
  induction d as [|[day' l] d IH]; simpl; intros H.
  - constructor; [discriminate|constructor].
  - inversion H; subst. destruct (String.eqb day day'); constructor; auto.
    simpl. by destruct l.
Qed.

Lemma day_completion_keys_from acc history k :
  In k (List.map fst (fold_left (fun d e => dd_append (e_day_of_week e) (e_completed e) d)
                                history acc)) ->
  In k (List.map fst acc) \/ In k (List.map e_day_of_week history).
Proof.
  revert acc. induction history as [|e history IH]; simpl; intros acc H; [by left|].
  destruct (IH _ H) as [H1|H1]; [|by right; right].
  destruct (dd_append_keys _ _ _ _ H1) as [->|H2]; [right; by left|by left].
Qed.

Lemma day_completion_keys history k :
  In k (List.map fst (day_completion history)) -> In k (List.map e_day_of_week history).
Proof.
  intros H. by destruct (day_completion_keys_from [] history k H) as [[]|].
Qed.

Lemma day_stats_keys history d r :
  In (d, r) (day_stats (streak_stats history)) -> In d (List.map e_day_of_week history).
Proof.
  simpl. unfold day_stats_of. intros H. apply day_completion_keys. apply in_flat_map in H as [[day l] [Hin Hx]].
  simpl in Hx. destruct l; [done|]. destruct Hx as [Hx|[]]. inversion Hx; subst.
  apply in_map_iff. by exists (d, b :: l).
Qed.

Lemma insert_desc_In x y l : In x (insert_desc y l) <-> x = y \/ In x l.
Proof.
  induction l as [|z l IH]; simpl; [intuition|].
  destruct (Qle_bool (snd y) (snd z)); simpl; rewrite ?IH; intuition.
Qed.

Lemma sorted_desc_In_from acc l x :
  In x (fold_left (fun acc x => insert_desc x acc) l acc) <-> In x acc \/ In x l.
Proof.
  revert acc. induction l as [|y l IH]; simpl; intros acc; [intuition|].
  rewrite IH, insert_desc_In. intuition.
Qed.

Lemma sorted_desc_In l x : In x (sorted_desc l) <-> In x l.
Proof. unfold sorted_desc. rewrite sorted_desc_In_from. simpl. intuition. Qed.

Lemma In_firstn {A} n (l : list A) x : In x (firstn n l) -> In x l.
Proof. rewrite <- (firstn_skipn n l) at 2. intros H. apply in_or_app. by left. Qed.

Lemma In_skipn {A} n (l : list A) x : In x (skipn n l) -> In x l.
Proof. rewrite <- (firstn_skipn n l) at 2. intros H. apply in_or_app. by right. Qed.

Lemma best_days_spec history d :
  In d (best_days (streak_stats history)) ->
  exists r, In (d, r) (day_stats (streak_stats history)) /\ (50 <= r)%Q.
Proof.
  simpl. unfold best_days_of, worst_days_of.
  destruct (day_stats_of history) eqn:E; [done|]. rewrite <- E.
  intros H. apply in_map_iff in H as [[d' r] [<- H]]. apply filter_In in H as [H Hr].
  exists r. split; [apply In_firstn in H; by apply (proj1 (sorted_desc_In _ _)) in H|].
  by apply Qle_bool_iff.
Qed.

Lemma worst_days_spec history d :
  In d (worst_days (streak_stats history)) ->
  exists r, In (d, r) (day_stats (streak_stats history)) /\ (r < 50)%Q.
Proof.
  simpl. unfold best_days_of, worst_days_of.
  destruct (day_stats_of history) eqn:E; [done|]. rewrite <- E.
  intros H. apply in_map_iff in H as [[d' r] [<- H]]. apply filter_In in H as [H Hr].
  exists r. split; [apply In_skipn in H; by apply (proj1 (sorted_desc_In _ _)) in H|].
  apply Qnot_le_lt. intros Hle. apply Qle_bool_iff in Hle.
  unfold lt_50 in Hr. simpl in Hr. by rewrite Hle in Hr.
Qed.

Lemma best_days_length history : length (best_days (streak_stats history)) <= 2.
Proof.
  simpl. unfold best_days_of, worst_days_of.
  destruct (day_stats_of history); [simpl; lia|]. rewrite length_map.
  etransitivity; [apply filter_length_le|]. rewrite length_firstn. lia.
Qed.

Lemma worst_days_length history : length (worst_days (streak_stats history)) <= 2.
Proof.
  simpl. unfold best_days_of, worst_days_of.
  destruct (day_stats_of history); [simpl; lia|]. rewrite length_map.
  etransitivity; [apply filter_length_le|]. rewrite length_skipn. lia.
Qed.

(** C2. The statistics of any history whose entries carry the weekday of
    their date: the current streak is at most the longest one, the three
    completion rates lie between 0 and 100, at most two best and two worst
    days are reported, a best day has a rate of at least 50 and a worst day a
    rate below 50, and every key of [day_stats] is a weekday name. *)
Theorem streak_stats_invariants (history : list entry) :
  Forall (fun e => e_day_of_week e = strftime_A (e_date e)) history ->
  let st := streak_stats history in
  current_streak st <= max_streak st
  /\ ((0 <= completion_rate_7d st)%Q /\ (completion_rate_7d st <= 100)%Q)
  /\ ((0 <= completion_rate_30d st)%Q /\ (completion_rate_30d st <= 100)%Q)
  /\ ((0 <= completion_rate_all st)%Q /\ (completion_rate_all st <= 100)%Q)
  /\ length (best_days st) <= 2
  /\ length (worst_days st) <= 2
  /\ (forall d, In d (best_days st) -> exists r, In (d, r) (day_stats st) /\ (50 <= r)%Q)
  /\ (forall d, In d (worst_days st) -> exists r, In (d, r) (day_stats st) /\ (r < 50)%Q)
  /\ (forall d r, In (d, r) (day_stats st) -> In d weekday_names).
Proof.
  intros Hwf st. subst st.
  split; [|split; [|split; [|split; [|split; [|split; [|split; [|split]]]]]]].
  - simpl. destruct (streak_invariant history) as [<- Hle]. exact Hle.
  - apply round1_bounds; apply percent_of_bounds.
  - apply round1_bounds; apply percent_of_bounds.
  - apply round1_bounds; apply percent_of_bounds.
  - apply best_days_length.
  - apply worst_days_length.
  - apply best_days_spec.
  - apply worst_days_spec.
  - intros d r H. apply day_stats_keys in H. apply in_map_iff in H as [e [<- He]].
    rewrite List.Forall_forall in Hwf. rewrite (Hwf e He). apply strftime_A_weekday.
Qed.

Lemma streak_stats_invariants_witness :
  let st := streak_stats (ten_days 0) in
  current_streak st <= max_streak st
  /\ ((0 <= completion_rate_7d st)%Q /\ (completion_rate_7d st <= 100)%Q)
  /\ ((0 <= completion_rate_30d st)%Q /\ (completion_rate_30d st <= 100)%Q)
  /\ ((0 <= completion_rate_all st)%Q /\ (completion_rate_all st <= 100)%Q)
  /\ length (best_days st) <= 2
  /\ length (worst_days st) <= 2
  /\ (forall d, In d (best_days st) -> exists r, In (d, r) (day_stats st) /\ (50 <= r)%Q)
  /\ (forall d, In d (worst_days st) -> exists r, In (d, r) (day_stats st) /\ (r < 50)%Q)
  /\ (forall d r, In (d, r) (day_stats st) -> In d weekday_names).
Proof.
  apply (streak_stats_invariants (ten_days 0)).
  repeat constructor.
Defined.

(** C3 as stated fails: over the trailing seven days (days 4 to 10) four days
    are completed, not three. *)
Lemma ten_days_rate_is_not_three_sevenths :
  ~ (current_streak (streak_stats (ten_days 0)) = 0
     /\ max_streak (streak_stats (ten_days 0)) = 7
     /\ (completion_rate_7d (streak_stats (ten_days 0)) == round1 (3 / 7 * 100))%Q).
Proof. intros (_ & _ & H). vm_compute in H. discriminate H. Qed.

(** C3, amended. Days 1 to 7 completed and days 8 to 10 not: the current
    streak is 0, the longest streak is 7, the trailing window is days 4 to 10
    and its rate is [round(4/7*100, 1)], that is 57.1. *)
Theorem ten_days_streaks (start : Z) :
  let st := streak_stats (ten_days start) in
  current_streak st = 0
  /\ max_streak st = 7
  /\ last_days 7 (ten_days start)
     = List.map (fun i => mk_entry (start + Z.of_nat i) (i <=? 7)) (seq 4 7)
  /\ (completion_rate_7d st == round1 (4 / 7 * 100))%Q
  /\ (completion_rate_7d st == 571 # 10)%Q.
Proof. repeat split. Qed.

(** ** Completion of a day *)

Lemma parse_operations_done stem content :
  parse_reflection_text stem content !! "operations_done"%string
  = Some (VList (operations_done_of content)).
Proof. reflexivity. Qed.

Lemma parse_operations_percent stem content :
  parse_reflection_text stem content !! "operations_percent"%string
  = Some (int_field (percent_re (u "**Выполнение операций:**")) content).
Proof. reflexivity. Qed.

Lemma parse_evidence_done stem content :
  parse_reflection_text stem content !! "evidence_done"%string
  = Some (VList (checklist_done_of (u "### Доказательства идентичности") content)).
Proof. reflexivity. Qed.

Lemma dict_get_operations_done stem content dflt :
  dict_get (parse_reflection_text stem content) "operations_done" dflt
  = VList (operations_done_of content).
Proof. unfold dict_get. by rewrite parse_operations_done. Qed.

Lemma dict_get_operations_percent stem content dflt :
  dict_get (parse_reflection_text stem content) "operations_percent" dflt
  = int_field (percent_re (u "**Выполнение операций:**")) content.
Proof. unfold dict_get. by rewrite parse_operations_percent. Qed.

Lemma int_field_cases r content :
  int_field r content = VNone \/ exists p, int_field r content = VInt p.
Proof. unfold int_field. destruct (re_search r content); eauto. Qed.

(** The value [check_habit_completion] computes on a parsed reflection. *)
Lemma check_parsed habit stem content :
  check_habit_completion habit (parse_reflection_text stem content)
  = if existsb (keyword_overlap habit) (operations_done_of content) then Ret true
    else match int_field (percent_re (u "**Выполнение операций:**")) content with
         | VInt p => Ret (80 <=? p)%Z
         | _ => Raise TypeError
         end.
Proof.
  unfold check_habit_completion.
  rewrite dict_get_operations_done, dict_get_operations_percent. simpl.
  destruct (existsb _ _); [done|].
  destruct (int_field_cases (percent_re (u "**Выполнение операций:**")) content)
    as [->|[p ->]]; simpl; [done|]. by destruct (80 <=? p)%Z.
Qed.






Example window_of_sample_dir :
  List.map e_completed (skipn 85 (collect_history morning_habit sample_daily_dir 739256 90))
  = [false; false; false; true; true].
Proof. vm_compute. reflexivity. Qed.

(** The threshold is tested on each operation on its own: two operations
    that hold a quarter of the keywords each do not complete the day, though
    together they hold half of them. *)
Example overlap_is_per_operation :
  size (keywords (lower (h_name morning_habit))) = 4
  /\ List.map (fun operation =>
                 size (keywords (lower (h_name morning_habit)) ∩ keywords (lower operation)))
              (operations_done_of reflection_split_keywords) = [1; 1]
  /\ check_habit_completion morning_habit
       (parse_reflection_text (u "2025-01-05") reflection_split_keywords) = Ret false.
Proof. vm_compute. repeat split. Qed.

(** C10. When the document has no operations-percent field the record holds
    [None] under the key, so [get] does not fall back to 0; if moreover no
    operation reaches the keyword threshold, [check_habit_completion] raises
    TypeError, and the collecting loop records the day as not completed. *)
Theorem missing_percent_raises (habit : Habit) (stem content : str) :
  re_search (percent_re (u "**Выполнение операций:**")) content = None ->
  existsb (keyword_overlap habit) (operations_done_of content) = false ->
  let reflection_data := parse_reflection_text stem content in
  reflection_data !! "operations_percent"%string = Some VNone
  /\ dict_get reflection_data "operations_percent" (VInt 0) = VNone
  /\ check_habit_completion habit reflection_data = Raise TypeError
  /\ (forall dir date, file_of dir date = Readable content ->
                       e_completed (day_entry habit dir date) = false).
Proof.
  intros Hnone Hex rd. subst rd.
  assert (Hf : int_field (percent_re (u "**Выполнение операций:**")) content = VNone)
    by (unfold int_field; by rewrite Hnone).
  split; [by rewrite parse_operations_percent, Hf|].
  split; [by rewrite dict_get_operations_percent|].
  split; [by rewrite check_parsed, Hex, Hf|].
  intros dir date Hfile. unfold day_entry. rewrite Hfile. simpl.
  by rewrite check_parsed, Hex, Hf.
Qed.

Lemma missing_percent_raises_witness :
  re_search (percent_re (u "**Выполнение операций:**")) reflection_plain = None
  /\ existsb (keyword_overlap morning_habit) (operations_done_of reflection_plain) = false
  /\ check_habit_completion morning_habit (parse_reflection_text (u "2025-01-03") reflection_plain)
     = Raise TypeError.
Proof.
  split; [vm_compute; reflexivity|]. split; [vm_compute; reflexivity|].
  apply (missing_percent_raises morning_habit (u "2025-01-03") reflection_plain);
    vm_compute; reflexivity.
Defined.

(** ** Validation *)

Lemma has_critical_spec report : has_critical report = true <-> critical report <> [].
Proof.
  unfold has_critical. destruct (critical report); simpl; split; intros H; done.
Qed.

(** C6. A validation run that ends without an exception exits with 1 exactly
    when its report holds a CRITICAL issue, and with 0 otherwise, whatever
    WARNING and RECOMMENDATION issues it holds. *)
Theorem exit_code_iff_critical (p : project) (fix_mode : bool)
    (report : ValidationReport) (exit_code : Z) :
  validate_all p fix_mode = Ret (report, exit_code) ->
  validate_main p fix_mode = exit_code
  /\ (exit_code = 1%Z <-> critical report <> [])
  /\ (exit_code <> 0%Z <-> critical report <> [])
  /\ (critical report = [] -> exit_code = 0%Z).
Proof.
  intros Hrun. unfold validate_main. rewrite Hrun. split; [reflexivity|].
  unfold validate_all in Hrun.
  destruct (validate_reflections_structure p fix_mode _) as [r|e]; simpl in Hrun; [|discriminate].
  destruct (report_writable p); [|discriminate].
  inversion Hrun as [[Hrep Hcode]]. clear Hrun. rewrite Hrep in *.
  pose proof (has_critical_spec report) as Hc.
  destruct (has_critical report); subst exit_code.
  - assert (critical report <> []) by (by apply Hc).
    repeat split; intros; congruence.
  - assert (critical report = []).
    { destruct (critical report) eqn:E; [done|]. exfalso.
      assert (false = true) by (apply Hc; congruence). discriminate. }
    repeat split; intros; congruence.
Qed.

Lemma exit_code_iff_critical_witness :
  validate_all (sample_project goal_without_history) false
  = Ret (report_of (sample_project goal_without_history) false, 1%Z)
  /\ validate_main (sample_project goal_without_history) false = 1%Z
  /\ critical (report_of (sample_project goal_without_history) false) <> [].
Proof.
  assert (Hrun : validate_all (sample_project goal_without_history) false
                 = Ret (report_of (sample_project goal_without_history) false, 1%Z))
    by (vm_compute; reflexivity).
  destruct (exit_code_iff_critical _ _ _ _ Hrun) as (Hmain & Hone & _).
  split; [exact Hrun|]. split; [exact Hmain|]. apply Hone. reflexivity.
Defined.

Example warnings_only_exit_0 :
  validate_main (sample_project goal_with_150_percent) true = 0%Z
  /\ critical (report_of (sample_project goal_with_150_percent) true) = []
  /\ length (warning (report_of (sample_project goal_with_150_percent) true)) = 3
  /\ length (recommendation (report_of (sample_project goal_with_150_percent) true)) = 1.
Proof. vm_compute. repeat split. Qed.

(** ** The matcher *)

Lemma mt_chr f a s c :
  mt (chr f a) s c = if lit_at f [a] s then [(c, skipn 1 s)] else [].
Proof.
  destruct s as [|b s]; simpl; [done|]. rewrite andb_true_r.
  by destruct (if ignorecase f then _ else _).
Qed.

Lemma mt_chr_cons a b s c :
  mt (chr nf a) (b :: s) c = if (a =? b)%N then [(c, s)] else [].
Proof. reflexivity. Qed.

Lemma mt_chr_nil f a c : mt (chr f a) [] c = [].
Proof. reflexivity. Qed.

Lemma mt_lit f w s c :
  mt (lit f w) s c = if lit_at f w s then [(c, skipn (length w) s)] else [].
Proof.
  revert s. induction w as [|a w IH]; intros s; [done|].
  change (lit f (a :: w)) with (Seq (chr f a) (lit f w)).
  change (mt (Seq (chr f a) (lit f w)) s c)
    with (flat_map (fun x => mt (lit f w) (snd x) (fst x)) (mt (chr f a) s c)).
  rewrite mt_chr. destruct s as [|b s]; [done|]. simpl lit_at. rewrite andb_true_r.
  destruct (if ignorecase f then _ else _); simpl; [|done].
  rewrite IH, app_nil_r. done.
Qed.

Lemma lit_at_nf w s : lit_at nf w s = startswith w s.
Proof. revert s. induction w as [|a w IH]; intros [|b s]; simpl; try done. by rewrite IH. Qed.

Lemma occurs_nf w s : occurs nf w s = contains w s.
Proof. induction s as [|a s IH]; simpl; rewrite lit_at_nf; [done|]. by rewrite IH. Qed.

Lemma startswith_app w s : startswith w (w ++ s) = true.
Proof. induction w as [|a w IH]; simpl; [done|]. by rewrite N.eqb_refl. Qed.

Lemma startswith_prefix w s : startswith w s = true -> s = w ++ skipn (length w) s.
Proof.
  revert s. induction w as [|a w IH]; intros [|b s]; simpl; try done.
  intros [Hab Hw]%andb_true_iff. apply N.eqb_eq in Hab. subst. f_equal. by apply IH.
Qed.

Lemma rep_S step g fuel lo hi s c :
  rep step g (S fuel) lo hi s c
  = let stop := if lo =? 0 then [(c, s)] else [] in
    let more :=
      if hi_done hi then []
      else flat_map (fun x => rep step g fuel (pred lo) (hi_pred hi) (snd x) (fst x))
                    (List.filter (progress s) (step s c)) in
    if g then more ++ stop else stop ++ more.
Proof. reflexivity. Qed.

Lemma rep_O step g lo hi s c :
  rep step g 0 lo hi s c = if lo =? 0 then [(c, s)] else [].
Proof. simpl. by destruct g, (lo =? 0). Qed.

Lemma rep_sym p g fuel lo hi s c :
  length s <= fuel ->
  rep (mt (Sym p)) g fuel lo hi s c
  = List.map (fun k => (c, skipn k s)) (rep_counts g lo hi (length (take_while p s))).
Proof.
  revert lo hi s. induction fuel as [|fuel IH]; intros lo hi s Hlen.
  - destruct s; [|simpl in Hlen; lia]. rewrite rep_O. simpl. by destruct g, (lo =? 0).
  - rewrite rep_S. destruct s as [|a s].
    + simpl. destruct (hi_done hi), g, (lo =? 0); done.
    + change (mt (Sym p) (a :: s) c) with (if p a then [(c, s)] else []).
      simpl take_while. destruct (p a).
      * simpl List.filter. unfold progress at 1. simpl length.
        destruct (Nat.ltb_spec (length s) (S (length s))); [|lia].
        simpl flat_map. rewrite app_nil_r. rewrite IH by (simpl in Hlen; lia).
        simpl rep_counts.
        destruct (hi_done hi), g, (lo =? 0); simpl;
          rewrite ?map_app, ?map_map; simpl; done.
      * simpl. destruct (hi_done hi), g, (lo =? 0); done.
Qed.

Lemma mt_rep_sym g lo hi p s c :
  mt (Rep g lo hi (Sym p)) s c
  = List.map (fun k => (c, skipn k s)) (rep_counts g lo hi (length (take_while p s))).
Proof. simpl. by apply rep_sym. Qed.


Lemma rep_counts_lazy lo n : rep_counts false lo None n = seq lo (S n - lo).
Proof.
  revert lo. induction n as [|n IH]; intros lo.
  - simpl. by destruct lo as [|[|lo]].
  - simpl rep_counts. rewrite IH. simpl hi_done. cbv iota.
    destruct lo as [|lo]; simpl Nat.eqb; cbv iota.
    + simpl pred. rewrite seq_shift. rewrite Nat.sub_0_r. by rewrite <- cons_seq.
    + simpl pred. rewrite seq_shift. simpl. done.
Qed.

Lemma rep_suffix step g fuel lo hi s c x :
  (forall s c x, In x (step s c) -> exists w, s = w ++ snd x) ->
  In x (rep step g fuel lo hi s c) -> exists w, s = w ++ snd x.
Proof.
  intros Hstep. revert lo hi s c. induction fuel as [|fuel IH]; intros lo hi s c.
  - rewrite rep_O. destruct (lo =? 0); [|done]. intros [<-|[]]. by exists [].
  - rewrite rep_S. cbv zeta. intros H.
    assert (Hcases : In x (if lo =? 0 then [(c, s)] else [])
                     \/ In x (if hi_done hi then []
                              else flat_map (fun y => rep step g fuel (pred lo) (hi_pred hi)
                                                          (snd y) (fst y))
                                            (List.filter (progress s) (step s c)))).
    { destruct g; apply in_app_or in H; tauto. }
    destruct Hcases as [H1|H1].
    + destruct (lo =? 0); [|done]. destruct H1 as [<-|[]]. by exists [].
    + destruct (hi_done hi); [done|]. apply in_flat_map in H1 as (y & Hy & Hx).
      apply filter_In in Hy as [Hy _]. destruct (Hstep _ _ _ Hy) as [w1 ->].
      destruct (IH _ _ _ _ Hx) as [w2 Hw2]. exists (w1 ++ w2). rewrite <- app_assoc. by f_equal.
Qed.

Lemma mt_suffix r s c x : In x (mt r s c) -> exists w, s = w ++ snd x.
Proof.
  revert s c x. induction r as [|p|r1 IH1 r2 IH2|r1 IH1 r2 IH2|g lo hi r IH|n r IH|r IH|];
    intros s c x; simpl.
  - intros [<-|[]]. by exists [].
  - destruct s as [|a s]; [done|]. destruct (p a); [|done]. intros [<-|[]]. by exists [a].
  - intros (y & Hy & Hx)%in_flat_map. destruct (IH1 _ _ _ Hy) as [w1 ->].
    destruct (IH2 _ _ _ Hx) as [w2 Hw2]. exists (w1 ++ w2). rewrite <- app_assoc. by f_equal.
  - intros [H|H]%in_app_or; eauto.
  - apply rep_suffix. exact IH.
  - intros (y & <- & Hy)%in_map_iff. simpl. eauto.
  - destruct (mt r s c); [done|]. intros [<-|[]]. by exists [].
  - destruct (at_end s); [|done]. intros [<-|[]]. by exists [].
Qed.

Lemma consumed_app w s : consumed (w ++ s) s = w.
Proof.
  unfold consumed. rewrite length_app. replace (length w + length s - length s) with (length w) by lia.
  by rewrite firstn_app, Nat.sub_diag, firstn_all, app_nil_r.
Qed.

Lemma mt_split r s c x : In x (mt r s c) -> s = consumed s (snd x) ++ snd x.
Proof. intros [w Hw]%mt_suffix. rewrite Hw at 2. by rewrite Hw, consumed_app. Qed.

(** *** Searching *)

Lemma search_from_pre r pre s :
  search_from r pre s
  = option_map (fun m => {| m_pre := rev pre ++ m_pre m; m_text := m_text m;
                            m_groups := m_groups m; m_post := m_post m |})
               (re_search r s).
Proof.
  unfold re_search. revert pre. induction s as [|a s IH]; intros pre; simpl.
  - destruct (mt r [] []); simpl; [done|]. by rewrite app_nil_r.
  - destruct (mt r (a :: s) []); simpl; [|by rewrite app_nil_r].
    rewrite (IH [a]), (IH (a :: pre)). destruct (search_from r [] s); simpl; [|done].
    by rewrite <- app_assoc.
Qed.

Lemma re_search_here r s x xs :
  mt r s [] = x :: xs -> re_search r s = Some (match_here s x).
Proof. unfold re_search. intros H. destruct s; simpl; by rewrite H. Qed.

Lemma re_search_skip r a s :
  mt r (a :: s) [] = [] -> re_search r (a :: s) = option_map (shift a) (re_search r s).
Proof.
  unfold re_search. intros H. simpl. rewrite H. rewrite search_from_pre.
  unfold re_search. by destruct (search_from r [] s).
Qed.

Lemma re_search_nil r : mt r [] [] = [] -> re_search r [] = None.
Proof. unfold re_search. intros H. simpl. by rewrite H. Qed.

Lemma match_here_split r s x xs :
  mt r s [] = x :: xs ->
  s = m_pre (match_here s x) ++ m_text (match_here s x) ++ m_post (match_here s x).
Proof.
  intros E. unfold match_here. cbn [m_pre m_text m_post]. rewrite app_nil_l.
  apply mt_split with (r := r) (c := []). rewrite E. by left.
Qed.

(** A match splits the text. *)
Lemma re_search_split r s m :
  re_search r s = Some m -> s = m_pre m ++ m_text m ++ m_post m.
Proof.
  revert m. induction s as [|a s IH]; intros m.
  - destruct (mt r [] []) as [|x xs] eqn:E.
    + by rewrite re_search_nil.
    + rewrite (re_search_here _ _ _ _ E). intros [= <-]. by eapply match_here_split.
  - destruct (mt r (a :: s) []) as [|x xs] eqn:E.
    + rewrite re_search_skip by done. destruct (re_search r s) as [m'|]; [|done].
      intros [= <-]. simpl. f_equal. by apply IH.
    + rewrite (re_search_here _ _ _ _ E). intros [= <-]. by eapply match_here_split.
Qed.

(** *** Scanning *)

Lemma scan_S r fuel s :
  scan r (S fuel) s
  = match re_search r s with
    | None => ([], s)
    | Some m =>
        match m_text m, m_post m with
        | [], [] => ([m], [])
        | [], a :: post =>
            let '(ms, tl) := scan r fuel post in
            (m :: List.map (shift a) ms, match ms with [] => a :: tl | _ => tl end)
        | _ :: _, post => let '(ms, tl) := scan r fuel post in (m :: ms, tl)
        end
    end.
Proof. reflexivity. Qed.

Lemma scan_fuel r f1 f2 s :
  length s < f1 -> length s < f2 -> scan r f1 s = scan r f2 s.
Proof.
  revert f2 s. induction f1 as [|f1 IH]; intros f2 s H1 H2; [lia|].
  destruct f2 as [|f2]; [lia|]. rewrite !scan_S.
  destruct (re_search r s) as [m|] eqn:Hm; [|done].
  apply re_search_split in Hm. apply (f_equal (@length N)) in Hm.
  rewrite !length_app in Hm.
  destruct (m_text m) as [|t text]; [destruct (m_post m) as [|a post]|]; [done| |].
  - simpl in Hm. rewrite (IH f2 post) by lia. done.
  - simpl in Hm. rewrite (IH f2 (m_post m)) by lia. done.
Qed.

Lemma scan_none r s : re_search r s = None -> scan r (S (length s)) s = ([], s).
Proof. intros H. by rewrite scan_S, H. Qed.

Lemma scan_some r s m :
  re_search r s = Some m -> m_text m <> [] ->
  scan r (S (length s)) s
  = (m :: fst (scan r (S (length (m_post m))) (m_post m)),
     snd (scan r (S (length (m_post m))) (m_post m))).
Proof.
  intros Hm Htext. rewrite scan_S, Hm.
  apply re_search_split in Hm. apply (f_equal (@length N)) in Hm.
  rewrite !length_app in Hm.
  destruct (m_text m) as [|t text]; [done|]. simpl in Hm.
  rewrite (scan_fuel r (length s) (S (length (m_post m))) (m_post m)) by lia.
  by destruct (scan r _ (m_post m)).
Qed.



Lemma re_sub_none r repl s : re_search r s = None -> re_sub r repl s = s.
Proof. intros H. unfold re_sub. by rewrite scan_none. Qed.

Lemma re_sub_some r repl s m :
  re_search r s = Some m -> m_text m <> [] ->
  re_sub r repl s = m_pre m ++ repl m ++ re_sub r repl (m_post m).
Proof.
  intros H1 H2. unfold re_sub. rewrite (scan_some r s m) by done.
  destruct (scan r _ (m_post m)) as [ms tl]. simpl. by rewrite <- !app_assoc.
Qed.





(** *** Runs of characters *)


Lemma take_while_forall p s : forallb p (take_while p s) = true.
Proof. induction s as [|a s IH]; simpl; [done|]. destruct (p a) eqn:E; simpl; [by rewrite E|done]. Qed.


Lemma take_while_inside p s k :
  k < length (take_while p s) -> exists d rest, skipn k s = d :: rest /\ p d = true.
Proof.
  revert k. induction s as [|a s IH]; intros k; simpl; [lia|].
  destruct (p a) eqn:E; simpl; [|lia]. destruct k as [|k]; [eauto|].
  intros H. apply IH. lia.
Qed.

Lemma take_while_app_all p w s : forallb p w = true -> take_while p (w ++ s) = w ++ take_while p s.
Proof.
  induction w as [|a w IH]; simpl; [done|]. intros [Ha Hw]%andb_true_iff.
  rewrite Ha. f_equal. by apply IH.
Qed.

Lemma rep_counts_greedy lo hi n : rep_counts true lo hi n = rev (rep_counts false lo hi n).
Proof.
  revert lo hi. induction n as [|n IH]; intros lo hi; simpl.
  - by destruct (lo =? 0).
  - rewrite rev_app_distr. f_equal; [|by destruct (lo =? 0)].
    destruct (hi_done hi); [done|]. by rewrite IH, map_rev.
Qed.

Lemma flat_map_nil {A B} (f : A -> list B) l :
  (forall a, In a l -> f a = []) -> flat_map f l = [].
Proof.
  induction l as [|a l IH]; simpl; [done|]. intros H. rewrite (H a) by auto. apply IH. auto.
Qed.

(** A greedy [x+] followed by something that fails inside the run of [x]:
    only the whole run is left. *)
Lemma flat_map_plus_greedy {B} (f : nat -> list B) n :
  (forall k, 1 <= k < n -> f k = []) ->
  flat_map f (rep_counts true 1 None n) = match n with 0 => [] | S _ => f n end.
Proof.
  intros H. rewrite rep_counts_greedy, rep_counts_lazy. destruct n as [|n]; [done|].
  replace (S (S n) - 1) with (S n) by lia. rewrite seq_S, rev_app_distr. simpl.
  rewrite flat_map_nil, app_nil_r; [done|].
  intros k Hk. apply in_rev, in_seq in Hk. apply H. lia.
Qed.

(** *** The pattern [(\d+)%] *)





Lemma take_while_true p a s : p a = true -> take_while p (a :: s) = a :: take_while p s.
Proof. intros H. simpl. by rewrite H. Qed.

Lemma take_while_false p a s : p a = false -> take_while p (a :: s) = [].
Proof. intros H. simpl. by rewrite H. Qed.



(** ** Validation of a goal file *)





Example report_of_150_percent :
  let result := validate_goal_file (u "goals/run.md") (Readable goal_with_150_percent)
                                   new_report in
  critical result = []
  /\ warning result = [goal_issue (u "goals/run.md") updated_message;
                       goal_issue (u "goals/run.md") (percent_message (u "150"))].
Proof. vm_compute. split; reflexivity. Qed.

(** *** Where a search can succeed *)

Lemma match_here_found r s x xs :
  mt r s [] = x :: xs ->
  mt r (m_text (match_here s x) ++ m_post (match_here s x)) [] = x :: xs
  /\ m_text (match_here s x)
     = consumed (m_text (match_here s x) ++ m_post (match_here s x)) (snd x)
  /\ m_groups (match_here s x) = fst x /\ m_post (match_here s x) = snd x.
Proof.
  intros E. cbn [match_here m_text m_post m_groups].
  assert (Hs : s = consumed s (snd x) ++ snd x).
  { apply mt_split with (r := r) (c := []). rewrite E. by left. }
  rewrite <- Hs. done.
Qed.

Lemma re_search_found r s m :
  re_search r s = Some m ->
  exists x xs, mt r (m_text m ++ m_post m) [] = x :: xs
               /\ m_text m = consumed (m_text m ++ m_post m) (snd x)
               /\ m_groups m = fst x /\ m_post m = snd x.
Proof.
  revert m. induction s as [|a s IH]; intros m.
  - destruct (mt r [] []) as [|x xs] eqn:E; [by rewrite re_search_nil|].
    rewrite (re_search_here _ _ _ _ E). intros [= <-]. exists x, xs.
    by apply match_here_found.
  - destruct (mt r (a :: s) []) as [|x xs] eqn:E.
    + rewrite re_search_skip by done. destruct (re_search r s) as [m'|]; [|done].
      intros [= <-]. simpl. by apply IH.
    + rewrite (re_search_here _ _ _ _ E). intros [= <-]. exists x, xs.
      by apply match_here_found.
Qed.

Lemma re_search_exists r pre s x xs :
  mt r s [] = x :: xs -> exists m, re_search r (pre ++ s) = Some m.
Proof.
  intros H. induction pre as [|a pre [m IH]]; simpl.
  - rewrite (re_search_here _ _ _ _ H). eauto.
  - destruct (mt r (a :: pre ++ s) []) as [|y ys] eqn:E.
    + rewrite re_search_skip, IH by done. simpl. eauto.
    + rewrite (re_search_here _ _ _ _ E). eauto.
Qed.

Lemma re_search_none_all r pre s :
  re_search r (pre ++ s) = None -> mt r s [] = [].
Proof.
  intros H. destruct (mt r s []) as [|x xs] eqn:E; [done|].
  destruct (re_search_exists r pre s x xs E) as [m Hm]. congruence.
Qed.


(** *** Plain text patterns *)

Lemma lit_at_flags f f' w s : ignorecase f = ignorecase f' -> lit_at f w s = lit_at f' w s.
Proof.
  intros Hf. revert s. induction w as [|a w IH]; intros [|b s]; simpl; try done.
  by rewrite Hf, IH.
Qed.



Lemma occurs_app f w pre s : lit_at f w s = true -> occurs f w (pre ++ s) = true.
Proof.
  intros H. induction pre as [|a pre IH]; simpl.
  - destruct s; simpl; by rewrite H.
  - rewrite IH. apply orb_true_r.
Qed.

Lemma occurs_split f w s :
  occurs f w s = true -> exists pre rest, s = pre ++ rest /\ lit_at f w rest = true.
Proof.
  induction s as [|a s IH]; simpl.
  - rewrite orb_false_r. intros H. by exists [], [].
  - intros [H|H]%orb_true_iff.
    + by exists [], (a :: s).
    + destruct (IH H) as (pre & rest & -> & Hr). by exists (a :: pre), rest.
Qed.


Lemma re_search_prefix_lit f w r s m :
  re_search (Seq (lit f w) r) s = Some m -> occurs f w s = true.
Proof.
  intros H. assert (Hs := re_search_split _ _ _ H).
  destruct (re_search_found _ _ _ H) as (x & xs & Hmt & _).
  rewrite Hs. apply occurs_app.
  change (mt (Seq (lit f w) r) (m_text m ++ m_post m) [])
    with (flat_map (fun y => mt r (snd y) (fst y)) (mt (lit f w) (m_text m ++ m_post m) []))
    in Hmt.
  rewrite mt_lit in Hmt. by destruct (lit_at f w (m_text m ++ m_post m)).
Qed.

(** The text of a file without the header of a checklist: no item is found. *)
Lemma no_header_no_operations content :
  contains (u "#### Операции:") content = false -> operations_done_of content = [].
Proof.
  intros H. unfold operations_done_of.
  destruct (re_search _ content) as [m|] eqn:E; [|done].
  apply re_search_prefix_lit in E. by rewrite occurs_nf, H in E.
Qed.

Lemma no_header_no_items header content :
  contains header content = false -> checklist_done_of header content = [].
Proof.
  intros H. unfold checklist_done_of.
  destruct (re_search _ content) as [m|] eqn:E; [|done].
  apply re_search_prefix_lit in E. by rewrite occurs_nf, H in E.
Qed.

(** C4, the code on its failing inputs. An item checked with [X] is not
    extracted: the pattern of the block accepts only [ ] and [x], so the block
    ends before the first [X] line, and the later items are lost with it. An
    unchecked item whose text holds [x] is extracted, checkbox and all. With
    lower-case marks only, the checked item is extracted and stripped. *)
Theorem uppercase_mark_not_extracted :
  operations_done_of checklist_lower = [u "Зарядка"]
  /\ operations_done_of checklist_upper = []
  /\ operations_done_of checklist_mixed = [u "Зарядка"]
  /\ operations_done_of checklist_unchecked_mark = [u "- [ ] Чтение [x] книги"].
Proof. vm_compute. repeat split. Qed.

(** *** Case folding *)







(** *** The context pattern *)

Lemma take_while_all p s : (forall b, p b = true) -> take_while p s = s.
Proof. intros H. induction s as [|a s IH]; simpl; [done|]. by rewrite H, IH. Qed.






(** ** Critical events *)










Example events_of_accident_note :
  List.map (fun e => (ev_type e, ev_keyword e, ev_confidence e))
           (detect_critical_events accident_note)
  = [(FORCED_CHANGE, u "авария", high); (FORCED_CHANGE, u "пришлось", medium)]
  /\ List.map ev_context (detect_critical_events accident_note)
     = [accident_note; accident_note].
Proof. vm_compute. split; reflexivity. Qed.

(** ** Metrics update *)






Example goal_after_evidence_day :
  written_text goal_at_50
    (update_goal_metrics goal_at_50 day_with_evidence (u "2025-01-06") (u "2025-01-05"))
  = u "**Текущий прогресс:** 10/10
**Выполнение:** 37%
## ИСТОРИЯ ИЗМЕНЕНИЙ

- 2025-01-06: [PROGRESS] Автообновление метрик на основе рефлексии за 2025-01-05
  - **Детали:** Обновлены метрики: доказательств идентичности +2, выполнение операций 37%

".
Proof. vm_compute. reflexivity. Qed.

(** ** Habit extraction *)

Lemma mt_seq_lit w r s c :
  mt (Seq (lit nf w) r) s c = if startswith w s then mt r (skipn (length w) s) c else [].
Proof.
  change (mt (Seq (lit nf w) r) s c)
    with (flat_map (fun x => mt r (snd x) (fst x)) (mt (lit nf w) s c)).
  rewrite mt_lit, lit_at_nf. destruct (startswith w s); [|done].
  simpl. by rewrite app_nil_r.
Qed.


Lemma take_while_ext p q s : (forall b, p b = q b) -> take_while p s = take_while q s.
Proof. intros H. induction s as [|a s IH]; simpl; [done|]. by rewrite H, IH. Qed.

Lemma consumed_skipn k s : k <= length s -> consumed s (skipn k s) = firstn k s.
Proof.
  intros Hk. unfold consumed. rewrite length_skipn. f_equal. lia.
Qed.

Lemma take_while_length p s : length (take_while p s) <= length s.
Proof. induction s as [|a s IH]; simpl; [done|]. destruct (p a); simpl; lia. Qed.



Lemma flat_map_seq_first {B} (f : nat -> list B) k0 n :
  1 <= k0 <= n -> (forall k, 1 <= k < k0 -> f k = []) ->
  flat_map f (seq 1 n) = f k0 ++ flat_map f (seq (S k0) (n - k0)).
Proof.
  intros Hk Hnil. replace n with ((k0 - 1) + (S (n - k0))) at 1 by lia.
  rewrite seq_app, flat_map_app. rewrite flat_map_nil.
  - replace (1 + (k0 - 1)) with k0 by lia. done.
  - intros k Hin%in_seq. apply Hnil. lia.
Qed.





Lemma one_line_app a b : one_line (a ++ b) = one_line a && one_line b.
Proof. unfold one_line. apply forallb_app. Qed.

Lemma take_while_line l rest : one_line l = true -> take_while not_newline (l ++ NL :: rest) = l.
Proof.
  intros H. unfold one_line in H. rewrite take_while_app_all by done. simpl.
  by rewrite app_nil_r.
Qed.

Lemma skipn_app_length {A} (l1 l2 : list A) : skipn (length l1) (l1 ++ l2) = l2.
Proof. by rewrite skipn_app, Nat.sub_diag, skipn_all. Qed.

Lemma firstn_app_length {A} (l1 l2 : list A) : firstn (length l1) (l1 ++ l2) = l1.
Proof. by rewrite firstn_app, Nat.sub_diag, firstn_all, app_nil_r. Qed.



(** *** Matches line by line *)





Lemma contains_cons w a s :
  contains w (a :: s) = startswith w (a :: s) || contains w s.
Proof. reflexivity. Qed.




Ltac split_bools :=
  repeat match goal with
         | H : (_ && _) = true |- _ => apply andb_true_iff in H; destruct H
         | H : negb _ = true |- _ => apply negb_true_iff in H
         end.




(** *** The celebration suffix *)



Lemma one_line_cons a s : one_line (a :: s) = not_newline a && one_line s.
Proof. reflexivity. Qed.








Example habits_of_sample_goal :
  List.map (fun h => (h_type h, h_cue h, h_action h))
           (extract_habits (goal_text sample_goal_lines))
  = [(implementation_intention, u "утро", u "зарядка");
     (implementation_intention, u "утро", u "зарядка");
     (tiny_habit, u "кофе", u "2 отжимания")].
Proof. vm_compute. reflexivity. Qed.

(** *** Rewriting one field *)

Lemma firstn_take_while p s : firstn (length (take_while p s)) s = take_while p s.
Proof. induction s as [|a s IH]; [done|]. simpl. destruct (p a); simpl; [by f_equal|done]. Qed.

Lemma consumed_take_while p s :
  consumed s (skipn (length (take_while p s)) s) = take_while p s.
Proof. rewrite consumed_skipn by apply take_while_length. apply firstn_take_while. Qed.

(** A number after a label: [label(\d+)tail], where [tail] cannot start with
    a digit. *)
Lemma mt_number_field label tail s :
  (forall d rest c, is_digit d = true -> mt tail (d :: rest) c = []) ->
  mt (Seq (lit nf label) (Seq (Grp 1 (plus digit)) tail)) s []
  = if startswith label s then
      let s1 := skipn (length label) s in
      match take_while is_digit s1 with
      | [] => []
      | _ :: _ =>
          mt tail (skipn (length (take_while is_digit s1)) s1) [(1, take_while is_digit s1)]
      end
    else [].
Proof.
  intros Htail. rewrite mt_seq_lit. destruct (startswith label s); [|done]. cbv zeta.
  set (s1 := skipn (length label) s).
  change (mt (Seq (Grp 1 (plus digit)) tail) s1 [])
    with (flat_map (fun x => mt tail (snd x) (fst x))
            (List.map (fun x => ((1, consumed s1 (snd x)) :: fst x, snd x))
                      (mt (plus digit) s1 []))).
  unfold plus, digit. rewrite mt_rep_sym, map_map, flat_map_concat_map, map_map.
  rewrite <- flat_map_concat_map. cbn [fst snd].
  rewrite flat_map_plus_greedy.
  - rewrite consumed_take_while. by destruct (take_while is_digit s1).
  - intros k Hk. destruct (take_while_inside is_digit s1 k) as (d & rest & -> & Hd); [lia|].
    by apply Htail.
Qed.

Lemma lit_tail_no_digit a w d rest c :
  is_digit a = false -> is_digit d = true -> mt (Seq (lit nf (a :: w)) Eps) (d :: rest) c = [].
Proof.
  intros Ha Hd. rewrite mt_seq_lit. cbn [startswith].
  destruct (N.eqb_spec a d) as [->|]; [congruence|done].
Qed.

Lemma chr_tail_no_digit a d rest c :
  is_digit a = false -> is_digit d = true -> mt (Seq (chr nf a) Eps) (d :: rest) c = [].
Proof.
  intros Ha Hd.
  change (mt (Seq (chr nf a) Eps) (d :: rest) c)
    with (flat_map (fun x => mt Eps (snd x) (fst x)) (mt (chr nf a) (d :: rest) c)).
  rewrite mt_chr_cons. destruct (N.eqb_spec a d) as [->|]; [congruence|done].
Qed.

Lemma absent_before_spec w s n i :
  absent_before w s n = true -> i < n -> startswith w (skipn i s) = false.
Proof.
  unfold absent_before. rewrite forallb_forall. intros H Hi.
  apply negb_true_iff, H, in_seq. lia.
Qed.

Lemma re_search_at r pre s x xs :
  (forall i, i < length pre -> mt r (skipn i (pre ++ s)) [] = []) ->
  mt r s [] = x :: xs ->
  re_search r (pre ++ s)
  = Some {| m_pre := pre; m_text := consumed s (snd x); m_groups := fst x; m_post := snd x |}.
Proof.
  intros Hno Hmt. induction pre as [|a pre IH].
  - cbn [app]. by rewrite (re_search_here _ _ _ _ Hmt).
  - cbn [app]. rewrite re_search_skip by (apply (Hno 0); simpl; lia).
    rewrite IH; [done|]. intros i Hi. apply (Hno (S i)). simpl. lia.
Qed.

Lemma re_search_no_label label r s :
  contains label s = false -> re_search (Seq (lit nf label) r) s = None.
Proof.
  intros H. destruct (re_search _ s) as [m|] eqn:E; [|done].
  apply re_search_prefix_lit in E. by rewrite occurs_nf, H in E.
Qed.

(** Substitution in a text holding the field once. *)
Lemma re_sub_field label tail repl pre number closing post :
  (forall d rest c, is_digit d = true -> mt tail (d :: rest) c = []) ->
  (forall c, mt tail (closing ++ post) c = [(c, post)]) ->
  label <> [] -> number <> [] -> forallb is_digit number = true ->
  match closing with a :: _ => is_digit a = false | [] => False end ->
  absent_before label (pre ++ label ++ number ++ closing ++ post) (length pre) = true ->
  contains label post = false ->
  let r := Seq (lit nf label) (Seq (Grp 1 (plus digit)) tail) in
  re_search r (pre ++ label ++ number ++ closing ++ post)
  = Some {| m_pre := pre; m_text := label ++ number ++ closing;
            m_groups := [(1, number)]; m_post := post |}
  /\ re_sub r repl (pre ++ label ++ number ++ closing ++ post)
     = pre ++ repl {| m_pre := pre; m_text := label ++ number ++ closing;
                      m_groups := [(1, number)]; m_post := post |} ++ post.
Proof.
  intros Htail Hclose Hlabel Hnum Hdig Hc Habs Hpost r.
  assert (Hrun : take_while is_digit (number ++ closing ++ post) = number).
  { rewrite take_while_app_all by done. destruct closing as [|a closing]; [done|].
    cbn [app take_while]. rewrite Hc. apply app_nil_r. }
  assert (Hmt : mt r (label ++ number ++ closing ++ post) [] = [([(1, number)], post)]).
  { unfold r. rewrite mt_number_field by done. rewrite startswith_app. cbv zeta.
    rewrite skipn_app_length, Hrun. destruct number as [|d ds]; [done|].
    by rewrite skipn_app_length, Hclose. }
  assert (Hs : re_search r (pre ++ label ++ number ++ closing ++ post)
               = Some {| m_pre := pre; m_text := label ++ number ++ closing;
                         m_groups := [(1, number)]; m_post := post |}).
  { rewrite (re_search_at r pre (label ++ number ++ closing ++ post) ([(1, number)], post) []).
    - cbn [fst snd]. do 2 f_equal.
      replace (label ++ number ++ closing ++ post) with ((label ++ number ++ closing) ++ post)
        by (by rewrite <- !app_assoc).
      apply consumed_app.
    - intros i Hi. unfold r. rewrite mt_seq_lit.
      by rewrite (absent_before_spec _ _ _ _ Habs Hi).
    - exact Hmt. }
  split; [exact Hs|].
  rewrite (re_sub_some _ _ _ _ Hs); [|by destruct label].
  cbn [m_pre m_post]. do 2 f_equal. apply re_sub_none. by apply re_search_no_label.
Qed.

(** The evidence counter of a goal that holds the field once: a day with
    [count > 0] pieces of evidence takes it from [N] to [min(10, N + count)]. *)
Lemma evidence_counter_incremented pre number post count :
  number <> [] -> forallb is_digit number = true ->
  absent_before progress_label (pre ++ progress_label ++ number ++ u "/10" ++ post)
                (length pre) = true ->
  contains progress_label post = false ->
  0 < count ->
  update_evidence (pre ++ progress_label ++ number ++ u "/10" ++ post) count
  = (pre ++ progress_label ++ str_of_Z (Z.min 10 (int_of number + Z.of_nat count))
         ++ u "/10" ++ post,
     true).
Proof.
  intros Hnum Hdig Habs Hpost Hcount. unfold update_evidence.
  destruct (Nat.ltb_spec 0 count); [|lia].
  unfold evidence_pattern, seqs. cbn [fold_right].
  assert (Htail : forall d rest c, is_digit d = true ->
                                   mt (Seq (lit nf (u "/10")) Eps) (d :: rest) c = []).
  { intros d rest c Hd. by apply (lit_tail_no_digit 47%N [49; 48]%N). }
  assert (Hclose : forall c, mt (Seq (lit nf (u "/10")) Eps) (u "/10" ++ post) c = [(c, post)]).
  { intros c. rewrite mt_seq_lit, startswith_app. by rewrite skipn_app_length. }
  assert (Hlabel : progress_label <> []) by discriminate.
  destruct (re_sub_field progress_label (Seq (lit nf (u "/10")) Eps)
              (fun _ => progress_label
                        ++ str_of_Z (Z.min 10 (int_of number + Z.of_nat count)) ++ u "/10")
              pre number (u "/10") post Htail Hclose Hlabel Hnum Hdig eq_refl Habs Hpost)
    as [Hs Hsub].
  rewrite Hs. cbn [m_groups]. change (group 1 [(1, number)]) with number.
  rewrite Hsub. by rewrite <- !app_assoc.
Qed.

(** The completion percentage of a goal that holds the field once, after a
    day whose percentage [p] is positive. *)
Lemma completion_percent_overwritten pre number post updated p :
  number <> [] -> forallb is_digit number = true ->
  absent_before completion_label (pre ++ completion_label ++ number ++ [37%N] ++ post)
                (length pre) = true ->
  contains completion_label post = false ->
  (0 < p)%Z ->
  update_percent (pre ++ completion_label ++ number ++ [37%N] ++ post) updated p
  = (pre ++ completion_label ++ str_of_Z p ++ [37%N] ++ post, true).
Proof.
  intros Hnum Hdig Habs Hpost Hp. unfold update_percent.
  destruct (Z.ltb_spec 0 p); [|lia].
  unfold habits_pattern, seqs. cbn [fold_right].
  assert (Htail : forall d rest c, is_digit d = true ->
                                   mt (Seq (chr nf 37%N) Eps) (d :: rest) c = []).
  { intros d rest c Hd. by apply chr_tail_no_digit. }
  assert (Hclose : forall c, mt (Seq (chr nf 37%N) Eps) ([37%N] ++ post) c = [(c, post)]).
  { intros c. reflexivity. }
  assert (Hlabel : completion_label <> []) by discriminate.
  destruct (re_sub_field completion_label (Seq (chr nf 37%N) Eps)
              (fun _ => completion_label ++ str_of_Z p ++ u "%")
              pre number [37%N] post Htail Hclose Hlabel Hnum Hdig eq_refl Habs Hpost)
    as [_ Hsub].
  rewrite Hsub. by rewrite <- !app_assoc.
Qed.

Example counter_of_sample_goal :
  update_evidence goal_at_50 2
  = (u "**Текущий прогресс:** 10/10
**Выполнение:** 50%
## ИСТОРИЯ ИЗМЕНЕНИЙ
", true)
  /\ update_evidence (u "**Текущий прогресс:** 3/10") 2 = (u "**Текущий прогресс:** 5/10", true).
Proof. vm_compute. split; reflexivity. Qed.

(** ** Checklists with lower-case marks *)

Lemma rep_counts_greedy_head lo n :
  lo <= n -> exists l, rep_counts true lo None n = n :: l.
Proof.
  intros H. rewrite rep_counts_greedy, rep_counts_lazy.
  replace (S n - lo) with (S (n - lo)) by lia. rewrite seq_S, rev_app_distr.
  replace (lo + (n - lo)) with n by lia. simpl. eauto.
Qed.

Lemma rep_counts_opt n : 1 <= n -> rep_counts true 0 (Some 1) n = [1; 0].
Proof. destruct n as [|[|n]]; [lia|done|done]. Qed.

Lemma flat_map_head {A B} (f : A -> list B) a l y ys :
  f a = y :: ys -> exists zs, flat_map f (a :: l) = y :: zs.
Proof. intros H. simpl. rewrite H. simpl. eauto. Qed.

(** The end of an item: [\n?] takes the newline. *)
Lemma mt_item_end rest c :
  exists ys, mt (Seq (opt (chr nf NL)) Eps) (NL :: rest) c = (c, rest) :: ys.
Proof.
  change (mt (Seq (opt (chr nf NL)) Eps) (NL :: rest) c)
    with (flat_map (fun x => [(fst x, snd x)]) (mt (opt (chr nf NL)) (NL :: rest) c)).
  unfold opt, chr. rewrite mt_rep_sym. rewrite rep_counts_opt.
  - simpl. eauto.
  - cbn [take_while ignorecase nf no_flags]. rewrite N.eqb_refl. simpl. lia.
Qed.

Lemma mt_seq_sym p r a s c :
  mt (Seq (Sym p) r) (a :: s) c = if p a then mt r s c else [].
Proof.
  change (mt (Seq (Sym p) r) (a :: s) c)
    with (flat_map (fun x => mt r (snd x) (fst x)) (if p a then [(c, s)] else [])).
  destruct (p a); [|done]. simpl. by rewrite app_nil_r.
Qed.

(** An item line, by the greedy choices: the whole line and its newline. *)
Lemma mt_item_line i rest c :
  item_ok i = true ->
  exists ys, mt item_re (item_line i ++ NL :: rest) c = (c, rest) :: ys.
Proof.
  intros Hok. unfold item_ok in Hok. split_bools.
  assert (Hbody : exists ys,
            mt (Seq (plus (dot nf)) (Seq (opt (chr nf NL)) Eps))
               (item_text i ++ NL :: rest) c = (c, rest) :: ys).
  { change (mt (Seq (plus (dot nf)) (Seq (opt (chr nf NL)) Eps)) (item_text i ++ NL :: rest) c)
      with (flat_map (fun x => mt (Seq (opt (chr nf NL)) Eps) (snd x) (fst x))
                     (mt (plus (dot nf)) (item_text i ++ NL :: rest) c)).
    unfold plus, dot. rewrite mt_rep_sym. rewrite (take_while_ext _ not_newline) by done.
    rewrite take_while_line by done.
    destruct (rep_counts_greedy_head 1 (length (item_text i))) as [l ->].
    { destruct (item_text i); [done|simpl; lia]. }
    cbn [List.map]. destruct (mt_item_end rest c) as [ys Hys].
    eapply flat_map_head. cbn [fst snd]. rewrite skipn_app_length. exact Hys. }
  destruct Hbody as [ys Hbody]. exists ys. rewrite <- Hbody.
  unfold item_re, seqs. cbn [fold_right].
  destruct i as [text|text]; cbn [item_line item_text]; rewrite <- app_assoc.
  - change (u "- [x] ") with [45; 32; 91; 120; 93; 32]%N.
    rewrite mt_seq_lit. change (u "- [") with [45; 32; 91]%N.
    cbn [app startswith length skipn]. rewrite !N.eqb_refl. cbn [andb].
    rewrite mt_seq_sym. change (one_of (u " x") 120%N) with true. cbv iota.
    rewrite mt_seq_lit. change (u "] ") with [93; 32]%N.
    cbn [app startswith length skipn]. rewrite !N.eqb_refl. cbn [andb]. done.
  - change (u "- [ ] ") with [45; 32; 91; 32; 93; 32]%N.
    rewrite mt_seq_lit. change (u "- [") with [45; 32; 91]%N.
    cbn [app startswith length skipn]. rewrite !N.eqb_refl. cbn [andb].
    rewrite mt_seq_sym. change (one_of (u " x") 32%N) with true. cbv iota.
    rewrite mt_seq_lit. change (u "] ") with [93; 32]%N.
    cbn [app startswith length skipn]. rewrite !N.eqb_refl. cbn [andb]. done.
Qed.

Lemma mt_item_not_here after c :
  startswith (u "- [") after = false -> mt item_re after c = [].
Proof. intros H. unfold item_re, seqs. cbn [fold_right]. by rewrite mt_seq_lit, H. Qed.

(** The greedy repetition takes all the items. *)
Lemma rep_items items after c fuel lo :
  Forall (fun i => item_ok i = true) items ->
  startswith (u "- [") after = false ->
  length (checklist_text items ++ after) <= fuel -> lo <= length items ->
  exists xs, rep (mt item_re) true fuel lo None (checklist_text items ++ after) c
             = (c, after) :: xs.
Proof.
  intros Hok Hafter. revert fuel lo. induction Hok as [|i items Hi _ IH]; intros fuel lo Hfuel Hlo.
  - cbn [checklist_text flat_map app] in *. assert (lo = 0) as -> by (simpl in Hlo; lia).
    destruct fuel as [|fuel]; [rewrite rep_O; eauto|].
    rewrite rep_S, mt_item_not_here by done. simpl. eauto.
  - change (checklist_text (i :: items)) with ((item_line i ++ [NL]) ++ checklist_text items) in *.
    rewrite <- !app_assoc in *. cbn [app] in *.
    destruct fuel as [|fuel]; [rewrite length_app in Hfuel; simpl in Hfuel; lia|].
    rewrite rep_S. cbv zeta. cbn [hi_done hi_pred].
    destruct (mt_item_line i (checklist_text items ++ after) c Hi) as [ys ->].
    cbn [List.filter]. unfold progress at 1. cbn [snd].
    destruct (Nat.ltb_spec (length (checklist_text items ++ after))
                (length (item_line i ++ NL :: checklist_text items ++ after)))
      as [_|Hge]; [|rewrite length_app in Hge; simpl in Hge; lia].
    destruct (IH fuel (pred lo)) as [xs Hxs].
    + rewrite length_app in Hfuel. simpl in Hfuel. lia.
    + simpl in Hlo. lia.
    + cbn [flat_map fst snd]. rewrite Hxs. simpl. eauto.
Qed.

Lemma mt_seq_rep_sym g lo hi p r s c :
  mt (Seq (Rep g lo hi (Sym p)) r) s c
  = flat_map (fun k => mt r (skipn k s) c) (rep_counts g lo hi (length (take_while p s))).
Proof.
  change (mt (Seq (Rep g lo hi (Sym p)) r) s c)
    with (flat_map (fun x => mt r (snd x) (fst x)) (mt (Rep g lo hi (Sym p)) s c)).
  rewrite mt_rep_sym, flat_map_concat_map, map_map, <- flat_map_concat_map. done.
Qed.

Lemma checklist_text_head i items after :
  exists body, checklist_text (i :: items) ++ after = 45%N :: 32%N :: 91%N :: body.
Proof.
  change (checklist_text (i :: items)) with ((item_line i ++ [NL]) ++ checklist_text items).
  destruct i as [text|text]; cbn [item_line].
  - change (u "- [x] ") with [45; 32; 91; 120; 93; 32]%N. cbn [app]. eauto.
  - change (u "- [ ] ") with [45; 32; 91; 32; 93; 32]%N. cbn [app]. eauto.
Qed.

(** The block pattern at the header: group 1 is the text of all the items. *)
Lemma mt_checklist header items after :
  items <> [] -> Forall (fun i => item_ok i = true) items ->
  startswith (u "- [") after = false ->
  exists xs,
    mt (checklist_re header) (header ++ NL :: checklist_text items ++ after) []
    = ([(1, checklist_text items)], after) :: xs.
Proof.
  intros Hne Hok Hafter. unfold checklist_re, seqs. cbn [fold_right].
  rewrite mt_seq_lit, startswith_app, skipn_app_length.
  unfold star, ws. rewrite mt_seq_rep_sym.
  destruct items as [|i items]; [done|].
  destruct (checklist_text_head i items after) as [body Hbody].
  rewrite Hbody. cbn [take_while]. change (is_space NL) with true.
  change (is_space 45%N) with false. cbv iota. cbn [length rep_counts hi_done hi_pred Nat.eqb
    List.map app pred flat_map skipn].
  unfold chr. rewrite !mt_seq_sym. change (ignorecase nf) with false. cbv iota.
  change (NL =? 45)%N with false. cbv iota. cbn [app].
  rewrite N.eqb_refl. rewrite app_nil_r, <- Hbody.
  change (mt (Seq (Grp 1 (plus item_re)) Eps) (checklist_text (i :: items) ++ after) [])
    with (flat_map (fun x => [(fst x, snd x)])
            (List.map (fun x => ((1, consumed (checklist_text (i :: items) ++ after) (snd x))
                                   :: fst x, snd x))
               (rep (mt item_re) true (length (checklist_text (i :: items) ++ after)) 1 None
                    (checklist_text (i :: items) ++ after) []))).
  destruct (rep_items (i :: items) after [] (length (checklist_text (i :: items) ++ after)) 1
              Hok Hafter) as [xs ->]; [lia|simpl; lia|].
  cbn [List.map flat_map fst snd app]. rewrite consumed_app. eauto.
Qed.

Lemma group_single n t : group n [(n, t)] = t.
Proof. unfold group. simpl. by rewrite Nat.eqb_refl. Qed.

(** The search finds the block at the first occurrence of the header. *)
Lemma checklist_found header pre items after :
  absent_before header (pre ++ header ++ NL :: checklist_text items ++ after) (length pre) = true ->
  items <> [] -> Forall (fun i => item_ok i = true) items ->
  startswith (u "- [") after = false ->
  exists m, re_search (checklist_re header)
              (pre ++ header ++ NL :: checklist_text items ++ after) = Some m
            /\ group 1 (m_groups m) = checklist_text items.
Proof.
  intros Habs Hne Hok Hafter.
  destruct (mt_checklist header items after Hne Hok Hafter) as [xs Hmt].
  assert (Hno : forall i, i < length pre ->
            mt (checklist_re header)
               (skipn i (pre ++ header ++ NL :: checklist_text items ++ after)) [] = []).
  { intros i Hi. unfold checklist_re, seqs. cbn [fold_right].
    by rewrite mt_seq_lit, (absent_before_spec _ _ _ _ Habs Hi). }
  rewrite (re_search_at _ pre _ _ xs Hno Hmt).
  eexists. split; [done|]. cbn [m_groups fst]. apply group_single.
Qed.

Lemma ends_in_app p s t : t <> [] -> ends_in p (s ++ t) = ends_in p t.
Proof.
  intros Ht. unfold ends_in. rewrite rev_app_distr.
  destruct (rev t) as [|b t'] eqn:E; [|done].
  apply (f_equal (@rev N)) in E. rewrite rev_involutive in E. done.
Qed.

Lemma strip_trimmed a s :
  is_space a = false -> ends_in is_space (a :: s) = false -> strip (a :: s) = a :: s.
Proof.
  intros Ha He. unfold strip, strip_by. cbn [lstrip_by]. rewrite Ha.
  unfold ends_in in He. destruct (rev (a :: s)) as [|b t] eqn:E.
  - apply (f_equal (@rev N)) in E. rewrite rev_involutive in E. done.
  - cbn [lstrip_by]. rewrite He, <- E. apply rev_involutive.
Qed.

Lemma strip_trimmed_newline a s :
  is_space a = false -> ends_in is_space (a :: s) = false -> strip ((a :: s) ++ [NL]) = a :: s.
Proof.
  intros Ha He. unfold strip, strip_by. cbn [app lstrip_by]. rewrite Ha.
  change (a :: s ++ [NL]) with ((a :: s) ++ [NL]). rewrite rev_app_distr. cbn [rev app].
  change (rev s ++ [a]) with (rev (a :: s)).
  cbn [lstrip_by]. change (is_space NL) with true. cbv iota.
  unfold ends_in in He. destruct (rev (a :: s)) as [|b t] eqn:E.
  - apply (f_equal (@rev N)) in E. rewrite rev_involutive in E. done.
  - cbn [lstrip_by]. rewrite He, <- E. apply rev_involutive.
Qed.

Lemma split_on_line l : one_line l = true -> split_on NL l = [l].
Proof.
  induction l as [|a l IH]; [done|]. rewrite one_line_cons. intros [Ha Hl]%andb_prop.
  cbn [split_on]. unfold not_newline in Ha. apply negb_true_iff in Ha. by rewrite Ha, IH.
Qed.

Lemma split_on_lines l rest :
  one_line l = true -> split_on NL (l ++ NL :: rest) = l :: split_on NL rest.
Proof.
  induction l as [|a l IH].
  - intros _. cbn [app split_on]. by rewrite N.eqb_refl.
  - rewrite one_line_cons. intros [Ha Hl]%andb_prop.
    cbn [app split_on]. unfold not_newline in Ha. apply negb_true_iff in Ha. by rewrite Ha, IH.
Qed.

Lemma item_ok_spec i :
  item_ok i = true ->
  exists a t, item_text i = a :: t /\ is_space a = false
              /\ ends_in is_space (a :: t) = false /\ one_line (a :: t) = true
              /\ contains (u "[x]") (a :: t) = false /\ contains (u "[X]") (a :: t) = false.
Proof.
  unfold item_ok. destruct (item_text i) as [|a t]; [done|].
  intros H. split_bools. exists a, t.
  repeat match goal with H : negb _ = true |- _ => apply negb_true_iff in H end. done.
Qed.

Lemma item_line_one_line i : item_ok i = true -> one_line (item_line i) = true.
Proof.
  intros (a & t & Ht & _ & _ & Hl & _)%item_ok_spec.
  destruct i as [text|text]; cbn [item_line item_text] in *; subst text;
    rewrite one_line_app, Hl; done.
Qed.

Lemma item_line_trimmed i :
  item_ok i = true ->
  exists s, item_line i = 45%N :: s /\ ends_in is_space (item_line i) = false.
Proof.
  intros (a & t & Ht & _ & He & _)%item_ok_spec.
  destruct i as [text|text]; cbn [item_line item_text] in *; subst text.
  - eexists. split; [|by rewrite ends_in_app].
    change (u "- [x] ") with [45; 32; 91; 120; 93; 32]%N. cbn [app]. reflexivity.
  - eexists. split; [|by rewrite ends_in_app].
    change (u "- [ ] ") with [45; 32; 91; 32; 93; 32]%N. cbn [app]. reflexivity.
Qed.

(** The lines of the captured block are the lines of the items. *)
Lemma lines_of_checklist items m :
  items <> [] -> Forall (fun i => item_ok i = true) items ->
  group 1 (m_groups m) = checklist_text items ->
  section_lines m = List.map item_line items.
Proof.
  intros Hne Hok Hg. unfold section_lines. rewrite Hg. clear Hg m.
  destruct (exists_last Hne) as (init & last & ->).
  apply Forall_app in Hok as [Hinit Hlast].
  apply Forall_inv in Hlast.
  assert (Htext : checklist_text (init ++ [last])
                  = (checklist_text init ++ item_line last) ++ [NL]).
  { unfold checklist_text. rewrite flat_map_app. cbn [flat_map].
    by rewrite app_nil_r, app_assoc. }
  rewrite Htext.
  destruct (item_line_trimmed last Hlast) as (sl & Hsl & Hel).
  assert (Hhead : exists s, checklist_text init ++ item_line last = 45%N :: s).
  { destruct init as [|i init]; [cbn [checklist_text flat_map app]; eauto|].
    destruct (checklist_text_head i init (item_line last)) as [body ->]. eauto. }
  destruct Hhead as [s Hs].
  assert (Hend : ends_in is_space (checklist_text init ++ item_line last) = false).
  { rewrite ends_in_app; [done|]. by rewrite Hsl. }
  rewrite Hs in *. rewrite strip_trimmed_newline by done. rewrite <- Hs.
  clear Hs Hend Htext Hne s.
  rewrite List.map_app. cbn [List.map].
  induction Hinit as [|i init Hi _ IH].
  - cbn [checklist_text flat_map app List.map]. apply split_on_line.
    by apply item_line_one_line.
  - change (checklist_text (i :: init)) with ((item_line i ++ [NL]) ++ checklist_text init).
    rewrite <- !app_assoc. cbn [app List.map].
    rewrite split_on_lines by (by apply item_line_one_line). by rewrite IH.
Qed.

Lemma mark_at_2 a b m rest :
  contains [91; m; 93]%N (a :: b :: 91%N :: m :: 93%N :: rest) = true.
Proof.
  rewrite !contains_cons. cbn [startswith]. rewrite !N.eqb_refl. cbn [andb].
  by rewrite !orb_true_r.
Qed.

Lemma mt_checkbox_none s : 
  contains (u "[x]") s = false -> contains (u "[X]") s = false -> mt checkbox_re s [] = [].
Proof.
  change (u "[x]") with [91; 120; 93]%N. change (u "[X]") with [91; 88; 93]%N.
  intros Hx HX. unfold checkbox_re, seqs. cbn [fold_right]. rewrite mt_seq_lit.
  destruct (startswith (u "- [") s) eqn:E; [|done].
  apply startswith_prefix in E. revert E.
  change (u "- [") with [45; 32; 91]%N. cbn [length]. generalize (skipn 3 s). intros rest E.
  destruct rest as [|m rest]; [done|]. rewrite mt_seq_sym.
  destruct (one_of (u "xX") m) eqn:Em; [|done].
  rewrite mt_seq_lit. destruct (startswith (u "]") rest) eqn:Er; [|done].
  apply startswith_prefix in Er. revert Er. change (u "]") with [93%N]. cbn [length skipn app].
  generalize (skipn 1 rest). intros rest' ->. cbn [app] in E. subst s.
  unfold one_of in Em. change (u "xX") with [120; 88]%N in Em. cbn [existsb] in Em.
  rewrite orb_false_r in Em.
  apply orb_prop in Em as [->%N.eqb_eq| ->%N.eqb_eq];
    [rewrite mark_at_2 in Hx|rewrite mark_at_2 in HX]; done.
Qed.

Lemma checkbox_no_match s :
  contains (u "[x]") s = false -> contains (u "[X]") s = false -> re_search checkbox_re s = None.
Proof.
  induction s as [|a s IH]; intros Hx HX.
  - apply re_search_nil. by apply mt_checkbox_none.
  - rewrite re_search_skip by (by apply mt_checkbox_none).
    rewrite contains_cons in Hx, HX.
    apply orb_false_elim in Hx as [_ Hx]. apply orb_false_elim in HX as [_ HX].
    by rewrite IH.
Qed.

(** A checked line gives its text. *)
Lemma done_item_checked a t :
  is_space a = false -> ends_in is_space (a :: t) = false ->
  contains (u "[x]") (a :: t) = false -> contains (u "[X]") (a :: t) = false ->
  done_item (u "- [x] " ++ a :: t) = [a :: t].
Proof.
  intros Ha He Hx HX. unfold done_item.
  assert (Hmark : contains (u "[x]") (u "- [x] " ++ a :: t) = true).
  { change (u "[x]") with [91; 120; 93]%N. change (u "- [x] ") with [45; 32; 91; 120; 93; 32]%N.
    cbn [app]. apply mark_at_2. }
  rewrite Hmark. cbn [orb].
  assert (Hmt : mt checkbox_re (u "- [x] " ++ a :: t) []
                = [([], a :: t); ([], 32%N :: a :: t)]).
  { unfold checkbox_re, seqs. cbn [fold_right].
    change (u "- [x] ") with [45; 32; 91; 120; 93; 32]%N.
    change (u "- [") with [45; 32; 91]%N. change (u "]") with [93%N]. cbn [app].
    rewrite mt_seq_lit. cbn [startswith length skipn]. rewrite !N.eqb_refl. cbn [andb].
    rewrite mt_seq_sym. change (one_of (u "xX") 120%N) with true. cbv iota.
    rewrite mt_seq_lit. cbn [startswith length skipn]. rewrite !N.eqb_refl. cbn [andb].
    unfold star, ws. rewrite mt_seq_rep_sym.
    rewrite (take_while_true is_space 32%N) by done.
    rewrite (take_while_false is_space a) by done. reflexivity. }
  assert (Hsub : re_sub checkbox_re (fun _ => []) (u "- [x] " ++ a :: t) = a :: t).
  { rewrite (re_sub_some _ _ _ _ (re_search_here _ _ _ _ Hmt)).
    - cbn [match_here m_pre m_post snd app].
      by rewrite re_sub_none by (by apply checkbox_no_match).
    - cbn [match_here m_text snd].
      change (u "- [x] " ++ a :: t) with (u "- [x] " ++ a :: t).
      rewrite consumed_app. done. }
  rewrite Hsub, strip_trimmed by done. done.
Qed.

(** An unchecked line gives nothing. *)
Lemma done_item_unchecked a t :
  contains (u "[x]") (a :: t) = false -> contains (u "[X]") (a :: t) = false ->
  done_item (u "- [ ] " ++ a :: t) = [].
Proof.
  intros Hx HX. unfold done_item.
  assert (H1 : contains (u "[x]") (u "- [ ] " ++ a :: t) = false).
  { revert Hx. change (u "[x]") with [91; 120; 93]%N.
    change (u "- [ ] ") with [45; 32; 91; 32; 93; 32]%N. cbn [app].
    intros Hx. do 6 rewrite contains_cons. rewrite Hx. reflexivity. }
  assert (H2 : contains (u "[X]") (u "- [ ] " ++ a :: t) = false).
  { revert HX. change (u "[X]") with [91; 88; 93]%N.
    change (u "- [ ] ") with [45; 32; 91; 32; 93; 32]%N. cbn [app].
    intros HX. do 6 rewrite contains_cons. rewrite HX. reflexivity. }
  by rewrite H1, H2.
Qed.

(** The body of the loop on the line of an item. *)
Lemma operations_line i :
  item_ok i = true ->
  (if nonempty (strip (item_line i))
      && negb (startswith (u "- [ ]") (strip (item_line i)))
      && negb (startswith (u "- [x]") (strip (item_line i)))
   then [] else done_item (item_line i))
  = match i with Checked text => [text] | Unchecked _ => [] end.
Proof.
  intros Hok. destruct (item_line_trimmed i Hok) as (s & Hs & He).
  assert (Hstrip : strip (item_line i) = item_line i).
  { rewrite Hs in *. by apply strip_trimmed. }
  rewrite Hstrip. clear Hstrip Hs He s.
  destruct (item_ok_spec i Hok) as (a & t & Ht & Ha & He & _ & Hx & HX).
  destruct i as [text|text]; cbn [item_line item_text] in *; subst text.
  - assert (Hstart : startswith (u "- [x]") (u "- [x] " ++ a :: t) = true).
    { change (u "- [x]") with [45; 32; 91; 120; 93]%N.
      change (u "- [x] ") with [45; 32; 91; 120; 93; 32]%N. reflexivity. }
    rewrite Hstart, andb_false_r. by apply done_item_checked.
  - assert (Hstart : startswith (u "- [ ]") (u "- [ ] " ++ a :: t) = true).
    { change (u "- [ ]") with [45; 32; 91; 32; 93]%N.
      change (u "- [ ] ") with [45; 32; 91; 32; 93; 32]%N. reflexivity. }
    rewrite Hstart, andb_false_r. cbn [negb andb]. by apply done_item_unchecked.
Qed.

(** Round trip with lower-case marks: a block of trimmed items under the
    first header, followed by a text that starts no further item, gives the
    texts of the checked items, in order. *)
Lemma lowercase_checklist_round_trip pre items after :
  absent_before (u "#### Операции:")
    (pre ++ u "#### Операции:" ++ NL :: checklist_text items ++ after) (length pre) = true ->
  items <> [] -> Forall (fun i => item_ok i = true) items ->
  startswith (u "- [") after = false ->
  operations_done_of (pre ++ u "#### Операции:" ++ NL :: checklist_text items ++ after)
  = checked_texts items.
Proof.
  intros Habs Hne Hok Hafter. unfold operations_done_of.
  destruct (checklist_found _ pre items after Habs Hne Hok Hafter) as (m & -> & Hg).
  rewrite (lines_of_checklist items m Hne Hok Hg). clear Hg Habs Hne m.
  unfold checked_texts. induction Hok as [|i items Hi _ IH]; [done|].
  cbn [List.map flat_map]. by rewrite operations_line, IH.
Qed.

Lemma checked_texts_length items :
  length (checked_texts items)
  = length (List.filter (fun i => match i with Checked _ => true | Unchecked _ => false end) items).
Proof.
  unfold checked_texts.
  induction items as [|[text|text] items IH]; [done| |];
    cbn [flat_map app length List.filter]; by rewrite IH.
Qed.

Example round_trip_of_sample_items :
  operations_done_of ((u "## Вечер" ++ [NL]) ++ u "#### Операции:" ++ NL ::
                        checklist_text sample_items ++ NL :: u "#### Тактика:")
  = [u "Зарядка 10 минут"; u "Код"].
Proof.
  rewrite lowercase_checklist_round_trip; try done. repeat constructor.
Qed.

(** ** A reflection without labels *)

Lemma occurs_flags f f' w s : ignorecase f = ignorecase f' -> occurs f w s = occurs f' w s.
Proof.
  intros Hf. induction s as [|a s IH]; simpl; rewrite (lit_at_flags f f') by done; [done|].
  by rewrite IH.
Qed.

Lemma re_search_absent f label r s :
  ignorecase f = false -> contains label s = false -> re_search (Seq (lit f label) r) s = None.
Proof.
  intros Hf H. destruct (re_search _ s) as [m|] eqn:E; [|done].
  apply re_search_prefix_lit in E.
  rewrite (occurs_flags f nf) in E by done. by rewrite occurs_nf, H in E.
Qed.

Lemma bullets_absent label content : contains label content = false -> bullets_of label content = [].
Proof.
  intros H. unfold bullets_of, bullets_re, seqs. cbn [fold_right].
  by rewrite re_search_absent.
Qed.

Lemma rating_absent label content :
  contains label content = false -> int_field (rating_re label) content = VNone.
Proof.
  intros H. unfold int_field, rating_re, seqs. cbn [fold_right]. by rewrite re_search_absent.
Qed.

Lemma percent_absent label content :
  contains label content = false -> int_field (percent_re label) content = VNone.
Proof.
  intros H. unfold int_field, percent_re, seqs. cbn [fold_right]. by rewrite re_search_absent.
Qed.

Lemma tier_absent label content :
  contains label content = false -> tier_field label content = VNone.
Proof.
  intros H. unfold tier_field, tier_re, seqs. cbn [fold_right]. by rewrite re_search_absent.
Qed.

Lemma block_absent header content :
  contains header content = false -> block_field header content = VStr [].
Proof.
  intros H. unfold block_field, block_re, seqs. cbn [fold_right]. by rewrite re_search_absent.
Qed.

(** X2. A text that holds none of the labels parses to the initial record:
    the lists are empty, the numbers and the levels are None, the two texts
    are empty; only the date and the critical events are set. *)
Theorem parse_of_unlabelled_text (stem content : str) :
  Forall (fun label => contains label content = false) reflection_labels ->
  parse_reflection_text stem content = initial_reflection_data stem content.
Proof.
  intros H. unfold reflection_labels in H.
  apply Forall_cons_1 in H as [H1 H]. apply Forall_cons_1 in H as [H2 H].
  apply Forall_cons_1 in H as [H3 H]. apply Forall_cons_1 in H as [H4 H].
  apply Forall_cons_1 in H as [H5 H]. apply Forall_cons_1 in H as [H6 H].
  apply Forall_cons_1 in H as [H7 H]. apply Forall_cons_1 in H as [H8 H].
  apply Forall_cons_1 in H as [H9 H]. apply Forall_cons_1 in H as [H10 H].
  apply Forall_cons_1 in H as [H11 H]. apply Forall_cons_1 in H as [H12 H].
  apply Forall_cons_1 in H as [H13 _].
  unfold parse_reflection_text, initial_reflection_data.
  rewrite (no_header_no_operations _ H1).
  rewrite (no_header_no_items _ _ H2), (no_header_no_items _ _ H3).
  rewrite (bullets_absent _ _ H4), (bullets_absent _ _ H5).
  rewrite (rating_absent _ _ H6).
  rewrite (percent_absent _ _ H7), (percent_absent _ _ H8).
  rewrite (tier_absent _ _ H9), (tier_absent _ _ H10), (tier_absent _ _ H11).
  rewrite (block_absent _ _ H12), (block_absent _ _ H13).
  reflexivity.
Qed.

Lemma parse_of_unlabelled_text_witness :
  parse_reflection_text (u "2025-01-05") (u "Сегодня был обычный день.")
  = initial_reflection_data (u "2025-01-05") (u "Сегодня был обычный день.").
Proof.
  apply parse_of_unlabelled_text. repeat constructor.
Defined.
(** ** The other checklists of a reflection *)

Lemma done_item_of_item i :
  item_ok i = true ->
  done_item (item_line i) = match i with Checked text => [text] | Unchecked _ => [] end.
Proof.
  intros Hok. destruct (item_ok_spec i Hok) as (a & t & Ht & Ha & He & _ & Hx & HX).
  destruct i as [text|text]; cbn [item_line item_text] in *; subst text.
  - by apply done_item_checked.
  - by apply done_item_unchecked.
Qed.

(** X1. The tactics and evidence checklists: a block of trimmed one-line
    items under the first occurrence of its header, followed by a text that
    starts no further item, gives the texts of the checked items, in order. *)
Theorem checked_items_extracted (header pre : str) (items : list item) (after : str) :
  absent_before header (pre ++ header ++ NL :: checklist_text items ++ after) (length pre) = true ->
  items <> [] -> Forall (fun i => item_ok i = true) items ->
  startswith (u "- [") after = false ->
  checklist_done_of header (pre ++ header ++ NL :: checklist_text items ++ after)
  = checked_texts items.
Proof.
  intros Habs Hne Hok Hafter. unfold checklist_done_of.
  destruct (checklist_found _ pre items after Habs Hne Hok Hafter) as (m & -> & Hg).
  rewrite (lines_of_checklist items m Hne Hok Hg). clear Hg Habs Hne m.
  unfold checked_texts. induction Hok as [|i items Hi _ IH]; [done|].
  cbn [List.map flat_map]. by rewrite done_item_of_item, IH.
Qed.

Lemma checked_items_extracted_witness :
  checklist_done_of (u "#### Тактика:")
    ([] ++ u "#### Тактика:" ++ NL :: checklist_text sample_items ++ [])
  = checked_texts sample_items.
Proof.
  apply (checked_items_extracted (u "#### Тактика:") [] sample_items []).
  - reflexivity.
  - discriminate.
  - repeat constructor.
  - reflexivity.
Defined.

(** ** Numbers after a label *)

(** The search of a pattern that opens with a label stops at the first
    occurrence of the label when the pattern matches there. *)
Lemma re_search_labelled label r pre s x xs :
  absent_before label (pre ++ s) (length pre) = true ->
  mt (Seq (lit nf label) r) s [] = x :: xs ->
  re_search (Seq (lit nf label) r) (pre ++ s)
  = Some {| m_pre := pre; m_text := consumed s (snd x); m_groups := fst x; m_post := snd x |}.
Proof.
  intros Habs Hmt. apply (re_search_at _ pre s x xs); [|exact Hmt].
  intros i Hi. by rewrite mt_seq_lit, (absent_before_spec _ _ _ _ Habs Hi).
Qed.


Lemma mt_opt_taken a r s c x xs :
  mt r s c = x :: xs -> exists ys, mt (Seq (opt (chr nf a)) r) (a :: s) c = x :: ys.
Proof.
  intros H. unfold opt, chr. rewrite mt_seq_rep_sym.
  rewrite rep_counts_opt.
  - cbn [flat_map]. change (skipn 1 (a :: s)) with s. rewrite H. simpl. eauto.
  - cbn [take_while ignorecase nf no_flags]. rewrite N.eqb_refl. simpl. lia.
Qed.

Lemma mt_opt_skipped a r s c :
  match s with b :: _ => (a =? b)%N = false | [] => True end ->
  mt (Seq (opt (chr nf a)) r) s c = mt r s c.
Proof.
  intros H. unfold opt, chr. rewrite mt_seq_rep_sym.
  assert (Hrun : take_while (fun b => if ignorecase nf then (lower_cp a =? lower_cp b)%N
                                      else (a =? b)%N) s = []).
  { destruct s as [|b s]; [done|]. cbn [take_while ignorecase nf no_flags]. by rewrite H. }
  rewrite Hrun. cbn. apply app_nil_r.
Qed.

Lemma total_eps : total_tail Eps.
Proof. intros s c. by exists s, []. Qed.

Lemma total_opt a r : total_tail r -> total_tail (Seq (opt (chr nf a)) r).
Proof.
  intros Hr s c. destruct s as [|b s].
  - rewrite mt_opt_skipped by done. apply Hr.
  - destruct (N.eqb_spec a b) as [<-|Hab].
    + destruct (Hr s c) as (rest & xs & H).
      destruct (mt_opt_taken a r s c _ _ H) as [ys Hys]. eauto.
    + rewrite mt_opt_skipped by (by apply N.eqb_neq). apply Hr.
Qed.

Lemma mt_run_group_head p tail run rest c x xs :
  run <> [] -> forallb p run = true ->
  match rest with d :: _ => p d = false | [] => True end ->
  mt tail rest ((1, run) :: c) = x :: xs ->
  exists ys, mt (Seq (Grp 1 (plus (Sym p))) tail) (run ++ rest) c = x :: ys.
Proof.
  intros Hne Hrun' Hrest Htail.
  assert (Hrun : take_while p (run ++ rest) = run).
  { rewrite take_while_app_all by done. destruct rest as [|d rest]; [apply app_nil_r|].
    cbn [take_while]. rewrite Hrest. apply app_nil_r. }
  change (mt (Seq (Grp 1 (plus (Sym p))) tail) (run ++ rest) c)
    with (flat_map (fun x => mt tail (snd x) (fst x))
            (List.map (fun x => ((1, consumed (run ++ rest) (snd x)) :: fst x, snd x))
                      (mt (plus (Sym p)) (run ++ rest) c))).
  unfold plus. rewrite mt_rep_sym, Hrun.
  destruct (rep_counts_greedy_head 1 (length run)) as [l ->]; [destruct run; simpl; [done|lia]|].
  cbn [List.map flat_map fst snd]. rewrite skipn_app_length, consumed_app, Htail.
  simpl. eauto.
Qed.






(** ** Levels after a label *)

(** X4. A level written after the first occurrence of its label, in
    brackets or not: the field holds the text up to the first closing bracket
    (or the end of the text), trimmed; line ends do not stop it. *)
Theorem level_field_parsed (label pre sp ob v rest : str) :
  absent_before label (pre ++ label ++ sp ++ ob ++ v ++ rest) (length pre) = true ->
  forallb is_space sp = true ->
  v <> [] -> forallb (none_of (u "]")) v = true ->
  ob = [91%N]
  \/ ob = [] /\ match v with a :: _ => is_space a = false /\ a <> 91%N | [] => False end ->
  match rest with b :: _ => b = 93%N | [] => True end ->
  tier_field label (pre ++ label ++ sp ++ ob ++ v ++ rest) = VStr (strip v).
Proof.
  intros Habs Hsp Hne Hv Hob Hrest. unfold tier_field, tier_re, seqs. cbn [fold_right].
  destruct (total_opt 93%N Eps total_eps rest [(1, v)]) as (rest' & xs & Hx).
  assert (Hrest' : match rest with d :: _ => none_of (u "]") d = false | [] => True end).
  { destruct rest as [|b rest]; [done|]. by subst b. }
  destruct (mt_run_group_head _ (Seq (opt (chr nf 93%N)) Eps) v rest [] _ _ Hne Hv Hrest' Hx)
    as [ys Hys].
  assert (Hopt : exists zs,
             mt (Seq (opt (chr nf 91%N))
                     (Seq (Grp 1 (plus (Sym (none_of (u "]"))))) (Seq (opt (chr nf 93%N)) Eps)))
                (ob ++ v ++ rest) [] = ([(1, v)], rest') :: zs).
  { destruct Hob as [->|[-> Hhead]].
    - cbn [app]. by apply mt_opt_taken with (xs := ys).
    - cbn [app]. rewrite mt_opt_skipped; [eauto|].
      destruct v as [|a v]; [done|]. cbn [app]. destruct Hhead as [_ Ha].
      apply N.eqb_neq. congruence. }
  destruct Hopt as [zs Hzs].
  assert (Hhead : match ob ++ v ++ rest with b :: _ => is_space b = false | [] => True end).
  { destruct Hob as [->|[-> Hhead]]; [done|]. destruct v as [|a v]; [done|]. apply Hhead. }
  assert (Hrun : take_while is_space (sp ++ ob ++ v ++ rest) = sp).
  { rewrite take_while_app_all by done. destruct (ob ++ v ++ rest) as [|b t]; [apply app_nil_r|].
    cbn [take_while]. rewrite Hhead. apply app_nil_r. }
  assert (Hmt : exists us,
             mt (Seq (lit nf label) (Seq (star ws) (Seq (opt (chr nf 91%N))
                   (Seq (Grp 1 (plus (Sym (none_of (u "]"))))) (Seq (opt (chr nf 93%N)) Eps)))))
                (label ++ sp ++ ob ++ v ++ rest) [] = ([(1, v)], rest') :: us).
  { rewrite mt_seq_lit, startswith_app, skipn_app_length.
    unfold star, ws. rewrite mt_seq_rep_sym, Hrun.
    destruct (rep_counts_greedy_head 0 (length sp)) as [l ->]; [lia|].
    cbn [flat_map]. rewrite skipn_app_length, Hzs. simpl. eauto. }
  destruct Hmt as [us Hmt].
  rewrite (re_search_labelled _ _ pre _ _ us Habs Hmt).
  cbn [m_groups fst]. by rewrite group_single.
Qed.

Lemma level_field_parsed_witness :
  tier_field (u "**Энергия:**")
    ([] ++ u "**Энергия:**" ++ [32%N] ++ [91%N] ++ u "высокая" ++ [93%N; 10%N])
  = VStr (strip (u "высокая")).
Proof.
  apply (level_field_parsed (u "**Энергия:**") [] [32%N] [91%N] (u "высокая") [93%N; 10%N]).
  - reflexivity.
  - reflexivity.
  - discriminate.
  - reflexivity.
  - by left.
  - reflexivity.
Defined.

(** ** Bullet lists *)

(** A greedy repetition of a line pattern takes all the lines. *)
Lemma rep_lines r lines after c fuel lo :
  Forall (fun line => forall rest c, exists ys, mt r (line ++ NL :: rest) c = (c, rest) :: ys)
         lines ->
  (forall c, mt r after c = []) ->
  length (lines_text lines ++ after) <= fuel -> lo <= length lines ->
  exists xs, rep (mt r) true fuel lo None (lines_text lines ++ after) c = (c, after) :: xs.
Proof.
  intros Hok Hafter. revert fuel lo.
  induction Hok as [|line lines Hline _ IH]; intros fuel lo Hfuel Hlo.
  - cbn [lines_text flat_map app] in *. assert (lo = 0) as -> by (simpl in Hlo; lia).
    destruct fuel as [|fuel]; [rewrite rep_O; eauto|].
    rewrite rep_S, Hafter. simpl. eauto.
  - change (lines_text (line :: lines)) with ((line ++ [NL]) ++ lines_text lines) in *.
    rewrite <- !app_assoc in *. cbn [app] in *.
    destruct fuel as [|fuel]; [rewrite length_app in Hfuel; simpl in Hfuel; lia|].
    rewrite rep_S. cbv zeta. cbn [hi_done hi_pred].
    destruct (Hline (lines_text lines ++ after) c) as [ys ->].
    cbn [List.filter]. unfold progress at 1. cbn [snd].
    destruct (Nat.ltb_spec (length (lines_text lines ++ after))
                (length (line ++ NL :: lines_text lines ++ after)))
      as [_|Hge]; [|rewrite length_app in Hge; simpl in Hge; lia].
    destruct (IH fuel (pred lo)) as [xs Hxs].
    + rewrite length_app in Hfuel. simpl in Hfuel. lia.
    + simpl in Hlo. lia.
    + cbn [flat_map fst snd]. rewrite Hxs. simpl. eauto.
Qed.

(** A line of text and its newline, by the greedy choices of [.+\n?]. *)
Lemma mt_rest_of_line text rest c :
  text <> [] -> one_line text = true ->
  exists ys, mt (Seq (plus (dot nf)) (Seq (opt (chr nf NL)) Eps)) (text ++ NL :: rest) c
             = (c, rest) :: ys.
Proof.
  intros Hne Hline.
  change (mt (Seq (plus (dot nf)) (Seq (opt (chr nf NL)) Eps)) (text ++ NL :: rest) c)
    with (flat_map (fun x => mt (Seq (opt (chr nf NL)) Eps) (snd x) (fst x))
                   (mt (plus (dot nf)) (text ++ NL :: rest) c)).
  unfold plus, dot. rewrite mt_rep_sym. rewrite (take_while_ext _ not_newline) by done.
  rewrite take_while_line by done.
  destruct (rep_counts_greedy_head 1 (length text)) as [l ->].
  { destruct text; [done|simpl; lia]. }
  cbn [List.map]. destruct (mt_item_end rest c) as [ys Hys].
  eapply flat_map_head. cbn [fst snd]. rewrite skipn_app_length. exact Hys.
Qed.

Lemma rstrip_trimmed f a s :
  ends_in f (a :: s) = false -> rev (lstrip_by f (rev (a :: s))) = a :: s.
Proof.
  intros He. unfold ends_in in He. destruct (rev (a :: s)) as [|b t] eqn:E.
  - apply (f_equal (@rev N)) in E. rewrite rev_involutive in E. done.
  - cbn [lstrip_by]. rewrite He, <- E. apply rev_involutive.
Qed.

Lemma strip_by_prefix f p a s :
  forallb f p = true -> f a = false -> ends_in f (a :: s) = false ->
  strip_by f (p ++ a :: s) = a :: s.
Proof.
  intros Hp Ha He. unfold strip_by.
  assert (Hl : lstrip_by f (p ++ a :: s) = a :: s).
  { induction p as [|b p IH]; cbn [app lstrip_by]; [by rewrite Ha|].
    cbn [forallb] in Hp. apply andb_prop in Hp as [-> Hp]. by apply IH. }
  rewrite Hl. by apply rstrip_trimmed.
Qed.

(** The lines of a captured block of trimmed lines. *)
Lemma lines_of_block lines m :
  lines <> [] ->
  Forall (fun l => exists a t, l = a :: t /\ is_space a = false
                               /\ ends_in is_space l = false /\ one_line l = true) lines ->
  group 1 (m_groups m) = lines_text lines ->
  section_lines m = lines.
Proof.
  intros Hne Hok Hg. unfold section_lines. rewrite Hg. clear Hg m.
  destruct (exists_last Hne) as (init & last & ->).
  apply Forall_app in Hok as [Hinit Hlast].
  apply Forall_inv in Hlast. destruct Hlast as (la & lt & Hl & Hla & Hle & Hlo).
  assert (Htext : lines_text (init ++ [last]) = (lines_text init ++ last) ++ [NL]).
  { unfold lines_text. rewrite flat_map_app. cbn [flat_map].
    by rewrite app_nil_r, app_assoc. }
  rewrite Htext.
  assert (Hhead : exists a s, lines_text init ++ last = a :: s /\ is_space a = false).
  { destruct init as [|l init]; [cbn [lines_text flat_map app]; subst last; eauto|].
    apply Forall_inv in Hinit. destruct Hinit as (a & t & -> & Ha & _).
    cbn [lines_text flat_map app]. eauto. }
  destruct Hhead as (a & s & Hs & Ha).
  assert (Hend : ends_in is_space (lines_text init ++ last) = false).
  { rewrite ends_in_app; [done|]. by subst last. }
  rewrite Hs in *. rewrite strip_trimmed_newline by done. rewrite <- Hs.
  clear Hs Hend Htext Hne s a Ha.
  induction Hinit as [|l init Hi _ IH].
  - cbn [lines_text flat_map app]. by apply split_on_line.
  - change (lines_text (l :: init)) with ((l ++ [NL]) ++ lines_text init).
    destruct Hi as (a & t & _ & _ & _ & Hone).
    rewrite <- !app_assoc. cbn [app].
    rewrite split_on_lines by done. by rewrite IH.
Qed.

Lemma bullet_ok_spec text :
  bullet_ok text = true ->
  exists a t, text = a :: t /\ is_space a = false /\ one_of (u "- ") a = false
              /\ ends_in is_space text = false /\ ends_in (one_of (u "- ")) text = false
              /\ one_line text = true.
Proof.
  unfold bullet_ok. destruct text as [|a t]; [done|].
  intros H. split_bools. exists a, t.
  repeat match goal with H : negb _ = true |- _ => apply negb_true_iff in H end. done.
Qed.

Lemma mt_bullet_line text rest c :
  bullet_ok text = true ->
  exists ys, mt (seqs [lit nf (u "- "); plus (dot nf); opt (chr nf NL)])
                (bullet_line text ++ NL :: rest) c = (c, rest) :: ys.
Proof.
  intros (a & t & Ht & _ & _ & _ & _ & Hone)%bullet_ok_spec.
  unfold seqs, bullet_line. cbn [fold_right]. rewrite <- app_assoc.
  rewrite mt_seq_lit, startswith_app, skipn_app_length.
  apply mt_rest_of_line; [by subst text|done].
Qed.

Lemma bullet_line_trimmed text :
  bullet_ok text = true ->
  exists a t, bullet_line text = a :: t /\ is_space a = false
              /\ ends_in is_space (bullet_line text) = false
              /\ one_line (bullet_line text) = true.
Proof.
  intros (a & t & Ht & _ & _ & He & _ & Hone)%bullet_ok_spec.
  unfold bullet_line. change (u "- ") with [45; 32]%N. cbn [app].
  exists 45%N, (32%N :: text). split; [done|]. split; [done|]. split.
  - change (45 :: 32 :: text)%N with ([45; 32]%N ++ text). rewrite ends_in_app; [done|].
    by subst text.
  - change (45 :: 32 :: text)%N with ([45; 32]%N ++ text). by rewrite one_line_app, Hone.
Qed.

(** The block pattern of a bullet list at its label. *)
Lemma mt_bullets label texts after :
  texts <> [] -> Forall (fun t => bullet_ok t = true) texts ->
  startswith (u "- ") after = false ->
  exists xs,
    mt (bullets_re label) (label ++ NL :: lines_text (List.map bullet_line texts) ++ after) []
    = ([(1, lines_text (List.map bullet_line texts))], after) :: xs.
Proof.
  intros Hne Hok Hafter. unfold bullets_re.
  set (item := seqs [lit nf (u "- "); plus (dot nf); opt (chr nf NL)]).
  unfold seqs at 1. cbn [fold_right].
  rewrite mt_seq_lit, startswith_app, skipn_app_length.
  unfold star, ws. rewrite mt_seq_rep_sym.
  set (body := lines_text (List.map bullet_line texts) ++ after).
  assert (Hbody : exists s, body = 45%N :: s).
  { unfold body. destruct texts as [|t texts]; [done|].
    cbn [List.map lines_text flat_map]. unfold bullet_line at 1.
    change (u "- ") with [45; 32]%N. cbn [app]. eauto. }
  destruct Hbody as [s Hs]. rewrite Hs.
  cbn [take_while]. change (is_space NL) with true. change (is_space 45%N) with false.
  cbv iota. cbn [length rep_counts hi_done hi_pred Nat.eqb List.map app pred flat_map skipn].
  unfold chr. rewrite !mt_seq_sym. change (ignorecase nf) with false. cbv iota.
  change (NL =? 45)%N with false. cbv iota. cbn [app].
  rewrite N.eqb_refl. rewrite app_nil_r, <- Hs.
  change (mt (Seq (Grp 1 (plus item)) Eps) body [])
    with (flat_map (fun x => [(fst x, snd x)])
            (List.map (fun x => ((1, consumed body (snd x)) :: fst x, snd x))
               (rep (mt item) true (length body) 1 None body []))).
  destruct (rep_lines item (List.map bullet_line texts) after [] (length body) 1) as [xs Hxs].
  - apply Forall_map. eapply Forall_impl; [exact Hok|].
    intros t Ht rest c. by apply mt_bullet_line.
  - intros c. unfold item, seqs. cbn [fold_right]. by rewrite mt_seq_lit, Hafter.
  - done.
  - rewrite length_map. destruct texts; [done|simpl; lia].
  - fold body in Hxs. rewrite Hxs.
    cbn [List.map flat_map fst snd app]. unfold body. rewrite consumed_app. eauto.
Qed.

(** X5. Obstacles and helpful factors: a list of trimmed one-line bullets
    under the first occurrence of its label, followed by a text that starts
    no further bullet, gives the texts of the bullets, in order. *)
Theorem bullets_extracted (label pre : str) (texts : list str) (after : str) :
  absent_before label (pre ++ label ++ NL :: lines_text (List.map bullet_line texts) ++ after)
                (length pre) = true ->
  texts <> [] -> Forall (fun t => bullet_ok t = true) texts ->
  startswith (u "- ") after = false ->
  bullets_of label (pre ++ label ++ NL :: lines_text (List.map bullet_line texts) ++ after)
  = texts.
Proof.
  intros Habs Hne Hok Hafter. unfold bullets_of.
  destruct (mt_bullets label texts after Hne Hok Hafter) as [xs Hmt].
  unfold bullets_re, seqs in *. cbn [fold_right] in *.
  rewrite (re_search_labelled _ _ pre _ _ xs Habs Hmt).
  rewrite (lines_of_block (List.map bullet_line texts)).
  - clear Habs Hmt Hne xs. induction Hok as [|t texts Ht _ IH]; [done|].
    cbn [List.map flat_map]. rewrite IH.
    destruct (bullet_line_trimmed t Ht) as (a & s & Hl & Ha & He & _).
    assert (Hstrip : strip (bullet_line t) = bullet_line t).
    { rewrite Hl in *. by apply strip_trimmed. }
    rewrite Hstrip.
    assert (Hdash : str_eqb (bullet_line t) (u "-") = false).
    { unfold str_eqb. destruct (decide _) as [E|]; [|done].
      unfold bullet_line in E. change (u "- ") with [45; 32]%N in E. discriminate E. }
    rewrite Hdash. replace (nonempty (bullet_line t)) with true by (by rewrite Hl).
    cbn [andb negb app]. f_equal.
    destruct (bullet_ok_spec t Ht) as (b & w & -> & Hb & Hb' & Hbe & Hbe' & _).
    unfold bullet_line. change (u "- " ++ b :: w) with (45 :: 32 :: b :: w)%N.
    assert (Hinner : strip_by (one_of (u "- ")) ([45; 32]%N ++ b :: w) = b :: w).
    { by apply strip_by_prefix. }
    cbn [app] in Hinner.
    rewrite Hinner. by apply strip_trimmed.
  - destruct texts; [done|discriminate].
  - apply Forall_map. eapply Forall_impl; [exact Hok|]. intros t Ht.
    destruct (bullet_line_trimmed t Ht) as (a & s & Hl & Ha & He & Hone). eauto 10.
  - cbn [m_groups fst]. apply group_single.
Qed.

Lemma bullets_extracted_witness :
  bullets_of (u "**Что помешало:**")
    ([] ++ u "**Что помешало:**" ++ NL ::
       lines_text (List.map bullet_line [u "Усталость"; u "Поздний подъём"]) ++ [])
  = [u "Усталость"; u "Поздний подъём"].
Proof.
  apply (bullets_extracted (u "**Что помешало:**") [] [u "Усталость"; u "Поздний подъём"] []).
  - reflexivity.
  - discriminate.
  - repeat constructor.
  - reflexivity.
Defined.

(** ** Text blocks *)

(** A lazy group [(.+?)] under DOTALL followed by [r]. *)
Lemma mt_seq_group_lazy_all n r s c :
  mt (Seq (Grp n (plus_lazy (dot DOTALL))) r) s c
  = flat_map (fun k => mt r (skipn k s) ((n, firstn k s) :: c)) (seq 1 (length s)).
Proof.
  change (mt (Seq (Grp n (plus_lazy (dot DOTALL))) r) s c)
    with (flat_map (fun x => mt r (snd x) (fst x))
            (List.map (fun x => ((n, consumed s (snd x)) :: fst x, snd x))
                      (mt (plus_lazy (dot DOTALL)) s c))).
  unfold plus_lazy, dot. rewrite mt_rep_sym, rep_counts_lazy, take_while_all by done.
  replace (S (length s) - 1) with (length s) by lia.
  rewrite map_map, flat_map_concat_map, map_map, <- flat_map_concat_map.
  assert (Hall : forall k, In k (seq 1 (length s)) -> k <= length s)
    by (intros k Hk%in_seq; lia).
  induction (seq 1 (length s)) as [|k l IH]; simpl; [done|].
  rewrite consumed_skipn by (apply Hall; by left). f_equal. apply IH.
  intros k' Hk'. apply Hall. by right.
Qed.

(** The lookahead [(?=\n---|\n##|$)]. *)
Lemma mt_block_end s c :
  mt (Seq (Ahead (Alt (lit DOTALL [NL; 45; 45; 45]%N) (Alt (lit DOTALL [NL; 35; 35]%N) Eos)))
          Eps) s c
  = if block_end s then [(c, s)] else [].
Proof.
  change (mt (Seq (Ahead (Alt (lit DOTALL [NL; 45; 45; 45]%N)
                              (Alt (lit DOTALL [NL; 35; 35]%N) Eos))) Eps) s c)
    with (flat_map (fun x => [(fst x, snd x)])
            (match mt (lit DOTALL [NL; 45; 45; 45]%N) s c
                   ++ mt (lit DOTALL [NL; 35; 35]%N) s c ++ mt Eos s c with
             | [] => []
             | _ :: _ => [(c, s)]
             end)).
  rewrite !mt_lit. rewrite !(lit_at_flags DOTALL nf) by done. rewrite !lit_at_nf.
  unfold block_end. cbn [mt].
  destruct (startswith [NL; 45; 45; 45]%N s); [done|].
  destruct (startswith [NL; 35; 35]%N s); [done|].
  by destruct (at_end s).
Qed.

(** X6. Insights and the plan for tomorrow: the text that follows the first
    occurrence of the heading and one empty line, up to the first rule,
    heading or end of the text, trimmed. *)
Theorem block_extracted (header pre body stop : str) :
  absent_before header (pre ++ header ++ NL :: NL :: body ++ stop) (length pre) = true ->
  match body with a :: _ => is_space a = false | [] => False end ->
  body_runs_to body stop = true ->
  block_field header (pre ++ header ++ NL :: NL :: body ++ stop) = VStr (strip body).
Proof.
  intros Habs Hhead [Hin Hstop]%andb_prop. unfold block_field, block_re, seqs.
  cbn [fold_right]. change (lit DOTALL header) with (lit nf header).
  destruct body as [|a body]; [done|].
  assert (Hmt : exists xs,
             mt (Seq (lit nf header) (Seq (star ws) (Seq (chr DOTALL NL) (Seq (chr DOTALL NL)
                  (Seq (Grp 1 (plus_lazy (dot DOTALL)))
                       (Seq (Ahead (Alt (lit DOTALL [NL; 45; 45; 45]%N)
                                        (Alt (lit DOTALL [NL; 35; 35]%N) Eos))) Eps))))))
                (header ++ NL :: NL :: (a :: body) ++ stop) []
             = ([(1, a :: body)], stop) :: xs).
  { rewrite mt_seq_lit, startswith_app, skipn_app_length.
    unfold star, ws. rewrite mt_seq_rep_sym.
    cbn [app take_while]. change (is_space NL) with true. cbv iota. rewrite Hhead.
    cbn [length rep_counts hi_done hi_pred Nat.eqb List.map app pred flat_map skipn].
    unfold chr. rewrite !mt_seq_sym. change (ignorecase DOTALL) with false. cbv iota.
    rewrite !N.eqb_refl.
    assert (Ha : (NL =? a)%N = false).
    { destruct (N.eqb_spec NL a) as [<-|]; [done|done]. }
    rewrite Ha. cbn [app].
    rewrite app_nil_r. rewrite mt_seq_group_lazy_all.
    change (a :: body ++ stop) with ((a :: body) ++ stop).
    rewrite (flat_map_seq_first _ (length (a :: body))).
    - rewrite skipn_app_length, firstn_app_length, mt_block_end, Hstop. simpl. eauto.
    - rewrite length_app. simpl. lia.
    - intros k Hk. rewrite mt_block_end.
      rewrite forallb_forall in Hin.
      assert (Hk' : In k (seq 1 (length (a :: body) - 1))) by (apply in_seq; simpl in *; lia).
      apply Hin, negb_true_iff in Hk'. by rewrite Hk'. }
  destruct Hmt as [xs Hmt].
  rewrite (re_search_labelled _ _ pre _ _ xs Habs Hmt).
  cbn [m_groups fst]. by rewrite group_single.
Qed.

Lemma block_extracted_witness :
  block_field (u "## Инсайты и наблюдения")
    ([] ++ u "## Инсайты и наблюдения" ++ NL :: NL :: u "Утром легче." ++ [NL; 45; 45; 45]%N)
  = VStr (strip (u "Утром легче.")).
Proof.
  apply (block_extracted (u "## Инсайты и наблюдения") [] (u "Утром легче.") [NL; 45; 45; 45]%N).
  - reflexivity.
  - reflexivity.
  - reflexivity.
Defined.

(** ** What decides the exit code *)









Lemma for_each_cons {A S} (body : S -> A -> py_result S) a l st :
  for_each body (a :: l) st
  = match body st a with Ret st' => for_each body l st' | Raise e => Raise e end.
Proof. reflexivity. Qed.




(** ** The history entry of an update *)

Lemma contains_middle w a b : contains w (a ++ w ++ b) = true.
Proof. rewrite <- occurs_nf. apply occurs_app. by rewrite lit_at_nf, startswith_app. Qed.

Lemma contains_app_r w a b : contains w b = true -> contains w (a ++ b) = true.
Proof.
  rewrite <- !occurs_nf. intros (pre & rest & -> & H)%occurs_split.
  rewrite app_assoc. by apply occurs_app.
Qed.

Lemma contains_app_l w a b : contains w a = true -> contains w (a ++ b) = true.
Proof.
  rewrite <- !occurs_nf. intros (pre & rest & -> & H)%occurs_split.
  rewrite <- app_assoc. apply occurs_app.
  rewrite lit_at_nf in *. apply startswith_prefix in H. rewrite H, <- app_assoc.
  apply startswith_app.
Qed.

Lemma contains_prefix w b : contains w (w ++ b) = true.
Proof. rewrite <- occurs_nf. apply (occurs_app nf w []). by rewrite lit_at_nf, startswith_app. Qed.

(** A match of a group that opens with a literal text. *)
Lemma grp_lit_match w0 r s m :
  re_search (Grp 1 (Seq (lit nf w0) r)) s = Some m ->
  exists w, group 1 (m_groups m) = w0 ++ w /\ m_text m = w0 ++ w.
Proof.
  intros (x & xs & Hmt & Htext & Hg & Hpost)%re_search_found.
  set (t := m_text m ++ m_post m) in *.
  change (mt (Grp 1 (Seq (lit nf w0) r)) t [])
    with (List.map (fun y => ((1, consumed t (snd y)) :: fst y, snd y))
                   (mt (Seq (lit nf w0) r) t [])) in Hmt.
  destruct (mt (Seq (lit nf w0) r) t []) as [|y ys] eqn:Ey; [discriminate Hmt|].
  cbn [List.map] in Hmt. injection Hmt as <- _.
  assert (Hin : In y (mt (Seq (lit nf w0) r) t [])) by (rewrite Ey; by left).
  rewrite mt_seq_lit in Hin. destruct (startswith w0 t) eqn:Hs; [|done].
  apply mt_suffix in Hin as [w Hw]. apply startswith_prefix in Hs. rewrite Hw in Hs.
  exists w. cbn [fst snd] in *. rewrite Hg, Htext. unfold group. cbn [find fst snd Nat.eqb].
  rewrite Hs, app_assoc, consumed_app. done.
Qed.

Lemma stamp_and_log_history content today date evidence_count operations_percent :
  contains (u "## ИСТОРИЯ ИЗМЕНЕНИЙ")
           (stamp_and_log content true today date evidence_count operations_percent) = true
  /\ contains (history_entry today date evidence_count operations_percent)
              (stamp_and_log content true today date evidence_count operations_percent) = true.
Proof.
  unfold stamp_and_log. cbv zeta.
  set (stamped := re_sub last_update_pattern _ content).
  set (entry := history_entry today date evidence_count operations_percent).
  destruct (re_search history_pattern stamped) as [m|] eqn:Eh; cbn [is_some].
  - unfold history_pattern, seqs in *. cbn [fold_right] in *.
    destruct (grp_lit_match _ _ _ _ Eh) as (w & Hg & Htext).
    rewrite (re_sub_some _ _ _ _ Eh).
    + rewrite Hg. split.
      * apply contains_app_r. rewrite <- !app_assoc. apply contains_prefix.
      * apply contains_app_r. rewrite <- !app_assoc. apply contains_app_r.
        apply contains_app_r. apply (contains_middle _ [NL]).
    + rewrite Htext. intros H. apply app_eq_nil in H as [H _]. discriminate H.
  - split.
    + apply contains_app_r. apply (contains_middle _ [NL]).
    + rewrite !app_assoc. rewrite <- (app_assoc _ entry). apply contains_middle.
Qed.

(** X8. A goal text written back by an update holds the heading of the
    history section and the entry of the update, so the written file passes
    the validator's check of that section. *)
Theorem updated_goal_has_history (content : str) (rd : gmap string pyval)
    (today date text : str) :
  update_goal_metrics content rd today date = Ret (true, Some text) ->
  contains (u "## ИСТОРИЯ ИЗМЕНЕНИЙ") text = true
  /\ exists evidence_count operations_percent,
       count_evidence_from_reflection rd = Ret evidence_count
       /\ calculate_operations_percentage rd = Ret operations_percent
       /\ contains (history_entry today date evidence_count operations_percent) text = true.
Proof.
  unfold update_goal_metrics.
  destruct (count_evidence_from_reflection rd) as [count|e]; cbn [mbind py_bind];
    [|intros H; discriminate H].
  destruct (calculate_operations_percentage rd) as [p|e]; cbn [mbind py_bind];
    [|intros H; discriminate H].
  cbv zeta. destruct (snd (update_percent _ _ p)); [|intros H; discriminate H].
  intros [= <-].
  destruct (stamp_and_log_history
              (fst (update_percent (fst (update_evidence content count))
                                   (snd (update_evidence content count)) p))
              today date count p) as [H1 H2].
  split; [exact H1|]. exists count, p. by split; [|split].
Qed.

Lemma updated_goal_has_history_witness :
  let text := written_text goal_at_50
                (update_goal_metrics goal_at_50 day_with_50 (u "2025-01-06") (u "2025-01-05")) in
  contains (u "## ИСТОРИЯ ИЗМЕНЕНИЙ") text = true
  /\ exists evidence_count operations_percent,
       count_evidence_from_reflection day_with_50 = Ret evidence_count
       /\ calculate_operations_percentage day_with_50 = Ret operations_percent
       /\ contains (history_entry (u "2025-01-06") (u "2025-01-05")
                                  evidence_count operations_percent) text = true.
Proof.
  apply (updated_goal_has_history goal_at_50 day_with_50 (u "2025-01-06") (u "2025-01-05")).
  vm_compute. reflexivity.
Defined.

(** ** The goals a day updates *)

Lemma active_goal_files_spec files goals :
  active_goal_files files = Ret goals ->
  Forall (fun g => In (fst g, Readable (snd g)) files /\ is_active (snd g) = true) goals.
Proof.
  revert goals. induction files as [|[goal_file f] files IH]; intros goals.
  - intros [= <-]. constructor.
  - cbn [active_goal_files]. destruct f as [|msg|content]; try (intros H; discriminate H).
    destruct (active_goal_files files) as [rest|e]; cbn [mbind py_bind];
      [|intros H; discriminate H].
    specialize (IH rest eq_refl).
    assert (Hrest : Forall (fun g => In (fst g, Readable (snd g))
                                        ((goal_file, Readable content) :: files)
                                     /\ is_active (snd g) = true) rest).
    { eapply Forall_impl; [exact IH|]. intros g [H1 H2]. split; [by right|done]. }
    destruct (is_active content) eqn:Ea; intros [= <-]; [|exact Hrest].
    constructor; [|exact Hrest]. split; [by left|exact Ea].
Qed.

Lemma for_each_invariant {A S} (body : S -> A -> py_result S) (P : S -> Prop) l st st' :
  (forall s a s', In a l -> P s -> body s a = Ret s' -> P s') ->
  P st -> for_each body l st = Ret st' -> P st'.
Proof.
  revert st. induction l as [|a l IH]; intros st Hbody Hst.
  - intros [= <-]. exact Hst.
  - rewrite for_each_cons. destruct (body st a) as [s1|e] eqn:E; [|intros H; discriminate H].
    apply IH.
    + intros s b s' Hb. apply Hbody. by right.
    + apply (Hbody st a); [by left|exact Hst|exact E].
Qed.

(** X9. A day's update writes only goal files whose text holds the active
    status, returns True exactly when it wrote a file, and writes nothing
    when the reflection of the day is missing or cannot be read. *)
Theorem update_writes_active_goals_only (goal_files : option (list (str * file_state)))
    (reflection : file_state) (today date : str) (flag : bool) (written : list (str * str)) :
  update_metrics_for_date goal_files reflection today date = Ret (flag, written) ->
  flag = (0 <? length written)
  /\ Forall (fun w => exists files content,
                        goal_files = Some files /\ In (fst w, Readable content) files
                        /\ is_active content = true) written
  /\ match reflection with Readable _ => True | _ => written = [] end.
Proof.
  unfold update_metrics_for_date.
  destruct reflection as [|msg|content]; try (intros [= <- <-]; by repeat split).
  cbv zeta. unfold get_active_goals.
  destruct goal_files as [files|]; [|cbn [mbind py_bind]; intros [= <- <-]; by repeat split].
  destruct (active_goal_files files) as [goals|e] eqn:Eg; cbn [mbind py_bind];
    [|intros H; discriminate H].
  apply active_goal_files_spec in Eg.
  destruct goals as [|g goals]; [intros [= <- <-]; by repeat split|].
  destruct (for_each _ (g :: goals) []) as [ws|e] eqn:Ew; cbn [mbind py_bind];
    [|intros H; discriminate H].
  intros [= <- <-]. split; [reflexivity|]. split; [|exact I].
  revert Ew. apply for_each_invariant; [|constructor].
  intros ws0 goal ws1 Hin Hws0.
  destruct (update_goal_metrics _ _ today date) as [[b [text|]]|e]; cbn [mbind py_bind snd];
    intros [= <-]; [|exact Hws0].
  apply Forall_app. split; [exact Hws0|]. constructor; [|constructor].
  rewrite List.Forall_forall in Eg. destruct (Eg goal Hin) as [H1 H2].
  exists files, (snd goal). by repeat split.
Qed.

Lemma update_writes_active_goals_only_witness :
  flag_of sample_update = (0 <? length (written_of sample_update))
  /\ Forall (fun w => exists files content,
                        Some sample_goals = Some files /\ In (fst w, Readable content) files
                        /\ is_active content = true) (written_of sample_update)
  /\ True.
Proof.
  apply (update_writes_active_goals_only (Some sample_goals)
           (Readable (u "**Выполнение операций:** [50%]")) (u "2025-01-06") (u "2025-01-05")).
  vm_compute. reflexivity.
Defined.

Example sample_update_writes :
  List.map fst (written_of sample_update) = [u "goals/run.md"; u "goals/swim.md"]
  /\ flag_of sample_update = true.
Proof. vm_compute. split; reflexivity. Qed.

Lemma dict_get_evidence_done stem content dflt :
  dict_get (parse_reflection_text stem content) "evidence_done" dflt
  = VList (checklist_done_of (u "### Доказательства идентичности") content).
Proof. unfold dict_get. by rewrite parse_evidence_done. Qed.






(** ** An operation that names the habit *)



(** ** The operations percentage across the scripts *)

Lemma dict_get_parsed_percent stem content dflt :
  dict_get (parse_reflection_text stem content) "operations_percent" dflt
  = int_field (percent_re (u "**Выполнение операций:**")) content.
Proof. apply dict_get_operations_percent. Qed.

Lemma calculate_metrics_parsed stem content :
  (m ← calculate_metrics (parse_reflection_text stem content);
   Ret (dict_get m "operations_percent" VNone))
  = dashboard_operations_percent (parse_reflection_text stem content).
Proof.
  unfold calculate_metrics.
  destruct (dashboard_operations_percent _) as [v|e]; cbn [mbind py_bind]; [|reflexivity].
  rewrite dict_get_evidence_done. cbn [py_len mbind py_bind]. cbv zeta.
  unfold dict_get. by rewrite lookup_insert_eq.
Qed.

(** X12. One reflection, two readings of its operations percentage. When
    the field is missing, the daily dashboard reports None (and colours it
    red) while the metrics update counts the checked operations; when the
    field is 0, the dashboard counts the checked operations while the update
    takes 0; on any other value they agree. *)
Theorem operations_percent_readings (stem content : str) :
  let data := parse_reflection_text stem content in
  let counted := percent_of_count (length (operations_done_of content)) in
  let shown := m ← calculate_metrics data; Ret (dict_get m "operations_percent" VNone) in
  match int_field (percent_re (u "**Выполнение операций:**")) content with
  | VNone =>
      shown = Ret VNone
      /\ get_color_for_percentage VNone = Ret (u "#ff3b30")
      /\ calculate_operations_percentage data = Ret counted
  | VInt 0 =>
      shown = Ret (VInt counted) /\ calculate_operations_percentage data = Ret 0%Z
  | VInt p =>
      shown = Ret (VInt p) /\ calculate_operations_percentage data = Ret p
  | _ => False
  end.
Proof.
  intros data counted shown. unfold shown, data. rewrite calculate_metrics_parsed.
  unfold dashboard_operations_percent, calculate_operations_percentage.
  rewrite !dict_get_operations_percent, !dict_get_operations_done.
  destruct (int_field_cases (percent_re (u "**Выполнение операций:**")) content)
    as [->|[p ->]].
  - cbn [eq_0 py_len mbind py_bind]. split; [reflexivity|]. split; [reflexivity|].
    unfold counted, percent_of_count.
    destruct (Nat.ltb_spec 0 (length (operations_done_of content))) as [H|H]; [reflexivity|].
    replace (length (operations_done_of content)) with 0 by lia. reflexivity.
  - destruct p as [|p|p]; cbn [eq_0 py_len mbind py_bind]; by split.
Qed.

(** ** The statistics of a week *)






Lemma max_day_spec l d0 :
  (max_day l d0 = d0 \/ In (max_day l d0) l)
  /\ (percent_key d0 <= percent_key (max_day l d0))%Z
  /\ forall d, In d l -> (percent_key d <= percent_key (max_day l d0))%Z.
Proof.
  unfold max_day. revert d0. induction l as [|a l IH]; intros d0; cbn [fold_left].
  - split; [by left|]. split; [lia|]. intros d [].
  - destruct (Z.ltb_spec (percent_key d0) (percent_key a)) as [Hlt|Hge].
    + destruct (IH a) as (Hin & Hle & Hall). split; [|split].
      * right. destruct Hin as [->|Hin]; [by left|by right].
      * lia.
      * intros d [<-|Hd]; [exact Hle|by apply Hall].
    + destruct (IH d0) as (Hin & Hle & Hall). split; [|split].
      * destruct Hin as [Hin|Hin]; [by left|right; by right].
      * exact Hle.
      * intros d [<-|Hd]; [lia|by apply Hall].
Qed.

Lemma min_day_spec l d0 :
  (min_day l d0 = d0 \/ In (min_day l d0) l)
  /\ (percent_key (min_day l d0) <= percent_key d0)%Z
  /\ forall d, In d l -> (percent_key (min_day l d0) <= percent_key d)%Z.
Proof.
  unfold min_day. revert d0. induction l as [|a l IH]; intros d0; cbn [fold_left].
  - split; [by left|]. split; [lia|]. intros d [].
  - destruct (Z.ltb_spec (percent_key a) (percent_key d0)) as [Hlt|Hge].
    + destruct (IH a) as (Hin & Hle & Hall). split; [|split].
      * right. destruct Hin as [->|Hin]; [by left|by right].
      * lia.
      * intros d [<-|Hd]; [exact Hle|by apply Hall].
    + destruct (IH d0) as (Hin & Hle & Hall). split; [|split].
      * destruct Hin as [Hin|Hin]; [by left|right; by right].
      * exact Hle.
      * intros d [<-|Hd]; [lia|by apply Hall].
Qed.

Lemma positive_values_ints f week_data values :
  positive_values f week_data = Ret values ->
  Forall (fun d => exists p, f d = VInt p) week_data.
Proof.
  revert values. induction week_data as [|d week_data IH]; intros values; [constructor|].
  cbn [positive_values]. destruct (f d) as [|p| | |] eqn:E; try (intros H; discriminate H).
  destruct (positive_values f week_data) as [vs|e]; cbn [mbind py_bind];
    [|intros H; discriminate H].
  intros _. constructor; [eauto|]. by apply (IH vs).
Qed.

(** X14. The statistics of a week, when they exist: every percentage of the
    week is an integer, the best and the worst day are days of the week, and
    the percentage of every day lies between theirs. *)
Theorem week_stats_extremes (week_data : list day_data) (st : week_stats) :
  calculate_week_stats week_data = Ret (Some st) ->
  days_tracked st = length week_data
  /\ In (best_day st) week_data /\ In (worst_day st) week_data
  /\ exists worst best,
       d_operations_percent (worst_day st) = VInt worst
       /\ d_operations_percent (best_day st) = VInt best
       /\ Forall (fun d => exists p, d_operations_percent d = VInt p /\ (worst <= p <= best)%Z)
                 week_data.
Proof.
  unfold calculate_week_stats. destruct week_data as [|d0 rest]; [intros H; discriminate H|].
  destruct (positive_values d_operations_percent (d0 :: rest)) as [ops|e] eqn:Eo;
    cbn [mbind py_bind]; [|intros H; discriminate H].
  destruct (positive_values d_tactics_percent (d0 :: rest)) as [tac|e] eqn:Et;
    cbn [mbind py_bind]; [|intros H; discriminate H].
  cbv zeta. intros [= <-]. cbn [days_tracked best_day worst_day].
  apply positive_values_ints in Eo.
  destruct (max_day_spec rest d0) as (Hmax_in & Hmax0 & Hmax).
  destruct (min_day_spec rest d0) as (Hmin_in & Hmin0 & Hmin).
  assert (Hbest : In (max_day rest d0) (d0 :: rest)).
  { destruct Hmax_in as [->|H]; [by left|by right]. }
  assert (Hworst : In (min_day rest d0) (d0 :: rest)).
  { destruct Hmin_in as [->|H]; [by left|by right]. }
  split; [reflexivity|]. split; [exact Hbest|]. split; [exact Hworst|].
  rewrite List.Forall_forall in Eo.
  destruct (Eo _ Hworst) as [worst Hw]. destruct (Eo _ Hbest) as [best Hb].
  exists worst, best. split; [exact Hw|]. split; [exact Hb|].
  apply List.Forall_forall. intros d Hd. destruct (Eo d Hd) as [p Hp].
  exists p. split; [exact Hp|].
  assert (Hkw : percent_key (min_day rest d0) = worst) by (unfold percent_key; by rewrite Hw).
  assert (Hkb : percent_key (max_day rest d0) = best) by (unfold percent_key; by rewrite Hb).
  assert (Hkd : percent_key d = p) by (unfold percent_key; by rewrite Hp).
  destruct Hd as [<-|Hd]; [lia|].
  specialize (Hmax d Hd). specialize (Hmin d Hd). lia.
Qed.

Lemma week_stats_extremes_witness :
  match week_stats_of (calculate_week_stats
                         (collect_week_data week_with_percents 739257 739263)) with
  | Some st =>
      days_tracked st = 2
      /\ exists worst best,
           d_operations_percent (worst_day st) = VInt worst
           /\ d_operations_percent (best_day st) = VInt best
           /\ Forall (fun d => exists p, d_operations_percent d = VInt p
                                         /\ (worst <= p <= best)%Z)
                     (collect_week_data week_with_percents 739257 739263)
  | None => False
  end.
Proof.
  destruct (calculate_week_stats (collect_week_data week_with_percents 739257 739263))
    as [[st|]|e] eqn:E; cbn [week_stats_of].
  - destruct (week_stats_extremes _ st E) as (Hd & _ & _ & H). split; [|exact H].
    rewrite Hd. vm_compute. reflexivity.
  - vm_compute in E. discriminate E.
  - vm_compute in E. discriminate E.
Defined.

Example sample_week_stats :
  option_map (fun st => (avg_operations st, avg_tactics st, d_date (best_day st),
                         d_date (worst_day st)))
             (week_stats_of (calculate_week_stats
                               (collect_week_data week_with_percents 739257 739263)))
  = Some ((575 # 10)%Q, (650 # 10)%Q, 739257%Z, 739259%Z).
Proof. vm_compute. reflexivity. Qed.

(** ** Weeks *)

(** X15. The dates of a week: the week starts on a Monday and ends on the
    Sunday six days later, and week [n] starts in the [n]-th seven days of
    the year, so week 1 starts at the first Monday of the year. *)
Theorem week_dates_monday_to_sunday (year week_number week_start week_end : Z) :
  get_week_dates year week_number = Some (week_start, week_end) ->
  strftime_A week_start = "Monday"%string
  /\ strftime_A week_end = "Sunday"%string
  /\ week_end = (week_start + 6)%Z
  /\ (jan_1 year + 7 * (week_number - 1) <= week_start < jan_1 year + 7 * week_number)%Z.
Proof.
  unfold get_week_dates. destruct ((1 <=? year) && (year <=? 9999))%Z; [|intros H; discriminate H].
  cbv zeta. destruct (valid_ordinal _ && valid_ordinal _); [|intros H; discriminate H].
  intros [= <- <-]. unfold weekday. generalize (jan_1 year). intros j.
  assert (Hs : ((j + (7 - (j + 6) mod 7) mod 7 + 7 * (week_number - 1) + 6) mod 7 = 0)%Z)
    by (Z.div_mod_to_equations; lia).
  assert (He : ((j + (7 - (j + 6) mod 7) mod 7 + 7 * (week_number - 1) + 6 + 6) mod 7 = 6)%Z)
    by (Z.div_mod_to_equations; lia).
  unfold strftime_A. rewrite Hs, He.
  split; [reflexivity|]. split; [reflexivity|]. split; [reflexivity|].
  Z.div_mod_to_equations. lia.
Qed.

Lemma week_dates_monday_to_sunday_witness :
  strftime_A 739257 = "Monday"%string
  /\ strftime_A 739263 = "Sunday"%string
  /\ 739263%Z = (739257 + 6)%Z
  /\ (jan_1 2025 + 7 * (1 - 1) <= 739257 < jan_1 2025 + 7 * 1)%Z.
Proof.
  apply (week_dates_monday_to_sunday 2025 1 739257 739263). reflexivity.
Defined.

Lemma jan_1_bounds year :
  (1 <= year <= 9999)%Z ->
  (1 <= jan_1 year <= 3651695)%Z /\ (365 <= jan_1 (year + 1) - jan_1 year <= 366)%Z.
Proof. intros H. unfold jan_1. cbv zeta. Z.div_mod_to_equations. lia. Qed.

(** X16. The week shown by default. On a day of a year between the Monday
    of ISO week 1 of that year and that of the next year, the default week is the
    week of that day when the year starts on a Monday or on a Friday,
    Saturday or Sunday; when the year starts on a Tuesday, Wednesday or
    Thursday it is the week after. *)
Theorem default_week_of_today (year today : Z) :
  (1 <= year <= 9998)%Z ->
  (jan_1 year <= today < jan_1 (year + 1))%Z ->
  (isoweek1monday year <= today < isoweek1monday (year + 1))%Z ->
  let monday := (today - weekday today)%Z in
  let shift := if ((1 <=? weekday (jan_1 year)) && (weekday (jan_1 year) <=? 3))%Z
               then 7%Z else 0%Z in
  default_week year today = Some ((monday + shift)%Z, (monday + shift + 6)%Z).
Proof.
  intros Hyear _ Htoday monday shift.
  unfold default_week, iso_week, get_week_dates.
  assert (Hy : ((1 <=? year) && (year <=? 9999))%Z = true).
  { apply andb_true_intro. split; apply Z.leb_le; lia. }
  rewrite Hy. cbv zeta.
  assert (Hnext : (isoweek1monday (year + 1) <=? today)%Z = false) by (apply Z.leb_gt; lia).
  rewrite Hnext, andb_false_r.
  destruct (jan_1_bounds year) as [Hj Hj']; [lia|].
  destruct (jan_1_bounds (year + 1)) as [Hj2 _]; [lia|].
  unfold monday, shift, isoweek1monday, weekday, valid_ordinal, MAXORDINAL in *.
  cbv zeta in *. clear Hnext Hy monday shift.
  revert Htoday Hj Hj' Hj2. generalize (jan_1 year) (jan_1 (year + 1)).
  intros j j' Htoday Hj Hj' Hj2.
  assert (Hw0 : (0 <= (today - (if (3 <? (j + 6) mod 7)%Z
                                then (j - (j + 6) mod 7 + 7)%Z
                                else (j - (j + 6) mod 7)%Z)) / 7)%Z).
  { apply Z.div_pos; lia. }
  destruct (Z.ltb_spec ((today - (if (3 <? (j + 6) mod 7)%Z
                                  then (j - (j + 6) mod 7 + 7)%Z
                                  else (j - (j + 6) mod 7)%Z)) / 7) 0) as [Hneg|_]; [lia|].
  clear Hw0.
  destruct (Z.ltb_spec 3 ((j + 6) mod 7)) as [H3|H3];
    destruct (Z.ltb_spec 3 ((j' + 6) mod 7)) as [H3'|H3'];
    destruct (Z.leb_spec 1 ((j + 6) mod 7)) as [H1|H1];
    destruct (Z.leb_spec ((j + 6) mod 7) 3) as [H4|H4]; cbn [andb]; try lia.
  all: match goal with
       | |- (if ?c then _ else _) = _ =>
           assert (Hc : c = true);
           [ apply andb_true_intro; split; apply andb_true_intro; split; apply Z.leb_le;
             Z.div_mod_to_equations; lia
           | rewrite Hc; f_equal; f_equal; Z.div_mod_to_equations; lia ]
       end.
Qed.

Lemma default_week_of_today_witness :
  default_week 2025 739265
  = Some ((739265 - weekday 739265 + 7)%Z, (739265 - weekday 739265 + 7 + 6)%Z).
Proof.
  apply (default_week_of_today 2025 739265).
  - lia.
  - vm_compute. split; [discriminate|reflexivity].
  - vm_compute. split; [discriminate|reflexivity].
Defined.

(** ** The [.env] file *)

Lemma file_lines_line l rest :
  no_line_end l = true -> file_lines (l ++ NL :: rest) = l :: file_lines rest.
Proof.
  induction l as [|a l IH]; [done|]. cbn [no_line_end forallb app file_lines].
  intros [Ha Hl]%andb_prop. apply negb_true_iff in Ha. rewrite Ha.
  by rewrite (IH Hl).
Qed.

Lemma file_lines_prefix lines rest :
  Forall (fun l => no_line_end l = true) lines ->
  file_lines (lines_text lines ++ rest) = lines ++ file_lines rest.
Proof.
  induction 1 as [|l lines Hl _ IH]; [done|].
  change (lines_text (l :: lines)) with ((l ++ [NL]) ++ lines_text lines).
  rewrite <- !app_assoc. cbn [app]. by rewrite file_lines_line, IH.
Qed.

Lemma file_lines_text lines :
  Forall (fun l => no_line_end l = true) lines ->
  file_lines (lines_text lines) = lines ++ [[]].
Proof.
  intros H. rewrite <- (app_nil_r (lines_text lines)). by rewrite file_lines_prefix.
Qed.

Lemma split_at_equals_key key value :
  existsb (N.eqb 61%N) key = false ->
  split_at_equals (key ++ 61%N :: value) = (key, value).
Proof.
  induction key as [|a key IH]; [done|]. cbn [existsb app split_at_equals].
  intros [Ha Hk]%orb_false_elim. rewrite N.eqb_sym in Ha. rewrite Ha. by rewrite IH.
Qed.

Lemma strip_of_trimmed s : trimmed s = true -> strip s = s.
Proof.
  destruct s as [|a s]; [done|]. cbn [trimmed]. intros [Ha He]%andb_prop.
  apply negb_true_iff in Ha. apply negb_true_iff in He. by apply strip_trimmed.
Qed.

Lemma strip_binding key value :
  trimmed key = true -> trimmed value = true ->
  strip (key ++ 61%N :: value) = key ++ 61%N :: value.
Proof.
  intros Hk Hv.
  assert (Hhead : exists a t, key ++ 61%N :: value = a :: t /\ is_space a = false).
  { destruct key as [|a key]; [by exists 61%N, value|].
    cbn [trimmed] in Hk. apply andb_prop in Hk as [Ha _]. apply negb_true_iff in Ha.
    by exists a, (key ++ 61%N :: value). }
  destruct Hhead as (a & t & Ht & Ha).
  assert (Hend : ends_in is_space (key ++ 61%N :: value) = false).
  { destruct value as [|b value].
    - rewrite ends_in_app by done. reflexivity.
    - change (key ++ 61%N :: b :: value) with (key ++ [61%N] ++ b :: value).
      rewrite app_assoc, ends_in_app by done.
      cbn [trimmed] in Hv. apply andb_prop in Hv as [_ Hv]. by apply negb_true_iff in Hv. }
  rewrite Ht in *. by apply strip_trimmed.
Qed.

(** One entry of the file, when [os.environ] accepts its pair. *)
Lemma load_env_entry accepts e lines st :
  entry_ok e = true -> accepted accepts e = true ->
  load_env_lines accepts (render_entry e :: lines) st
  = load_env_lines accepts lines
      {| env_vars := bind_entry (env_vars st) e; environ := bind_entry (environ st) e |}.
Proof.
  intros Hok Hacc.
  destruct e as [text|key value]; cbn [render_entry bind_entry load_env_lines accepted] in *.
  - cbv zeta. cbn [entry_ok] in Hok. apply andb_prop in Hok as [_ Hok].
    destruct st as [m0 m1]. cbn [env_vars environ].
    destruct (negb (nonempty (strip text)) || startswith [35%N] (strip text)); [done|].
    cbn [orb] in Hok. apply negb_true_iff in Hok. by rewrite Hok.
  - cbv zeta. cbn [entry_ok] in Hok. split_bools.
    repeat match goal with H : negb _ = true |- _ => apply negb_true_iff in H end.
    change (key ++ [61%N] ++ value) with (key ++ 61%N :: value).
    rewrite strip_binding by done.
    assert (Hne : nonempty (key ++ 61%N :: value) = true) by (by destruct key).
    assert (Hhash : startswith [35%N] (key ++ 61%N :: value) = false).
    { destruct key as [|a key]; [done|]. cbn [app startswith] in *.
      by destruct (35 =? a)%N. }
    assert (Heq : existsb (N.eqb 61%N) (key ++ 61%N :: value) = true).
    { rewrite existsb_app. cbn [existsb]. rewrite N.eqb_refl. by rewrite orb_true_r. }
    rewrite Hne, Hhash, Heq. cbn [negb orb].
    rewrite split_at_equals_key by done.
    rewrite !strip_of_trimmed by done. by rewrite Hacc.
Qed.

Lemma load_env_entries accepts entries lines st :
  Forall (fun e => entry_ok e = true) entries ->
  Forall (fun e => accepted accepts e = true) entries ->
  load_env_lines accepts (List.map render_entry entries ++ lines) st
  = load_env_lines accepts lines
      {| env_vars := fold_left bind_entry entries (env_vars st);
         environ := fold_left bind_entry entries (environ st) |}.
Proof.
  intros Hok. revert st. induction Hok as [|e entries He _ IH]; intros st Hacc.
  - by destruct st.
  - apply Forall_cons_1 in Hacc as [Ha Hacc]. cbn [List.map app fold_left].
    rewrite load_env_entry by done. by rewrite IH.
Qed.

Lemma rendered_no_line_end entries :
  Forall (fun e => entry_ok e = true) entries ->
  Forall (fun l => no_line_end l = true) (List.map render_entry entries).
Proof.
  intros Hok. apply Forall_map. eapply Forall_impl; [exact Hok|]. intros e He.
  destruct e as [text|key value]; cbn [entry_ok render_entry] in *; split_bools; [done|].
  unfold no_line_end in *. rewrite !forallb_app. cbn [forallb].
  by repeat (apply andb_true_intro; split).
Qed.

Lemma rendered_lines entries :
  Forall (fun e => entry_ok e = true) entries ->
  file_lines (lines_text (List.map render_entry entries))
  = List.map render_entry entries ++ [[]].
Proof. intros Hok. by apply file_lines_text, rendered_no_line_end. Qed.

(** X17. Loading an [.env] file whose lines are comments, blank lines, lines
    without an equals sign and bindings [key=value] accepted by the
    environment: the dict returned holds every key with the value of its last
    binding, quotes around a value removed once, and the same pairs are set in
    the environment, over what it held. *)
Theorem env_file_loaded (accepts : str -> str -> bool) (entries : list env_entry)
    (environ0 : gmap str str) :
  Forall (fun e => entry_ok e = true) entries ->
  Forall (fun e => accepted accepts e = true) entries ->
  load_env_vars accepts (Readable (lines_text (List.map render_entry entries))) environ0
  = {| env_vars := fold_left bind_entry entries ∅;
       environ := fold_left bind_entry entries environ0 |}.
Proof.
  intros Hok Hacc. unfold load_env_vars. rewrite rendered_lines by done.
  by rewrite load_env_entries.
Qed.

Lemma env_file_loaded_witness :
  load_env_vars (fun _ _ => true) (Readable (lines_text (List.map render_entry sample_env)))
                (<[u "TZ" := u "Europe/Moscow"]> ∅)
  = {| env_vars := fold_left bind_entry sample_env ∅;
       environ := fold_left bind_entry sample_env (<[u "TZ" := u "Europe/Moscow"]> ∅) |}.
Proof.
  apply (env_file_loaded (fun _ _ => true) sample_env).
  - repeat constructor.
  - repeat constructor.
Defined.

Lemma fold_bind_unbound (key : str) (entries : list env_entry) (m : gmap str str) :
  forallb (fun e => negb (binds key e)) entries = true ->
  fold_left bind_entry entries m !! key = m !! key.
Proof.
  revert m. induction entries as [|e entries IH]; intros m; [done|].
  cbn [forallb fold_left]. intros [He Hes]%andb_prop. rewrite (IH _ Hes).
  destruct e as [text|key' value]; [done|]. cbn [bind_entry binds] in *.
  apply negb_true_iff in He. unfold str_eqb in He.
  destruct (decide (key' = key)) as [|Hne]; [done|]. by rewrite lookup_insert_ne.
Qed.

(** X18. A variable bound in the [.env] file overrides the variable of the
    same name in the environment: [get_env_var] returns the value of the
    last binding of the name in the file, whatever the environment held and
    whatever the default is. *)
Theorem env_file_overrides_environment (accepts : str -> str -> bool)
    (before after : list env_entry) (key value : str) (environ0 : gmap str str)
    (default : option str) :
  Forall (fun e => entry_ok e = true) (before ++ Binding key value :: after) ->
  Forall (fun e => accepted accepts e = true) (before ++ Binding key value :: after) ->
  forallb (fun e => negb (binds key e)) after = true ->
  get_env_var accepts
    (Readable (lines_text (List.map render_entry (before ++ Binding key value :: after))))
    environ0 key default
  = Some (unquote value).
Proof.
  intros Hok Hacc Hafter. unfold get_env_var, load_env_vars.
  rewrite rendered_lines by done. rewrite load_env_entries by done.
  cbn [load_env_lines strip lstrip_by rev nonempty negb orb environ env_vars].
  unfold strip, strip_by. cbn [lstrip_by rev nonempty negb orb environ].
  rewrite fold_left_app. cbn [fold_left bind_entry].
  rewrite fold_bind_unbound by done. by rewrite lookup_insert_eq.
Qed.

Lemma env_file_overrides_environment_witness :
  get_env_var (fun _ _ => true)
    (Readable (lines_text (List.map render_entry
                 ([Remark (u "# zone")] ++ Binding (u "TZ") (u "UTC") :: [Remark []]))))
    (<[u "TZ" := u "Europe/Moscow"]> ∅) (u "TZ") None
  = Some (unquote (u "UTC")).
Proof.
  apply (env_file_overrides_environment (fun _ _ => true) [Remark (u "# zone")] [Remark []]).
  - repeat constructor.
  - repeat constructor.
  - reflexivity.
Defined.

(** X19. When the environment rejects a pair, the loading stops there: the
    dict returned holds the pairs read so far and the rejected one, the
    environment holds the pairs read before it only, and the rest of the file
    is not read. *)
Theorem env_loading_stops_at_rejected_pair (accepts : str -> str -> bool)
    (before : list env_entry) (key value : str) (rest : str) (environ0 : gmap str str) :
  Forall (fun e => entry_ok e = true) (before ++ [Binding key value]) ->
  Forall (fun e => accepted accepts e = true) before ->
  accepts key (unquote value) = false ->
  load_env_vars accepts
    (Readable (lines_text (List.map render_entry (before ++ [Binding key value])) ++ rest))
    environ0
  = {| env_vars := <[key := unquote value]> (fold_left bind_entry before ∅);
       environ := fold_left bind_entry before environ0 |}.
Proof.
  intros Hok Hacc Hrej. unfold load_env_vars.
  rewrite file_lines_prefix by (by apply rendered_no_line_end).
  rewrite List.map_app, <- app_assoc. cbn [List.map app].
  apply Forall_app in Hok as [Hok1 Hok2]. apply Forall_inv in Hok2.
  rewrite load_env_entries by done. cbn [env_vars environ].
  cbn [render_entry load_env_lines]. cbv zeta.
  cbn [entry_ok] in Hok2. split_bools.
  repeat match goal with H : negb _ = true |- _ => apply negb_true_iff in H end.
  change (key ++ [61%N] ++ value) with (key ++ 61%N :: value).
  rewrite strip_binding by done.
  assert (Hne : nonempty (key ++ 61%N :: value) = true) by (by destruct key).
  assert (Hhash : startswith [35%N] (key ++ 61%N :: value) = false).
  { destruct key as [|a key]; [done|]. cbn [app startswith] in *.
    by destruct (35 =? a)%N. }
  assert (Heq : existsb (N.eqb 61%N) (key ++ 61%N :: value) = true).
  { rewrite existsb_app. cbn [existsb]. rewrite N.eqb_refl. by rewrite orb_true_r. }
  rewrite Hne, Hhash, Heq. cbn [negb orb].
  rewrite split_at_equals_key by done.
  rewrite !strip_of_trimmed by done. by rewrite Hrej.
Qed.

Lemma env_loading_stops_at_rejected_pair_witness :
  load_env_vars (fun key _ => nonempty key)
    (Readable (lines_text (List.map render_entry
                             ([Binding (u "A") (u "1")] ++ [Binding [] (u "2")]))
               ++ u "B=3"))
    ∅
  = {| env_vars := <[[] := unquote (u "2")]> (fold_left bind_entry [Binding (u "A") (u "1")] ∅);
       environ := fold_left bind_entry [Binding (u "A") (u "1")] ∅ |}.
Proof.
  apply (env_loading_stops_at_rejected_pair (fun key _ => nonempty key)
           [Binding (u "A") (u "1")] [] (u "2") (u "B=3") ∅).
  - repeat constructor.
  - repeat constructor.
  - reflexivity.
Defined.

(** ** The comments on a parsed reflection *)

Lemma tier_field_cases label content :
  tier_field label content = VNone \/ exists s, tier_field label content = VStr s.
Proof. unfold tier_field. destruct (re_search _ content); eauto. Qed.

Lemma operations_analysis_int r content n :
  exists a, operations_analysis (int_field r content) n = Some a.
Proof. destruct (int_field_cases r content) as [->|[p ->]]; cbn [operations_analysis]; eauto. Qed.

Lemma tactics_analysis_int r content :
  exists l, tactics_analysis (int_field r content) = Some l /\ length l <= 1.
Proof.
  destruct (int_field_cases r content) as [->|[p ->]]; cbn [tactics_analysis];
    eexists; (split; [reflexivity|]); cbn [length]; lia.
Qed.

Lemma obstacles_comments_list l :
  exists a r, obstacles_comments (VList l) = Some (a, r) /\ length a <= 1.
Proof.
  destruct l as [|o l]; cbn [obstacles_comments]; do 2 eexists;
    (split; [reflexivity|]); cbn [length]; lia.
Qed.

Lemma helpful_analysis_list l :
  exists h, helpful_analysis (VList l) = Some h /\ length h <= 1.
Proof.
  destruct l as [|o l]; unfold helpful_analysis; cbn [truthy py_len mbind option_bind];
    eexists; (split; [reflexivity|]); cbn [length]; lia.
Qed.

Lemma level_recommendation_tier label content word advice :
  exists l, level_recommendation (tier_field label content) word advice = Some l.
Proof.
  destruct (tier_field_cases label content) as [->|[s ->]]; cbn [level_recommendation truthy];
    eauto.
Qed.

Lemma rating_recommendation_int r content :
  exists l, rating_recommendation (int_field r content) = Some l.
Proof. destruct (int_field_cases r content) as [->|[p ->]]; cbn [rating_recommendation]; eauto. Qed.

Lemma below_50_int r content : exists b, below_50 (int_field r content) = Some b.
Proof. destruct (int_field_cases r content) as [->|[p ->]]; cbn [below_50]; eauto. Qed.

Lemma or_default_nonempty {A} (l : list A) (d : A) :
  match l with [] => [d] | _ :: _ => l end <> [].
Proof. by destruct l. Qed.

Lemma In_or_default {A} (l : list A) (d x : A) :
  In x l -> In x (match l with [] => [d] | _ :: _ => l end).
Proof. by destruct l. Qed.

Lemma parse_lookup_all stem content :
  let d := parse_reflection_text stem content in
  d !! "critical_events"%string = Some (VEvents (detect_critical_events content))
  /\ d !! "operations_done"%string = Some (VList (operations_done_of content))
  /\ d !! "operations_percent"%string
     = Some (int_field (percent_re (u "**Выполнение операций:**")) content)
  /\ d !! "tactics_percent"%string
     = Some (int_field (percent_re (u "**Выполнение тактики:**")) content)
  /\ d !! "evidence_done"%string
     = Some (VList (checklist_done_of (u "### Доказательства идентичности") content))
  /\ d !! "obstacles"%string = Some (VList (bullets_of (u "**Что помешало:**") content))
  /\ d !! "helpful_factors"%string = Some (VList (bullets_of (u "**Что помогло:**") content))
  /\ d !! "energy"%string = Some (tier_field (u "**Энергия:**") content)
  /\ d !! "motivation"%string = Some (tier_field (u "**Мотивация:**") content)
  /\ d !! "focus"%string = Some (tier_field (u "**Фокус:**") content)
  /\ d !! "rating"%string = Some (int_field (rating_re (u "**Общая оценка:**")) content).
Proof. cbv zeta. repeat split; reflexivity. Qed.

(** X20. The comments on any parsed reflection: the function does not
    raise, the recommendations and the adaptations are never empty, the
    analysis has two to five lines, and every critical event of the text has
    its comment and its recommendation. *)
Theorem comments_on_parsed_reflection (stem content : str) :
  exists c,
    generate_ai_comments (parse_reflection_text stem content) = Some c
    /\ recommendations c <> [] /\ adaptations c <> []
    /\ 2 <= length (analysis c) <= 5
    /\ event_comments c = List.map event_comment (detect_critical_events content)
    /\ forall event, In event (detect_critical_events content) ->
                     In (event_recommendation event) (recommendations c).
Proof.
  destruct (parse_lookup_all stem content)
    as (H1 & H2 & H3 & H4 & H5 & H6 & H7 & H8 & H9 & H10 & H11).
  unfold generate_ai_comments, dict_item, dict_len.
  rewrite H1, H2, H3, H4, H5, H6, H7, H8, H9, H10, H11.
  cbn [mbind option_bind comment_events py_len].
  destruct (operations_analysis_int (percent_re (u "**Выполнение операций:**")) content
              (length (operations_done_of content))) as [a ->].
  cbn [mbind option_bind].
  destruct (tactics_analysis_int (percent_re (u "**Выполнение тактики:**")) content)
    as (t & -> & Ht).
  cbn [mbind option_bind].
  destruct (obstacles_comments_list (bullets_of (u "**Что помешало:**") content))
    as (oa & orc & -> & Ho).
  cbn [mbind option_bind].
  destruct (helpful_analysis_list (bullets_of (u "**Что помогло:**") content))
    as (h & -> & Hh).
  cbn [mbind option_bind].
  match goal with
  | |- context [level_recommendation (tier_field ?l content) ?w ?adv] =>
      destruct (level_recommendation_tier l content w adv) as [e1 ->]
  end.
  cbn [mbind option_bind].
  match goal with
  | |- context [level_recommendation (tier_field ?l content) ?w ?adv] =>
      destruct (level_recommendation_tier l content w adv) as [e2 ->]
  end.
  cbn [mbind option_bind].
  match goal with
  | |- context [level_recommendation (tier_field ?l content) ?w ?adv] =>
      destruct (level_recommendation_tier l content w adv) as [e3 ->]
  end.
  cbn [mbind option_bind].
  destruct (rating_recommendation_int (rating_re (u "**Общая оценка:**")) content) as [rt ->].
  cbn [mbind option_bind].
  destruct (below_50_int (percent_re (u "**Выполнение операций:**")) content) as [b1 ->].
  cbn [mbind option_bind].
  destruct (below_50_int (percent_re (u "**Выполнение тактики:**")) content) as [b2 ->].
  cbn [mbind option_bind]. cbv zeta.
  eexists. split; [reflexivity|].
  cbn [recommendations adaptations analysis event_comments fst snd].
  split; [apply or_default_nonempty|]. split; [apply or_default_nonempty|].
  split.
  - rewrite !length_app. cbn [length]. lia.
  - split; [reflexivity|]. intros event Hev. apply In_or_default.
    apply in_or_app. left. by apply in_map.
Qed.

Example comments_on_sample_reflection :
  option_map (fun c => (length (analysis c), length (recommendations c),
                        length (adaptations c), List.map ec_type (event_comments c)))
             (generate_ai_comments (parse_reflection_text (u "2025-01-05")
                                                          reflection_with_accident))
  = Some (2, 2, 1, [FORCED_CHANGE]).
Proof. vm_compute. reflexivity. Qed.

(** ** The current streak *)

Lemma leading_completed_spec (l : list entry) (d : entry) :
  leading_completed l <= length l
  /\ (forall i, i < leading_completed l -> e_completed (nth i l d) = true)
  /\ (leading_completed l < length l -> e_completed (nth (leading_completed l) l d) = false).
Proof.
  induction l as [|e l (IH1 & IH2 & IH3)]; cbn [leading_completed length].
  - split; [lia|]. split; intros; lia.
  - destruct (e_completed e) eqn:E.
    + split; [lia|]. split.
      * intros [|i] Hi; cbn [nth]; [exact E|]. apply IH2. lia.
      * intros Hlt. cbn [nth]. apply IH3. lia.
    + split; [lia|]. split; [intros i Hi; lia|]. intros _. exact E.
Qed.

(** X21. The current streak is the number of consecutive completed days
    counted back from today: the days it covers are completed, and the day
    before them, when it lies in the window, is not. A day whose reflection is
    still missing today therefore gives a current streak of 0. *)
Theorem current_streak_counts_back_from_today (habit : Habit) (dir : daily_dir) (today : Z)
    (days_back : nat) :
  let k := current_streak (calculate_streaks habit dir today days_back) in
  k <= days_back
  /\ (forall i, i < k -> e_completed (day_entry habit dir (today - Z.of_nat i)) = true)
  /\ (k < days_back -> e_completed (day_entry habit dir (today - Z.of_nat k)) = false)
  /\ (0 < days_back -> file_of dir today = Absent -> k = 0).
Proof.
  cbv zeta. unfold calculate_streaks, streak_stats, collect_history. cbn [current_streak].
  rewrite rev_involutive.
  set (l := List.map (fun i => day_entry habit dir (today - Z.of_nat i)) (seq 0 days_back)).
  assert (Hlen : length l = days_back) by (unfold l; by rewrite length_map, length_seq).
  assert (Hnth : forall i, i < days_back ->
                           nth i l (day_entry habit dir today)
                           = day_entry habit dir (today - Z.of_nat i)).
  { intros i Hi. unfold l.
    rewrite (nth_indep _ _ (day_entry habit dir (today - Z.of_nat 0)))
      by (rewrite length_map, length_seq; lia).
    rewrite (map_nth (fun i => day_entry habit dir (today - Z.of_nat i))).
    by rewrite seq_nth. }
  destruct (leading_completed_spec l (day_entry habit dir today)) as (H1 & H2 & H3).
  rewrite Hlen in *.
  assert (Hpart : (forall i, i < leading_completed l ->
                             e_completed (day_entry habit dir (today - Z.of_nat i)) = true)
                  /\ (leading_completed l < days_back ->
                      e_completed (day_entry habit dir (today - Z.of_nat (leading_completed l)))
                      = false)).
  { split.
    - intros i Hi. rewrite <- Hnth by lia. by apply H2.
    - intros Hk. rewrite <- Hnth by lia. by apply H3. }
  destruct Hpart as [Ha Hb].
  split; [exact H1|]. split; [exact Ha|]. split; [exact Hb|].
  intros Hpos Habs. destruct (leading_completed l) as [|k] eqn:Ek; [reflexivity|].
  exfalso. specialize (Ha 0 ltac:(lia)). cbn [Z.of_nat] in Ha. rewrite Z.sub_0_r in Ha.
  unfold day_entry in Ha. rewrite Habs in Ha. discriminate Ha.
Qed.

(** ** The structure check *)


